(** * teeny-orchestrator: the orchestration triad, embedded and verified

    A shallow embedding of the Go packages [provider], [toolreg], [session],
    [context] and [loop], and of the cron parser of [scheduler], followed by
    the properties the specification states about them and by further
    properties of the same code.

    Conventions of the embedding:
    - a Go [string] is a sequence of bytes: Rocq's [string] (a list of
      [ascii], one per byte);
    - a Go [int] is a [Z]; where a value can reach the word size (the cron
      parser of package [scheduler]) the wrap-around is written out;
    - a Go [error] is the text its [Error()] method returns; [fmt.Errorf]
      with [%w] or [%s] concatenates;
    - a Go [map[string]T] is a [gmap string T]; the order in which [range]
      visits a map is chosen by the runtime and is an oracle of the model;
    - what the program asks of the outside world (subprocesses, the network,
      [encoding/json], the file system, the clock) enters through the type
      classes [GoRuntime] and [Transport], and every theorem holds for all
      their instances;
    - a [context.Context] only carries cancellation and deadlines, which
      belong to the oracles; [sync.RWMutex] guards are no-ops in this
      single-threaded model; [log.Printf] under [Verbose] prints only. *)

From stdpp Require Import gmap strings list fin_maps sorting pretty.
From Stdlib Require Import ZArith Lia Ascii.

Set Warnings "-register-all".
Open Scope string_scope.
Open Scope list_scope.

(** Go's [error] interface, observed through [Error()]. *)
Definition error := string.

(** A call that returns [(T, error)]: [inl] the value, [inr] the error. *)
Definition result (T : Type) := sum T error.

(* ===================================================================== *)
(** ** Go's [strings], [unicode] and [unicode/utf8], as far as called     *)
(* ===================================================================== *)

Module gostrings.

Definition byte_at (i : nat) (s : string) : N :=
  match String.get i s with Some c => N_of_ascii c | None => 0%N end.

Fixpoint drop_bytes (n : nat) (s : string) : string :=
  match n, s with
  | O, _ => s
  | S _, "" => ""
  | S k, String _ s' => drop_bytes k s'
  end.

(** [utf8.RuneError]. *)
Definition RuneError : N := 65533%N.

(** The size and the accepted range of the second byte that
    [utf8.first] and [utf8.acceptRanges] give a leading byte; [None] for
    a byte that cannot start a multi-byte sequence. *)
Definition first (b0 : N) : option (nat * N * N) :=
  if (b0 <? 194)%N then None                              (* 80..C1 *)
  else if (b0 <=? 223)%N then Some (2, 128%N, 191%N)      (* C2..DF *)
  else if (b0 =? 224)%N then Some (3, 160%N, 191%N)       (* E0 *)
  else if (b0 <=? 236)%N then Some (3, 128%N, 191%N)      (* E1..EC *)
  else if (b0 =? 237)%N then Some (3, 128%N, 159%N)       (* ED *)
  else if (b0 <=? 239)%N then Some (3, 128%N, 191%N)      (* EE..EF *)
  else if (b0 =? 240)%N then Some (4, 144%N, 191%N)       (* F0 *)
  else if (b0 <=? 243)%N then Some (4, 128%N, 191%N)      (* F1..F3 *)
  else if (b0 =? 244)%N then Some (4, 128%N, 143%N)       (* F4 *)
  else None.                                              (* F5..FF *)

Definition is_cont (b : N) : bool := (128 <=? b)%N && (b <=? 191)%N.

(** [utf8.DecodeRuneInString]: the rune at the head of [s] and its width
    in bytes; an invalid or truncated sequence is [RuneError] of width 1. *)
Definition DecodeRuneInString (s : string) : N * nat :=
  match s with
  | "" => (RuneError, 0)
  | String c0 _ =>
    let s0 := N_of_ascii c0 in
    if (s0 <? 128)%N then (s0, 1)
    else match first s0 with
      | None => (RuneError, 1)
      | Some (sz, lo, hi) =>
        if (String.length s <? sz)%nat then (RuneError, 1)
        else
          let s1 := byte_at 1 s in
          if (s1 <? lo)%N || (hi <? s1)%N then (RuneError, 1)
          else if (sz <=? 2)%nat then
            (N.lor (N.shiftl (N.land s0 31) 6) (N.land s1 63), 2)
          else
            let s2 := byte_at 2 s in
            if negb (is_cont s2) then (RuneError, 1)
            else if (sz <=? 3)%nat then
              (N.lor (N.lor (N.shiftl (N.land s0 15) 12)
                            (N.shiftl (N.land s1 63) 6))
                     (N.land s2 63), 3)
            else
              let s3 := byte_at 3 s in
              if negb (is_cont s3) then (RuneError, 1)
              else
                (N.lor (N.lor (N.lor (N.shiftl (N.land s0 7) 18)
                                     (N.shiftl (N.land s1 63) 12))
                              (N.shiftl (N.land s2 63) 6))
                       (N.land s3 63), 4)
      end
  end.

(** [unicode.IsSpace]: the code points with the White_Space property. *)
Definition IsSpace (r : N) : bool :=
  ((9 <=? r)%N && (r <=? 13)%N)
  || (r =? 32)%N || (r =? 133)%N || (r =? 160)%N
  || (r =? 5760)%N
  || ((8192 <=? r)%N && (r <=? 8202)%N)
  || (r =? 8232)%N || (r =? 8233)%N || (r =? 8239)%N
  || (r =? 8287)%N || (r =? 12288)%N.

Definition flush (cur : string) : list string :=
  match cur with "" => [] | _ => [cur] end.

(** The scan of [strings.FieldsFunc(s, unicode.IsSpace)]: [cur] is the
    field being read, [skip] counts the bytes still to pass of the rune
    decoded last, and [keep] says whether that rune belongs to [cur]. *)
Fixpoint fields_go (skip : nat) (keep : bool) (cur : string) (s : string)
  : list string :=
  match s with
  | "" => flush cur
  | String c s' =>
    match skip with
    | S k => fields_go k keep (if keep then cur +:+ String c "" else cur) s'
    | O =>
      let '(r, w) := DecodeRuneInString s in
      if IsSpace r
      then flush cur ++ fields_go (w - 1) false "" s'
      else fields_go (w - 1) true (cur +:+ String c "") s'
    end
  end.

(** [strings.Fields]: the maximal runs of non-space runes of [s], in
    order.  (Go's fast path for all-ASCII input computes the same list.) *)
Definition Fields (s : string) : list string := fields_go 0 true "" s.

(** [strings.Contains]. *)
Fixpoint Contains (s substr : string) : bool :=
  String.prefix substr s
  || match s with "" => false | String _ s' => Contains s' substr end.

Fixpoint replace_go (skip : nat) (s old new : string) : string :=
  match s with
  | "" => ""
  | String c s' =>
    match skip with
    | S k => replace_go k s' old new
    | O =>
      if String.prefix old s
      then new +:+ replace_go (String.length old - 1) s' old new
      else String c (replace_go 0 s' old new)
    end
  end.

(** [strings.ReplaceAll] for a non-empty [old]: the non-overlapping
    occurrences of [old], found left to right, each become [new].  Every
    call in this program passes a non-empty [old] (["{" + key + "}"] and
    [":"]); for an empty one Go inserts [new] around every rune, which
    this model leaves out and returns [s]. *)
Definition ReplaceAll (s old new : string) : string :=
  match old with
  | "" => s
  | _ => replace_go 0 s old new
  end.

(** [strings.Cut]: the text before and after the first [sep]. *)
Fixpoint Cut (s sep : string) : option (string * string) :=
  if String.prefix sep s then Some ("", drop_bytes (String.length sep) s)
  else match s with
    | "" => None
    | String c s' =>
      match Cut s' sep with
      | Some (before, after) => Some (String c before, after)
      | None => None
      end
    end.

(** [strings.SplitN(s, sep, 2)] for a non-empty [sep]: at most two
    parts, split around the first [sep]. *)
Definition SplitN2 (s sep : string) : list string :=
  match Cut s sep with
  | Some (before, after) => [before; after]
  | None => [s]
  end.

End gostrings.

(* ===================================================================== *)
(** ** Values of type [any] that [encoding/json] decodes                  *)
(* ===================================================================== *)

(** What [json.Unmarshal] stores in an [any]: [nil], [bool], [float64],
    [string], [[]any] or [map[string]any].  A [float64] is carried as its
    64-bit IEEE pattern; the program never computes with one. *)
Inductive JValue : Type :=
  | JNull
  | JBool (b : bool)
  | JNumber (bits : Z)
  | JString (s : string)
  | JArray (l : list JValue)
  | JObject (m : gmap string JValue).

Definition key_le (x y : string * string) : Prop := String.leb x.1 y.1 = true.

Global Instance key_le_dec x y : Decision (key_le x y).
Proof. unfold key_le. apply _. Defined.

Section sprint.
(** [strconv]'s shortest ['g'] rendering of a [float64], as [%v] prints it. *)
Variable format_float : Z -> string.

(** [fmt.Sprintf("%v", v)] on a decoded JSON value: strings bare, [nil] as
    [<nil>], slices as [[a b]], maps as [map[k:v ...]] with sorted keys. *)
Fixpoint sprint_v (v : JValue) : string :=
  match v with
  | JNull => "<nil>"
  | JBool true => "true"
  | JBool false => "false"
  | JNumber f => format_float f
  | JString s => s
  | JArray l => "[" +:+ String.concat " " (map sprint_v l) +:+ "]"
  | JObject m =>
    let kvs := map_fold (fun k v acc => (k, sprint_v v) :: acc) [] m in
    "map[" +:+ String.concat " "
                 (map (fun kv => kv.1 +:+ ":" +:+ kv.2) (merge_sort key_le kvs))
           +:+ "]"
  end.
End sprint.

(* ===================================================================== *)
(** ** Package [provider]: the canonical message model                    *)
(* ===================================================================== *)

Module provider.

(** [ToolCall]: a tool invocation requested by the LLM. *)
Record ToolCall := {
  tc_ID : string;
  tc_Name : string;
  tc_Arguments : string   (* JSON string *)
}.

(** [Message]: a conversation message. *)
Record Message := {
  Role : string;
  Content : string;
  ToolCalls : list ToolCall;
  ToolCallID : string
}.

(** [ToolDef]: a tool advertised to the LLM. *)
Record ToolDef := {
  td_Name : string;
  td_Description : string;
  td_Parameters : JValue   (* JSON Schema object *)
}.

Record Usage := {
  PromptTokens : Z;
  CompletionTokens : Z
}.

Record ChatRequest := {
  req_Model : string;
  req_Messages : list Message;
  req_Tools : list ToolDef;
  req_MaxTokens : Z
}.

Record ChatResponse := {
  resp_Content : string;
  resp_ToolCalls : list ToolCall;
  resp_Usage : Usage
}.

(** The zero value [ChatResponse{}]. *)
Definition zero_ChatResponse : ChatResponse :=
  {| resp_Content := ""; resp_ToolCalls := [];
     resp_Usage := {| PromptTokens := 0; CompletionTokens := 0 |} |}.

(** [Provider]: the interface all LLM backends implement.  A backend
    keeps what it needs between calls in a state of type [PState] (the
    network it talks to, a script of canned answers). *)
Record Provider := {
  PState : Type;
  Chat : PState -> ChatRequest -> result ChatResponse * PState;
  Name : string
}.

End provider.
Export provider.

(* ===================================================================== *)
(** ** What the program asks of the Go runtime and the operating system   *)
(* ===================================================================== *)

(** The error of [cmd.Run()]: the process could not start or exited
    non-zero, or its context's deadline passed and it was killed.  The
    source treats both alike; the model keeps them apart so that a timeout
    can be named. *)
Inductive RunError :=
  | ExitError (msg : error)
  | DeadlineExceeded (msg : error).

Definition Error_text (e : RunError) : error :=
  match e with ExitError m => m | DeadlineExceeded m => m end.

(** One run of a subprocess with its output captured in two buffers. *)
Record ProcResult := {
  run_err : option RunError;
  stdout : string;
  stderr : string
}.

Class GoRuntime := {
  (** the state of everything outside the process *)
  World : Type;
  (** [strconv]'s rendering of a [float64] under [%v] *)
  format_float : Z -> string;
  (** the order in which one [range] visits a map *)
  map_range : forall {A : Type}, gmap string A -> World -> list (string * A) * World;
  (** a [range] visits every entry of the map exactly once *)
  map_range_perm : forall (A : Type) (m : gmap string A) (w : World),
      (map_range m w).1 ≡ₚ map_to_list m;
  (** [json.Unmarshal(data, &args)] for [args map[string]any]; the text
      [null] leaves [args] nil, which reads as the empty map *)
  unmarshal_args : string -> result (gmap string JValue);
  (** [json.Unmarshal(data, &v)] for [v any]; it checks the whole text
      before it stores anything, so an error leaves [v] as it was *)
  unmarshal_any : string -> result JValue;
  (** [json.Marshal(v)] for [v any] *)
  marshal_any : JValue -> result string;
  (** [json.Marshal(map[string]any{"session": key, "iteration": n})] *)
  marshal_capture_input : string -> Z -> result string;
  (** [exec.LookPath(binary)] succeeds *)
  look_path : string -> World -> bool;
  (** [exec.CommandContext(ctx, binary, argv...)] with standard input
      [stdin], run to its end under the timeout (in nanoseconds; [None]
      for [exec.Command], which has no deadline) *)
  run_process : option Z -> string -> list string -> option string ->
                World -> ProcResult * World
}.

(** Code that threads a state of type [S]: the outside world for the
    executor, the whole run for the loop. *)
Definition State (S A : Type) : Type := S -> A * S.

Definition sret {S A} (a : A) : State S A := fun s => (a, s).

Definition sbind {S A B} (c : State S A) (k : A -> State S B) : State S B :=
  fun s => let '(a, s') := c s in k a s'.

Declare Scope state_scope.
Delimit Scope state_scope with state.
Notation "x <<- c ;; k" := (sbind c (fun x => k))
  (at level 100, c at next level, right associativity) : state_scope.
Notation "c ;;; k" := (sbind c (fun _ => k))
  (at level 100, right associativity) : state_scope.

(** A [for ... range] loop over a slice whose body threads the state and an
    accumulator. *)
Fixpoint sfold {S A B} (f : B -> A -> State S B) (l : list A) (b : B) : State S B :=
  match l with
  | [] => sret b
  | a :: l' => sbind (f b a) (sfold f l')
  end.

(** Computations that act on the outside world. *)
Abbreviation W := (State World).

(** [time.Second], in nanoseconds. *)
Definition Second : Z := 1000000000.

(* ===================================================================== *)
(** ** Package [toolreg]: manifests and the tool executor                 *)
(* ===================================================================== *)

Module toolreg.
Import gostrings.

(** [ParameterDef]; [pd_Default] is [JNull] when the manifest gives none. *)
Record ParameterDef := {
  pd_Type : string;
  pd_Description : string;
  pd_Required : bool;
  pd_Default : JValue
}.

(** [CommandDef]: a single command within a tool. *)
Record CommandDef := {
  cd_Description : string;
  Args : string;          (* template: "--namespace {namespace}" *)
  Stdin : bool;           (* whether content goes via stdin *)
  StdinParam : string;    (* which parameter provides stdin *)
  Parameters : gmap string ParameterDef
}.

(** [ToolManifest]: the tool.json format. *)
Record ToolManifest := {
  tm_Name : string;
  Binary : string;
  tm_Description : string;
  Commands : gmap string CommandDef
}.

(** [Registry]: the discovered tools, keyed by tool name. *)
Record Registry := {
  tools : gmap string ToolManifest;
  timeout : Z
}.

Definition NewRegistry (timeout : Z) : Registry :=
  {| tools := ∅;
     timeout := if (timeout =? 0)%Z then (30 * Second)%Z else timeout |}.

Definition Register (r : Registry) (m : ToolManifest) : Registry :=
  {| tools := <[tm_Name m := m]> (tools r); timeout := timeout r |}.

Section with_runtime.
Context `{GoRuntime}.
Local Open Scope state_scope.

Definition buildJSONSchema (params : gmap string ParameterDef) : W JValue :=
  order <<- map_range params ;;
  let '(properties, required) :=
    fold_left
      (fun (acc : gmap string JValue * list string) (np : string * ParameterDef) =>
         let '(properties, required) := acc in
         let '(name, p) := np in
         let prop : gmap string JValue :=
           <["description" := JString (pd_Description p)]>
             (<["type" := JString (pd_Type p)]> ∅) in
         let prop :=
           match pd_Default p with
           | JNull => prop
           | d => <["default" := d]> prop
           end in
         (<[name := JObject prop]> properties,
          if pd_Required p then required ++ [name] else required))
      order (∅, []) in
  let schema : gmap string JValue :=
    <["properties" := JObject properties]> (<["type" := JString "object"]> ∅) in
  sret (JObject
          (match required with
           | [] => schema
           | _ => <["required" := JArray (JString <$> required)]> schema
           end)).

(** [ToToolDefs]: each command becomes a separate tool, "toolname.command". *)
Definition ToToolDefs (r : Registry) : W (list ToolDef) :=
  ts <<- map_range (tools r) ;;
  sfold (fun defs (nt : string * ToolManifest) =>
           let tool := nt.2 in
           cs <<- map_range (Commands tool) ;;
           sfold (fun defs (nc : string * CommandDef) =>
                    let '(cmdName, cmd) := nc in
                    schema <<- buildJSONSchema (Parameters cmd) ;;
                    sret (defs ++
                          [{| td_Name := tm_Name tool +:+ "." +:+ cmdName;
                              td_Description :=
                                "[" +:+ tm_Name tool +:+ "] " +:+ cd_Description cmd;
                              td_Parameters := schema |}]))
                 cs defs)
        ts [].

(** The name of the parameter piped to standard input. *)
Definition stdinParam_of (cmdDef : CommandDef) : string :=
  if decide (StdinParam cmdDef = "") then "content" else StdinParam cmdDef.

(** The template of [cmdDef] after the [ReplaceAll] of each argument,
    in the order the [range] visits them. *)
Definition expand (template : string) (order : list (string * JValue)) : string :=
  fold_left
    (fun expanded (kv : string * JValue) =>
       ReplaceAll expanded ("{" +:+ kv.1 +:+ "}") (sprint_v format_float kv.2))
    order template.

(** The fields of the expanded template that hold no brace. *)
Definition keep_parts (result : list string) (parts : list string) : list string :=
  fold_left
    (fun result part =>
       if negb (Contains part "{") then result ++ [part] else result)
    parts result.

(** The [--key value] pairs of flag mode. *)
Definition flag_pairs (cmdDef : CommandDef) (result : list string)
           (order : list (string * JValue)) : list string :=
  fold_left
    (fun result (kv : string * JValue) =>
       if Stdin cmdDef && bool_decide (kv.1 = stdinParam_of cmdDef)
       then result
       else result ++ ["--" +:+ kv.1; sprint_v format_float kv.2])
    order result.

Definition buildCommandArgs (cmdDef : CommandDef) (args : gmap string JValue)
           (cmdName : string) : W (list string) :=
  let result := [cmdName] in
  if negb (bool_decide (Args cmdDef = "")) then
    (* template-based: replace {param} with values *)
    order <<- map_range args ;;
    let expanded := expand (Args cmdDef) order in
    sret (keep_parts result (Fields expanded))
  else
    (* flag-based: --key value for each arg *)
    order <<- map_range args ;;
    sret (flag_pairs cmdDef result order).

(** [Execute] runs a tool command and returns the output. *)
Definition Execute (r : Registry) (toolCall : ToolCall) : W (result string) :=
  match SplitN2 (tc_Name toolCall) "." with
  | [toolName; cmdName] =>
    match tools r !! toolName with
    | None => sret (inr ("unknown tool: " +:+ toolName))
    | Some tool =>
      match Commands tool !! cmdName with
      | None => sret (inr ("unknown command: " +:+ toolName +:+ "." +:+ cmdName))
      | Some cmdDef =>
        match unmarshal_args (tc_Arguments toolCall) with
        | inr err => sret (inr ("parse tool arguments: " +:+ err))
        | inl args =>
          cmdArgs <<- buildCommandArgs cmdDef args cmdName ;;
          let stdin :=
            if Stdin cmdDef
            then sprint_v format_float <$> (args !! stdinParam_of cmdDef)
            else None in
          res <<- run_process (Some (timeout r)) (Binary tool) cmdArgs stdin ;;
          match run_err res with
          | Some err =>
            let errMsg :=
              if decide (stderr res = "") then Error_text err else stderr res in
            sret (inr (toolName +:+ "." +:+ cmdName +:+ " failed: " +:+ errMsg))
          | None => sret (inl (stdout res))
          end
        end
      end
    end
  | _ =>
    sret (inr ("invalid tool name: " +:+ tc_Name toolCall
               +:+ " (expected tool.command)"))
  end.

End with_runtime.
End toolreg.

(* ===================================================================== *)
(** ** Package [session]: conversation history                            *)
(* ===================================================================== *)

Module session.
Import gostrings.

(** [Session]: conversation state.  The [Created] and [Updated] stamps
    of the source are clock readings that nothing reads back; they are
    left out. *)
Record Session := {
  Key : string;
  Messages : list Message;
  Summary : string
}.

(** [Manager]: the sessions in memory and the directory that backs them. *)
Record Manager := {
  sessions : gmap string Session;
  dir : string
}.

Definition GetHistory (m : Manager) (key : string) : list Message :=
  match sessions m !! key with
  | Some s => Messages s      (* a copy of the slice *)
  | None => []
  end.

Definition GetSummary (m : Manager) (key : string) : string :=
  match sessions m !! key with
  | Some s => Summary s
  | None => ""
  end.

(** [getOrCreate]: the session under [key], a fresh one when absent. *)
Definition getOrCreate (m : Manager) (key : string) : Session :=
  match sessions m !! key with
  | Some s => s
  | None => {| Key := key; Messages := []; Summary := "" |}
  end.

(** [AddMessage] appends a message to a session. *)
Definition AddMessage (m : Manager) (key : string) (msg : Message) : Manager :=
  let s := getOrCreate m key in
  {| sessions :=
       <[key := {| Key := Key s; Messages := Messages s ++ [msg];
                   Summary := Summary s |}]> (sessions m);
     dir := dir m |}.

(** [SetSummary] sets the compaction summary and truncates history. *)
Definition SetSummary (m : Manager) (key : string) (summary : string)
           (keepLast : Z) : Manager :=
  let s := getOrCreate m key in
  let n := Z.of_nat (length (Messages s)) in
  {| sessions :=
       <[key := {| Key := Key s;
                   Messages :=
                     if (0 <? keepLast)%Z && (keepLast <? n)%Z
                     then drop (Z.to_nat (n - keepLast)) (Messages s)
                     else Messages s;
                   Summary := summary |}]> (sessions m);
     dir := dir m |}.

Definition MessageCount (m : Manager) (key : string) : Z :=
  match sessions m !! key with
  | Some s => Z.of_nat (length (Messages s))
  | None => 0
  end.

Definition sanitize (key : string) : string := ReplaceAll key ":" "_".

(** The file system under the manager. *)
Class SessionFiles `{GoRuntime} := {
  (** [json.MarshalIndent] of the snapshot, then the write to a temporary
      file of [dir] and the rename onto [dir/filename]: [None] when all
      of it succeeds *)
  write_snapshot : string -> string -> Session -> W (option error)
}.

(** [Save] persists a session to disk. *)
Definition Save `{SessionFiles} (m : Manager) (key : string) : W (option error) :=
  match sessions m !! key with
  | None => sret None
  | Some s => write_snapshot (dir m) (sanitize key +:+ ".json") s
  end.

End session.

(* ===================================================================== *)
(** ** Package [context]: the request's messages                          *)
(* ===================================================================== *)

Module ctxpkg.

Record Config := {
  BootstrapMaxChars : Z;
  BootstrapTotalMaxChars : Z
}.

Definition DefaultConfig : Config :=
  {| BootstrapMaxChars := 20000; BootstrapTotalMaxChars := 24000 |}.

Record Builder := {
  workspace : string;
  cfg : Config;
  registry : option toolreg.Registry   (* a pointer that may be nil *)
}.

Definition NewBuilder (workspace : string) (cfg : Config)
           (registry : option toolreg.Registry) : Builder :=
  {| workspace := workspace; cfg := cfg; registry := registry |}.

(** The prompt assembly reads the workspace's files, the clock and the
    platform; the loop consumes it through this one method. *)
Class PromptSources `{GoRuntime} := {
  BuildSystemPrompt : Builder -> string -> W string
}.

Local Open Scope state_scope.

(** [BuildMessages] constructs the full message list for an LLM call. *)
Definition BuildMessages `{PromptSources} (b : Builder) (history : list Message)
           (summary : string) (userMessage : string) : W (list Message) :=
  systemPrompt <<- BuildSystemPrompt b summary ;;
  sret ([{| Role := "system"; Content := systemPrompt;
            ToolCalls := []; ToolCallID := "" |}]
        ++ history
        ++ [{| Role := "user"; Content := userMessage;
               ToolCalls := []; ToolCallID := "" |}]).

End ctxpkg.

(* ===================================================================== *)
(** ** Package [loop]: the agent tool loop                                *)
(* ===================================================================== *)

Module loop.

(** [Config] for the agent loop. *)
Record Config := {
  MaxIterations : Z;
  SessionKey : string;
  Verbose : bool;
  AutoCapture : bool;     (* record calls to token-eval *)
  EvalBinary : string     (* path to token-eval binary *)
}.

Definition DefaultConfig : Config :=
  {| MaxIterations := 20; SessionKey := "main"; Verbose := false;
     AutoCapture := true; EvalBinary := "token-eval" |}.

(** [AgentLoop]: the collaborators that a run only reads.  The session
    manager, which it shares and mutates through a pointer, is part of
    [RunState]. *)
Record AgentLoop := {
  provider : Provider;
  registry : toolreg.Registry;
  ctxBuilder : ctxpkg.Builder;
  cfg : Config
}.

Definition New (p : Provider) (reg : toolreg.Registry) (cb : ctxpkg.Builder)
           (cfg : Config) : AgentLoop :=
  {| provider := p; registry := reg; ctxBuilder := cb; cfg := cfg |}.

(** [truncate]: the first [max] bytes of [s], marked when cut. *)
Definition truncate (s : string) (max : Z) : string :=
  if (Z.of_nat (String.length s) <=? max)%Z then s
  else String.substring 0 (Z.to_nat max) s +:+ "...".

Section with_runtime.
Context `{HR : GoRuntime} `{!session.SessionFiles} `{!ctxpkg.PromptSources}.
Local Open Scope state_scope.

(** Everything a run can change: the provider behind its interface,
    the outside world and the session manager; and, as a record of
    what the run did, the calls it made to [Chat] (request and answer)
    and to [Save] (session key), oldest first. *)
Record RunState (p : Provider) := {
  pstate : PState p;
  world : World;
  sessions : session.Manager;
  chat_log : list (ChatRequest * result ChatResponse);
  save_log : list string
}.
Arguments pstate {p}. Arguments world {p}. Arguments sessions {p}.
Arguments chat_log {p}. Arguments save_log {p}.

Abbreviation M p := (State (RunState p)).

(** A step that acts on the outside world only. *)
Definition in_world {p A} (c : W A) : M p A :=
  fun st =>
    let '(a, w) := c (world st) in
    (a, {| pstate := pstate st; world := w; sessions := sessions st;
           chat_log := chat_log st; save_log := save_log st |}).

(** [al.sessions.AddMessage(key, msg)]. *)
Definition addMessage {p} (key : string) (msg : Message) : M p unit :=
  fun st =>
    (tt, {| pstate := pstate st; world := world st;
            sessions := session.AddMessage (sessions st) key msg;
            chat_log := chat_log st; save_log := save_log st |}).

(** [al.sessions.Save(key)]; the run notes the call. *)
Definition save {p} (key : string) : M p (option error) :=
  fun st =>
    let '(e, w) := session.Save (sessions st) key (world st) in
    (e, {| pstate := pstate st; world := w; sessions := sessions st;
           chat_log := chat_log st; save_log := save_log st ++ [key] |}).

(** [al.provider.Chat(ctx, req)]; the run notes the call. *)
Definition chat {p} (req : ChatRequest) : M p (result ChatResponse) :=
  fun st =>
    let '(r, ps) := Chat p (pstate st) req in
    (r, {| pstate := ps; world := world st; sessions := sessions st;
           chat_log := chat_log st ++ [(req, r)]; save_log := save_log st |}).

(** [captureEval] records the LLM call to token-eval if available;
    whatever the recorder does, its outcome is dropped. *)
Definition captureEval (al : AgentLoop) (resp : ChatResponse) (intent : string)
           (iteration : Z) : W unit :=
  let binary := EvalBinary (cfg al) in
  if decide (binary = "") then sret tt
  else fun w =>
    if negb (look_path binary w) then (tt, w)
    else
      let args :=
        ["record";
         "--provider"; Name (provider al);
         "--prompt-tokens"; pretty (PromptTokens (resp_Usage resp));
         "--completion-tokens"; pretty (CompletionTokens (resp_Usage resp));
         "--intent";
         "orchestrator:" +:+ truncate intent 50 +:+ ":iter" +:+ pretty iteration] in
      let data :=
        match marshal_capture_input (SessionKey (cfg al)) iteration with
        | inl d => d
        | inr _ => ""
        end in
      let '(_, w') := run_process None binary args (Some data) w in
      (tt, w').

(** [if al.cfg.AutoCapture { al.captureEval(resp, userMessage, i+1) }]. *)
Definition capture {p} (al : AgentLoop) (resp : ChatResponse) (userMessage : string)
           (i : Z) : M p unit :=
  if AutoCapture (cfg al)
  then in_world (captureEval al resp userMessage (i + 1))
  else sret tt.

(** [provider.Message{Role: "user", Content: userMessage}]. *)
Definition userMsg (userMessage : string) : Message :=
  {| Role := "user"; Content := userMessage; ToolCalls := []; ToolCallID := "" |}.

(** The text of a tool's outcome: its output, or
    [fmt.Sprintf("Error: %s", err)]. *)
Definition resultText (r : result string) : string :=
  match r with
  | inl result => result
  | inr err => "Error: " +:+ err
  end.

(** [fmt.Errorf("LLM call failed (iteration %d): %w", k, err)]. *)
Definition call_failed (k : Z) (err : error) : error :=
  "LLM call failed (iteration " +:+ pretty k +:+ "): " +:+ err.

(** The content of the last response, or the sentinel when it is empty. *)
Definition exhausted_text (resp : ChatResponse) : string :=
  if decide (resp_Content resp = "") then "[max iterations reached]"
  else resp_Content resp.

(** The final content, or the fallback when it is empty. *)
Definition fallback (finalContent : string) : string :=
  if decide (finalContent = "")
  then "I've completed processing but have no response to give."
  else finalContent.

(** The [tool] message that answers [tc] with [result]. *)
Definition toolMsg (tc : ToolCall) (result : string) : Message :=
  {| Role := "tool"; Content := result; ToolCalls := [];
     ToolCallID := tc_ID tc |}.

(** The body of [for _, tc := range resp.ToolCalls]: run the call, turn
    an error into text, append the tool message to the transcript and
    to the session. *)
Definition execToolCall {p} (al : AgentLoop) (key : string)
           (messages : list Message) (tc : ToolCall) : M p (list Message) :=
  r <<- in_world (toolreg.Execute (registry al) tc) ;;
  let result := resultText r in
  addMessage key (toolMsg tc result) ;;;
  sret (messages ++ [toolMsg tc result]).

(** The whole [range] over the calls of one response. *)
Definition execToolCalls {p} (al : AgentLoop) (key : string)
           (tcs : list ToolCall) (messages : list Message) : M p (list Message) :=
  sfold (execToolCall al key) tcs messages.

(** The [assistant] message that carries the calls of [resp]. *)
Definition assistantMsg (resp : ChatResponse) : Message :=
  {| Role := "assistant"; Content := resp_Content resp;
     ToolCalls := resp_ToolCalls resp; ToolCallID := "" |}.

(** [for i := 0; i < al.cfg.MaxIterations; i++]: [n] is the number of
    iterations still allowed, [MaxIterations - i].  The loop ends with
    [inr] when [Run] returns the provider's error from inside it, and
    with [inl finalContent] when it breaks or runs out. *)
Fixpoint toolLoop {p} (al : AgentLoop) (key userMessage : string)
         (toolDefs : list ToolDef) (n : nat) (i : Z)
         (messages : list Message) (finalContent : string)
  : M p (result string) :=
  match n with
  | O => sret (inl finalContent)
  | S n' =>
    (* call LLM *)
    r <<- chat {| req_Model := ""; req_Messages := messages;
                  req_Tools := toolDefs; req_MaxTokens := 0 |} ;;
    match r with
    | inr err => sret (inr (call_failed (i + 1) err))
    | inl resp =>
      capture al resp userMessage i ;;;
      (* no tool calls: done *)
      if decide (length (resp_ToolCalls resp) = 0) then sret (inl (resp_Content resp))
      else
        (* append assistant message with tool calls *)
        let messages := messages ++ [assistantMsg resp] in
        addMessage key (assistantMsg resp) ;;;
        (* execute each tool call *)
        messages <<- execToolCalls al key (resp_ToolCalls resp) messages ;;
        (* if this was the last iteration, the next LLM call won't happen *)
        let finalContent :=
          if decide (i = MaxIterations (cfg al) - 1)%Z
          then exhausted_text resp
          else finalContent in
        toolLoop al key userMessage toolDefs n' (i + 1)%Z messages finalContent
    end
  end.

(** [Run] processes a user message through the full agent loop and
    returns the final assistant text response. *)
Definition Run {p} (al : AgentLoop) (userMessage : string) : M p (result string) :=
  let key := SessionKey (cfg al) in
  (* load history and summary *)
  history <<- (fun st => (session.GetHistory (sessions st) key, st)) ;;
  summary <<- (fun st => (session.GetSummary (sessions st) key, st)) ;;
  (* build initial messages *)
  messages <<- in_world (ctxpkg.BuildMessages (ctxBuilder al) history summary
                                              userMessage) ;;
  (* save user message to session *)
  addMessage key (userMsg userMessage) ;;;
  (* get tool definitions *)
  toolDefs <<- in_world (toolreg.ToToolDefs (registry al)) ;;
  (* tool loop *)
  r <<- toolLoop al key userMessage toolDefs
                 (Z.to_nat (MaxIterations (cfg al))) 0 messages "" ;;
  match r with
  | inr err => sret (inr err)
  | inl finalContent =>
    let finalContent := fallback finalContent in
    (* save assistant response *)
    addMessage key {| Role := "assistant"; Content := finalContent;
                      ToolCalls := []; ToolCallID := "" |} ;;;
    _ <<- save key ;;
    sret (inl finalContent)
  end.

End with_runtime.
Arguments pstate {_ p}. Arguments world {_ p}. Arguments sessions {_ p}.
Arguments chat_log {_ p}. Arguments save_log {_ p}.
End loop.

(* ===================================================================== *)
(** ** Package [provider]: the two wire protocols                         *)
(* ===================================================================== *)

(** An outgoing [http.Request]. *)
Record HttpRequest := {
  http_method : string;
  http_url : string;
  http_header : list (string * string);
  http_body : string
}.

(** What [http.DefaultClient.Do] followed by [io.ReadAll(resp.Body)] ends in. *)
Inductive HttpResult :=
  | DoFailed (err : error)                  (* no response at all *)
  | ReadFailed (status : Z) (err : error)   (* the body could not be read *)
  | Responded (status : Z) (body : string).

Class Transport := {
  (** the state of the network and of the backends behind it *)
  Net : Type;
  (** the error, if any, of [http.NewRequestWithContext(ctx, method, url, _)] *)
  NewRequest_error : string -> string -> option error;
  (** one round trip *)
  http_Do : HttpRequest -> Net -> HttpResult * Net
}.

(** The state of an HTTP-backed provider: the network, and the requests
    this process has put on it, oldest first. *)
Record NetState `{Transport} := {
  net : Net;
  sent : list HttpRequest
}.

(** The [error] object both backends may put in a response body. *)
Record apiError := {
  err_Type : string;
  err_Message : string
}.

(** Variant A: the content-block protocol ([Anthropic]). *)
Module anthropic.

Definition anthropicAPIURL : string := "https://api.anthropic.com/v1/messages".

Record Anthropic := {
  apiKey : string;
  model : string
}.

Record contentBlock := {
  cb_Type : string;
  cb_Text : string;
  cb_ID : string;
  cb_Name : string;
  cb_Input : JValue;        (* [any]; [JNull] is the nil interface *)
  cb_ToolUseID : string;
  cb_Content : string
}.

(** [anthropicMessage.Content]: a string or a slice of blocks. *)
Inductive messageContent :=
  | TextContent (s : string)
  | BlockContent (blocks : list contentBlock).

Record anthropicMessage := {
  am_Role : string;
  am_Content : messageContent
}.

Record anthropicTool := {
  at_Name : string;
  at_Description : string;
  at_InputSchema : JValue
}.

Record anthropicRequest := {
  ar_Model : string;
  ar_MaxTokens : Z;
  ar_System : string;
  ar_Messages : list anthropicMessage;
  ar_Tools : list anthropicTool
}.

Record anthropicResponse := {
  rs_Content : list contentBlock;
  rs_InputTokens : Z;
  rs_OutputTokens : Z;
  rs_StopReason : string;
  rs_Error : option apiError;
  rs_Type : string
}.

(** [encoding/json] at the two struct types of the protocol. *)
Class WireJSON := {
  marshal_request : anthropicRequest -> result string;
  unmarshal_response : string -> result anthropicResponse
}.

Section with_runtime.
Context `{GoRuntime} `{Transport} `{WireJSON}.

(** The [tool_use] block of one call: [input] starts as nil and
    [json.Unmarshal] fills it unless it fails, its error dropped. *)
Definition toolUseBlock (tc : ToolCall) : contentBlock :=
  let input :=
    match unmarshal_any (tc_Arguments tc) with
    | inl v => v
    | inr _ => JNull
    end in
  {| cb_Type := "tool_use"; cb_Text := ""; cb_ID := tc_ID tc;
     cb_Name := tc_Name tc; cb_Input := input;
     cb_ToolUseID := ""; cb_Content := "" |}.

(** The body of [for _, m := range req.Messages]. *)
Definition convertMessage (acc : string * list anthropicMessage) (m : Message)
  : string * list anthropicMessage :=
  let '(system, msgs) := acc in
  if decide (Role m = "system") then (Content m, msgs)
  else if decide (Role m = "user") then
    (system, msgs ++ [{| am_Role := "user"; am_Content := TextContent (Content m) |}])
  else if decide (Role m = "assistant") then
    if (0 <? length (ToolCalls m))%nat then
      (* assistant message with tool calls: content blocks *)
      let blocks :=
        (if decide (Content m = "") then []
         else [{| cb_Type := "text"; cb_Text := Content m; cb_ID := "";
                  cb_Name := ""; cb_Input := JNull; cb_ToolUseID := "";
                  cb_Content := "" |}])
        ++ map toolUseBlock (ToolCalls m) in
      (system, msgs ++ [{| am_Role := "assistant"; am_Content := BlockContent blocks |}])
    else
      (system, msgs ++ [{| am_Role := "assistant";
                           am_Content := TextContent (Content m) |}])
  else if decide (Role m = "tool") then
    (* tool result: user message with tool_result content block *)
    (system,
     msgs ++ [{| am_Role := "user";
                 am_Content :=
                   BlockContent
                     [{| cb_Type := "tool_result"; cb_Text := ""; cb_ID := "";
                         cb_Name := ""; cb_Input := JNull;
                         cb_ToolUseID := ToolCallID m;
                         cb_Content := Content m |}] |}])
  else acc.

Definition convertMessages (ms : list Message) : string * list anthropicMessage :=
  fold_left convertMessage ms ("", []).

Definition convertTools (ts : list ToolDef) : list anthropicTool :=
  map (fun t => {| at_Name := td_Name t; at_Description := td_Description t;
                   at_InputSchema := td_Parameters t |}) ts.

(** The request body's struct. *)
Definition buildRequest (a : Anthropic) (req : ChatRequest) : anthropicRequest :=
  let model := if decide (req_Model req = "") then model a else req_Model req in
  let maxTokens :=
    if decide (req_MaxTokens req = 0%Z) then 4096%Z else req_MaxTokens req in
  let '(system, msgs) := convertMessages (req_Messages req) in
  {| ar_Model := model; ar_MaxTokens := maxTokens; ar_System := system;
     ar_Messages := msgs; ar_Tools := convertTools (req_Tools req) |}.

(** The body of [for _, block := range apiResp.Content]. *)
Definition parseBlock (result : ChatResponse) (block : contentBlock) : ChatResponse :=
  if decide (cb_Type block = "text") then
    {| resp_Content := resp_Content result +:+ cb_Text block;
       resp_ToolCalls := resp_ToolCalls result;
       resp_Usage := resp_Usage result |}
  else if decide (cb_Type block = "tool_use") then
    let args :=
      match marshal_any (cb_Input block) with
      | inl s => s
      | inr _ => ""
      end in
    {| resp_Content := resp_Content result;
       resp_ToolCalls :=
         resp_ToolCalls result
         ++ [{| tc_ID := cb_ID block; tc_Name := cb_Name block;
                tc_Arguments := args |}];
       resp_Usage := resp_Usage result |}
  else result.

Definition parseResponse (apiResp : anthropicResponse) : ChatResponse :=
  fold_left parseBlock (rs_Content apiResp)
    {| resp_Content := ""; resp_ToolCalls := [];
       resp_Usage := {| PromptTokens := rs_InputTokens apiResp;
                        CompletionTokens := rs_OutputTokens apiResp |} |}.

Definition Chat (a : Anthropic) (st : NetState) (req : ChatRequest)
  : result ChatResponse * NetState :=
  if decide (apiKey a = "") then
    (inr "anthropic: ANTHROPIC_API_KEY not set", st)
  else
    match marshal_request (buildRequest a req) with
    | inr err => (inr ("anthropic: marshal request: " +:+ err), st)
    | inl body =>
      match NewRequest_error "POST" anthropicAPIURL with
      | Some err => (inr ("anthropic: create request: " +:+ err), st)
      | None =>
        let httpReq :=
          {| http_method := "POST"; http_url := anthropicAPIURL;
             http_header := [("Content-Type", "application/json");
                             ("x-api-key", apiKey a);
                             ("anthropic-version", "2023-06-01")];
             http_body := body |} in
        let '(res, net') := http_Do httpReq (net st) in
        let st' := {| net := net'; sent := sent st ++ [httpReq] |} in
        match res with
        | DoFailed err => (inr ("anthropic: request failed: " +:+ err), st')
        | ReadFailed _ err => (inr ("anthropic: read response: " +:+ err), st')
        | Responded status respBody =>
          if negb (status =? 200)%Z then
            (inr ("anthropic: HTTP " +:+ pretty status +:+ ": " +:+ respBody), st')
          else
            match unmarshal_response respBody with
            | inr err => (inr ("anthropic: unmarshal response: " +:+ err), st')
            | inl apiResp =>
              match rs_Error apiResp with
              | Some e =>
                if decide (rs_Type apiResp = "error") then
                  (inr ("anthropic: API error: " +:+ err_Type e +:+ ": "
                        +:+ err_Message e), st')
                else (inl (parseResponse apiResp), st')
              | None => (inl (parseResponse apiResp), st')
              end
            end
        end
      end
    end.

(** [Anthropic] behind the [Provider] interface. *)
Definition as_Provider (a : Anthropic) : Provider :=
  {| PState := NetState; provider.Chat := Chat a; Name := "anthropic" |}.

End with_runtime.
End anthropic.

(** Variant B: the flat-message protocol ([OpenAI] and compatible). *)
Module openai.

Definition openaiDefaultURL : string := "https://api.openai.com/v1/chat/completions".

Record OpenAI := {
  apiKey : string;
  model : string;
  baseURL : string
}.

(** [WithBaseURL] sets a custom API base URL. *)
Definition WithBaseURL (url : string) (o : OpenAI) : OpenAI :=
  {| apiKey := apiKey o; model := model o; baseURL := url |}.

Record openaiToolCall := {
  otc_ID : string;
  otc_Type : string;
  otc_Function_Name : string;
  otc_Function_Arguments : string
}.

Record openaiMessage := {
  om_Role : string;
  om_Content : string;
  om_ToolCalls : list openaiToolCall;
  om_ToolCallID : string
}.

Record openaiTool := {
  ot_Type : string;
  ot_Function_Name : string;
  ot_Function_Description : string;
  ot_Function_Parameters : JValue
}.

Record openaiRequest := {
  or_Model : string;
  or_Messages : list openaiMessage;
  or_Tools : list openaiTool
}.

(** One element of [Choices]: its [Message] struct. *)
Record openaiChoice := {
  ch_Message_Content : string;
  ch_Message_ToolCalls : list openaiToolCall
}.

Record openaiResponse := {
  ors_Choices : list openaiChoice;
  ors_PromptTokens : Z;
  ors_CompletionTokens : Z;
  ors_Error : option apiError
}.

(** [encoding/json] at the two struct types of the protocol. *)
Class WireJSON := {
  marshal_request : openaiRequest -> result string;
  unmarshal_response : string -> result openaiResponse
}.

Section with_runtime.
Context `{Transport} `{WireJSON}.

Definition convertToolCall (tc : ToolCall) : openaiToolCall :=
  {| otc_ID := tc_ID tc; otc_Type := "function";
     otc_Function_Name := tc_Name tc;
     otc_Function_Arguments := tc_Arguments tc |}.

(** The body of [for _, m := range req.Messages]. *)
Definition convertMessage (msgs : list openaiMessage) (m : Message)
  : list openaiMessage :=
  if decide (Role m = "system" \/ Role m = "user") then
    msgs ++ [{| om_Role := Role m; om_Content := Content m;
                om_ToolCalls := []; om_ToolCallID := "" |}]
  else if decide (Role m = "assistant") then
    msgs ++ [{| om_Role := "assistant"; om_Content := Content m;
                om_ToolCalls := map convertToolCall (ToolCalls m);
                om_ToolCallID := "" |}]
  else if decide (Role m = "tool") then
    msgs ++ [{| om_Role := "tool"; om_Content := Content m;
                om_ToolCalls := []; om_ToolCallID := ToolCallID m |}]
  else msgs.

Definition convertTools (ts : list ToolDef) : list openaiTool :=
  map (fun t => {| ot_Type := "function"; ot_Function_Name := td_Name t;
                   ot_Function_Description := td_Description t;
                   ot_Function_Parameters := td_Parameters t |}) ts.

Definition buildRequest (o : OpenAI) (req : ChatRequest) : openaiRequest :=
  {| or_Model := if decide (req_Model req = "") then model o else req_Model req;
     or_Messages := fold_left convertMessage (req_Messages req) [];
     or_Tools := convertTools (req_Tools req) |}.

(** What [Chat] makes of a decoded body that carries no error object. *)
Definition parseResponse (apiResp : openaiResponse) : ChatResponse :=
  match ors_Choices apiResp with
  | [] => zero_ChatResponse
  | choice :: _ =>
    {| resp_Content := ch_Message_Content choice;
       resp_ToolCalls :=
         map (fun tc => {| tc_ID := otc_ID tc; tc_Name := otc_Function_Name tc;
                           tc_Arguments := otc_Function_Arguments tc |})
             (ch_Message_ToolCalls choice);
       resp_Usage := {| PromptTokens := ors_PromptTokens apiResp;
                        CompletionTokens := ors_CompletionTokens apiResp |} |}
  end.

Definition Chat (o : OpenAI) (st : NetState) (req : ChatRequest)
  : result ChatResponse * NetState :=
  if decide (apiKey o = "") then
    (inr "openai: API key not set (OPENAI_API_KEY)", st)
  else
    match marshal_request (buildRequest o req) with
    | inr err => (inr ("openai: marshal request: " +:+ err), st)
    | inl body =>
      match NewRequest_error "POST" (baseURL o) with
      | Some err => (inr ("openai: create request: " +:+ err), st)
      | None =>
        let httpReq :=
          {| http_method := "POST"; http_url := baseURL o;
             http_header := [("Content-Type", "application/json");
                             ("Authorization", "Bearer " +:+ apiKey o)];
             http_body := body |} in
        let '(res, net') := http_Do httpReq (net st) in
        let st' := {| net := net'; sent := sent st ++ [httpReq] |} in
        match res with
        | DoFailed err => (inr ("openai: request failed: " +:+ err), st')
        | ReadFailed _ err => (inr ("openai: read response: " +:+ err), st')
        | Responded status respBody =>
          if negb (status =? 200)%Z then
            (inr ("openai: HTTP " +:+ pretty status +:+ ": " +:+ respBody), st')
          else
            match unmarshal_response respBody with
            | inr err => (inr ("openai: unmarshal response: " +:+ err), st')
            | inl apiResp =>
              match ors_Error apiResp with
              | Some e =>
                (inr ("openai: API error: " +:+ err_Type e +:+ ": "
                      +:+ err_Message e), st')
              | None => (inl (parseResponse apiResp), st')
              end
            end
        end
      end
    end.

(** [OpenAI] behind the [Provider] interface. *)
Definition as_Provider (o : OpenAI) : Provider :=
  {| PState := NetState; provider.Chat := Chat o; Name := "openai" |}.

End with_runtime.
End openai.


(* ===================================================================== *)
(** ** Package [scheduler]: the cron expression parser                    *)
(* ===================================================================== *)

(** Go's [int] on a 64-bit platform. *)
Module goint.

Definition maxInt : Z := 9223372036854775807.
Definition minInt : Z := -9223372036854775808.

(** The value an [int] holds after an arithmetic result [z]: the low 64
    bits, read as two's complement. *)
Definition wrap (z : Z) : Z := (z + 2 ^ 63) mod 2 ^ 64 - 2 ^ 63.

End goint.

(** How a call can end: it returns a value, it returns an error, or the
    Go runtime panics (an index out of range, a slice of negative
    length).  [Spinning] is the model running out of fuel. *)
Inductive outcome (A : Type) : Type :=
  | Done (a : A)
  | Failed (err : error)
  | Panicked
  | Spinning.
Arguments Done {A} a.
Arguments Failed {A} err.
Arguments Panicked {A}.
Arguments Spinning {A}.

Definition obind {A B} (o : outcome A) (k : A -> outcome B) : outcome B :=
  match o with
  | Done a => k a
  | Failed e => Failed e
  | Panicked => Panicked
  | Spinning => Spinning
  end.

(** [fmt.Errorf(prefix + "%w", err)] around a call that failed. *)
Definition wrapped {A} (prefix : string) (o : outcome A) : outcome A :=
  match o with
  | Failed e => Failed (prefix +:+ e)
  | _ => o
  end.

Module gostrconv.

(** What the [Err] field of a [NumError] holds. *)
Inductive NumError := ErrSyntax | ErrRange.

Definition digit (c : ascii) : option Z :=
  let b := Z.of_N (N_of_ascii c) in
  if (48 <=? b)%Z && (b <=? 57)%Z then Some (b - 48)%Z else None.

(** The scan of [strconv.ParseUint(s, 10, 64)], [n] being the value read
    so far: a byte that is not a decimal digit is a syntax error, a
    value beyond 64 bits a range error, whichever comes first. *)
Fixpoint parseUint (n : Z) (s : string) : Z + NumError :=
  match s with
  | "" => inl n
  | String c s' =>
    match digit c with
    | None => inr ErrSyntax
    | Some d =>
      if (2 ^ 64 - 1 <? n * 10 + d)%Z then inr ErrRange
      else parseUint (n * 10 + d)%Z s'
    end
  end.

(** [strconv.Atoi]: an optional sign, then decimal digits, at least one;
    the value must fit an [int]. *)
Definition Atoi (s : string) : Z + NumError :=
  match s with
  | "" => inr ErrSyntax
  | String c rest =>
    let neg := bool_decide (c = "-"%char) in
    let body := if bool_decide (c = "-"%char \/ c = "+"%char) then rest else s in
    match body with
    | "" => inr ErrSyntax
    | _ =>
      match parseUint 0 body with
      | inr e => inr e
      | inl un =>
        if negb neg && (2 ^ 63 <=? un)%Z then inr ErrRange
        else if neg && (2 ^ 63 <? un)%Z then inr ErrRange
        else inl (if neg then - un else un)%Z
      end
    end
  end.

End gostrconv.

Module scheduler.
Import gostrings gostrconv goint.

(** [strings.Index]: the offset of the first [substr] in [s], or -1. *)
Fixpoint Index (s substr : string) : Z :=
  if String.prefix substr s then 0%Z
  else match s with
    | "" => (-1)%Z
    | String _ s' =>
      let i := Index s' substr in
      if (i <? 0)%Z then (-1)%Z else (i + 1)%Z
    end.

Fixpoint split_go (fuel : nat) (s sep : string) : list string :=
  match fuel with
  | O => [s]
  | S k =>
    match Cut s sep with
    | None => [s]
    | Some (before, after) => before :: split_go k after sep
    end
  end.

(** [strings.Split] for a non-empty [sep]: the texts between the
    occurrences of [sep], found left to right.  Every cut shortens the
    text, so its length is fuel enough. *)
Definition Split (s sep : string) : list string :=
  split_go (String.length s) s sep.

(** [CronExpr]: a parsed cron expression. *)
Record CronExpr := {
  Minute : list bool;       (* 0-59 *)
  Hour : list bool;         (* 0-23 *)
  DayOfMonth : list bool;   (* 1-31 *)
  Month : list bool;        (* 1-12 *)
  DayOfWeek : list bool     (* 0-6 (Sun=0) *)
}.

(** [s[i] = true]: [None] is the index out of range. *)
Definition store (s : list bool) (i : Z) : option (list bool) :=
  if (0 <=? i)%Z && (i <? Z.of_nat (length s))%Z
  then Some (<[Z.to_nat i := true]> s)
  else None.

(** The step of a part and what is left of the part without it
    ([parsePart], the block under "Handle step"). *)
Definition partStep (part : string) : (Z * string) + error :=
  let idx := Index part "/" in
  if (0 <=? idx)%Z then
    match Atoi (drop_bytes (Z.to_nat (idx + 1)) part) with
    | inr _ => inr ("invalid step: " +:+ part)
    | inl step =>
      if (step <=? 0)%Z then inr ("invalid step: " +:+ part)
      else inl (step, String.substring 0 (Z.to_nat idx) part)
    end
  else inl (1%Z, part).

(** The bounds [lo] and [hi] of a part ([parsePart], the [switch]). *)
Definition partBounds (part : string) (min max : Z) : outcome (Z * Z) :=
  if decide (part = "*") then Done (min, max)
  else if Contains part "-" then
    match SplitN2 part "-" with
    | b0 :: b1 :: _ =>
      match Atoi b0 with
      | inr _ => Failed ("invalid range: " +:+ part)
      | inl lo =>
        match Atoi b1 with
        | inr _ => Failed ("invalid range: " +:+ part)
        | inl hi => Done (lo, hi)
        end
      end
    | _ => Panicked
    end
  else
    match Atoi part with
    | inr _ => Failed ("invalid value: " +:+ part)
    | inl val => Done (val, val)
    end.

(** [for i := lo; i <= hi; i += step { result[i] = true }]. *)
Fixpoint mark (fuel : nat) (i hi step : Z) (result : list bool)
  : outcome (list bool) :=
  if (i <=? hi)%Z then
    match fuel with
    | O => Spinning
    | S k =>
      match store result i with
      | None => Panicked
      | Some result' => mark k (wrap (i + step)) hi step result'
      end
    end
  else Done result.

(** [parsePart]; the slice it writes to is returned.  A turn of the loop
    that does not panic marks an index above the one before, so the
    loop takes no more turns than [result] is long, and one to leave. *)
Definition parsePart (part : string) (min max : Z) (result : list bool)
  : outcome (list bool) :=
  match partStep part with
  | inr err => Failed err
  | inl (step, part) =>
    obind (partBounds part min max) (fun '(lo, hi) =>
      if (lo <? min)%Z || (max <? hi)%Z || (hi <? lo)%Z then
        Failed ("out of range: " +:+ pretty lo +:+ "-" +:+ pretty hi
                +:+ " (allowed " +:+ pretty min +:+ "-" +:+ pretty max +:+ ")")
      else mark (S (length result)) lo hi step result)
  end.

(** The body of [parseField]'s loop over the parts. *)
Fixpoint parseParts (parts : list string) (min max : Z) (result : list bool)
  : outcome (list bool) :=
  match parts with
  | [] => Done result
  | part :: rest =>
    obind (parsePart part min max result) (parseParts rest min max)
  end.

(** [parseField] parses a single cron field into a boolean slice. *)
Definition parseField (field : string) (min max : Z) : outcome (list bool) :=
  let n := wrap (max + 1) in
  if (n <? 0)%Z then Panicked
  else parseParts (Split field ",") min max (replicate (Z.to_nat n) false).

(** [for i := 0; i < len(dow) && i <= 7; i++], which folds day 7 onto
    day 0. *)
Fixpoint normalize (fuel : nat) (i : Z) (dow week : list bool)
  : outcome (list bool) :=
  if (i <? Z.of_nat (length dow))%Z && (i <=? 7)%Z then
    match fuel with
    | O => Spinning
    | S k =>
      if (i <? Z.of_nat (length dow))%Z && nth (Z.to_nat i) dow false then
        match store week (if (i =? 7)%Z then 0 else i) with
        | None => Panicked
        | Some week' => normalize k (i + 1) dow week'
        end
      else normalize k (i + 1) dow week
    end
  else Done week.

(** [ParseCron] parses a standard 5-field cron expression. *)
Definition ParseCron (expr : string) : outcome CronExpr :=
  match Fields expr with
  | [f0; f1; f2; f3; f4] =>
    obind (wrapped "cron minute: " (parseField f0 0 59)) (fun minute =>
    obind (wrapped "cron hour: " (parseField f1 0 23)) (fun hour =>
    obind (wrapped "cron day-of-month: " (parseField f2 1 31)) (fun dom =>
    obind (wrapped "cron month: " (parseField f3 1 12)) (fun month =>
    obind (wrapped "cron day-of-week: " (parseField f4 0 7)) (fun dow =>
    obind (normalize 8 0 dow (replicate 7 false)) (fun week =>
    Done {| Minute := minute; Hour := hour; DayOfMonth := dom;
            Month := month; DayOfWeek := week |}))))))
  | fields =>
    Failed ("cron: expected 5 fields, got " +:+ pretty (Z.of_nat (length fields)))
  end.

(** What [Matches] reads of a [time.Time]: the minute, the hour, the day
    of the month, the month and the day of the week (Sunday is 0), none
    of them negative. *)
Record Time := {
  t_Minute : nat;
  t_Hour : nat;
  t_Day : nat;
  t_Month : nat;
  t_Weekday : nat
}.

(** One test of [Matches]: [v < len(bits) && !bits[v]]. *)
Definition misses (bits : list bool) (v : nat) : bool :=
  (v <? length bits)%nat && negb (nth v bits false).

(** [Matches] returns true if the given time matches the expression. *)
Definition Matches (c : CronExpr) (t : Time) : bool :=
  if misses (Minute c) (t_Minute t) then false
  else if misses (Hour c) (t_Hour t) then false
  else if misses (DayOfMonth c) (t_Day t) then false
  else if misses (Month c) (t_Month t) then false
  else if misses (DayOfWeek c) (t_Weekday t) then false
  else true.

End scheduler.

(* ===================================================================== *)
(** ** Package [context]: the bootstrap files of the workspace            *)
(* ===================================================================== *)

Module bootstrap.
Import ctxpkg.

(** The two line feeds between a heading and its text. *)
Definition blank_line : string := String "010" (String "010" "").

(** What is put where a file was cut. *)
Definition truncated : string := String "010" (String "010" "[... truncated]").

(** The files read, in this order. *)
Definition files : list string :=
  ["AGENTS.md"; "SOUL.md"; "USER.md"; "IDENTITY.md"; "TOOLS.md"].

Section with_files.
(** [os.ReadFile(filepath.Join(b.workspace, filename))]: the content of
    the file, [None] when the read fails.  A name is read at most once
    in a call. *)
Variable ReadFile : string -> option string.

(** [content[:n] + "\n\n[... truncated]"]; the slice panics when [n] is
    negative or beyond the content. *)
Definition cut (content : string) (n : Z) : outcome string :=
  if (n <? 0)%Z || (Z.of_nat (String.length content) <? n)%Z then Panicked
  else Done (String.substring 0 (Z.to_nat n) content +:+ truncated).

(** [if len(content) > cap { content = content[:cap] + ... }]. *)
Definition capped (content : string) (cap : Z) : outcome string :=
  if (cap <? Z.of_nat (String.length content))%Z then cut content cap
  else Done content.

(** The loop over the file names: [parts] and [totalChars] are its two
    variables; a total at or over the budget breaks it. *)
Fixpoint loadFiles (cfg : Config) (names : list string) (parts : list string)
         (totalChars : Z) : outcome (list string) :=
  match names with
  | [] => Done parts
  | filename :: rest =>
    if (BootstrapTotalMaxChars cfg <=? totalChars)%Z then Done parts
    else
      match ReadFile filename with
      | None => loadFiles cfg rest parts totalChars
      | Some content =>
        (* per-file cap, then total cap *)
        obind (capped content (BootstrapMaxChars cfg)) (fun content =>
        obind (capped content (BootstrapTotalMaxChars cfg - totalChars)) (fun content =>
        loadFiles cfg rest
                  (parts ++ ["## " +:+ filename +:+ blank_line +:+ content])
                  (totalChars + Z.of_nat (String.length content))))
      end
  end.

(** [loadBootstrapFiles] reads workspace config files with budget
    management. *)
Definition loadBootstrapFiles (b : Builder) : outcome string :=
  obind (loadFiles (cfg b) files [] 0) (fun parts =>
    match parts with
    | [] => Done ""
    | _ => Done ("# Workspace Context" +:+ blank_line
                 +:+ String.concat blank_line parts)
    end).

End with_files.
End bootstrap.

(* ===================================================================== *)
(** ** The vocabulary of the properties                                   *)
(* ===================================================================== *)

Section vocabulary.
Import loop.
Context `{HR : GoRuntime} `{!session.SessionFiles} `{!ctxpkg.PromptSources}.
Context {p : Provider}.

(** The messages the session collaborator holds under [key]. *)
Definition history (st : RunState p) (key : string) : list Message :=
  session.GetHistory (sessions st) key.

(** The calls to [Chat] made between two states of a run, oldest first. *)
Definition new_calls (st st' : RunState p) : list (ChatRequest * result ChatResponse) :=
  drop (length (chat_log st)) (chat_log st').

(** An answer of the provider that asks for at least one tool. *)
Definition with_calls (e : ChatRequest * result ChatResponse) : Prop :=
  exists resp, e.2 = inl resp /\ resp_ToolCalls resp <> [].

(** The text an exhausted loop ends with: that of the last answer, or [fc]
    when there was no call. *)
Definition last_text (fc : string) (calls : list (ChatRequest * result ChatResponse))
  : string :=
  match last calls with
  | Some (_, inl resp) => exhausted_text resp
  | _ => fc
  end.

(** [finalContent] after the iteration [i] that got [resp]. *)
Definition final_of (al : AgentLoop) (i : Z) (resp : ChatResponse) (fc : string)
  : string :=
  if decide (i = MaxIterations (cfg al) - 1)%Z then exhausted_text resp else fc.

End vocabulary.


(** *** Argument vectors *)

Section argv_vocabulary.
Import gostrings toolreg.
Context `{HR : GoRuntime}.

(** The arguments that flag mode puts on the command line: all but the
    one designated for standard input. *)
Definition on_command_line (cmdDef : CommandDef) (kv : string * JValue) : Prop :=
  ~ (Stdin cmdDef = true /\ kv.1 = stdinParam_of cmdDef).

#[global] Instance on_command_line_dec cmdDef kv : Decision (on_command_line cmdDef kv) :=
  not_dec (and_dec (decide (Stdin cmdDef = true)) (decide (kv.1 = stdinParam_of cmdDef))).

(** The pair of arguments [--key value]. *)
Definition flag_pair (kv : string * JValue) : list string :=
  ["--" +:+ kv.1; sprint_v format_float kv.2].

(** [c] is one of the bytes of [s]. *)
Fixpoint has_byte (c : ascii) (s : string) : bool :=
  match s with
  | "" => false
  | String a s' => bool_decide (a = c) || has_byte c s'
  end.



(** A template as its author sees it: literal text and [{param}] holes. *)
Inductive seg :=
  | Lit (s : string)
  | Hole (k : string).










(** The parameters of a template, and those among them whose argument is
    absent. *)
Definition holes (t : list seg) : list string :=
  omap (fun g => match g with Hole k => Some k | Lit _ => None end) t.

Definition unreplaced (args : gmap string JValue) (t : list seg) : list string :=
  filter (fun k => args !! k = None) (holes t).

(** A token that still holds the placeholder of an absent parameter. *)
Definition still_open (args : gmap string JValue) (t : list seg) (part : string) : Prop :=
  Exists (fun k => Contains part ("{" +:+ k +:+ "}") = true) (unreplaced args t).

#[global] Instance still_open_dec args t part : Decision (still_open args t part).
Proof. unfold still_open. apply _. Defined.


End argv_vocabulary.

(** *** Requests *)

Section request_vocabulary.
Context `{HR : GoRuntime}.

(** A call with the text [null] in place of arguments that do not decode. *)
Definition nullified (tc : ToolCall) : ToolCall :=
  match unmarshal_any (tc_Arguments tc) with
  | inl _ => tc
  | inr _ => {| tc_ID := tc_ID tc; tc_Name := tc_Name tc; tc_Arguments := "null" |}
  end.

Definition nullified_msg (m : Message) : Message :=
  {| Role := Role m; Content := Content m;
     ToolCalls := map nullified (ToolCalls m); ToolCallID := ToolCallID m |}.

Definition nullified_req (req : ChatRequest) : ChatRequest :=
  {| req_Model := req_Model req;
     req_Messages := map nullified_msg (req_Messages req);
     req_Tools := req_Tools req; req_MaxTokens := req_MaxTokens req |}.

End request_vocabulary.


(** The vocabulary of the properties beyond the specification's. *)

(** The request of [e2] continues that of [e1]: it holds the messages of
    [e1] and more after them, and the same tool definitions. *)
Definition grows (e1 e2 : ChatRequest * result ChatResponse) : Prop :=
  req_Messages e1.1 `prefix_of` req_Messages e2.1
  /\ length (req_Messages e1.1) < length (req_Messages e2.1)
  /\ req_Tools e1.1 = req_Tools e2.1.

(** Turns of the model that asked for tools, each followed by the answers
    to its calls: an assistant message with at least one tool call, then
    one tool message per call, with the ids of the calls in their order. *)
Inductive answered : list Message -> Prop :=
  | answered_nil : answered []
  | answered_turn a ts rest :
      Role a = "assistant" ->
      ToolCalls a <> [] ->
      Forall (fun m => Role m = "tool") ts ->
      map ToolCallID ts = map tc_ID (ToolCalls a) ->
      answered rest ->
      answered (a :: ts ++ rest).

(** The registry after [NewRegistry(timeout)] and one [Register] per
    manifest of [ms], in order. *)
Definition registered (timeout : Z) (ms : list toolreg.ToolManifest) : toolreg.Registry :=
  fold_left toolreg.Register ms (toolreg.NewRegistry timeout).

(** Every tool is filed under its own name. *)
Definition name_keyed (r : toolreg.Registry) : Prop :=
  forall k t, toolreg.tools r !! k = Some t -> toolreg.tm_Name t = k.

(** The names under which the commands of one tool are advertised. *)
Definition advertised_names (tool : toolreg.ToolManifest) : list string :=
  (fun nc : string * toolreg.CommandDef => toolreg.tm_Name tool +:+ "." +:+ nc.1)
    <$> map_to_list (toolreg.Commands tool).

(** The schema of one parameter: its type, its description and, when the
    manifest gives one, its default. *)
Definition property_of (p : toolreg.ParameterDef) : JValue :=
  let prop : gmap string JValue :=
    {[ "type" := JString (toolreg.pd_Type p);
       "description" := JString (toolreg.pd_Description p) ]} in
  JObject (match toolreg.pd_Default p with
           | JNull => prop
           | d => <["default" := d]> prop
           end).

(** The names of the parameters a manifest marks as required, as the
    map stores them. *)
Definition required_names (params : gmap string toolreg.ParameterDef) : list string :=
  (filter (fun np : string * toolreg.ParameterDef => toolreg.pd_Required np.2 = true)
          (map_to_list params)).*1.

(** The roles a message is sent under: the others are dropped by both
    adapters. *)
Definition known_role (m : Message) : Prop :=
  Role m = "system" \/ Role m = "user" \/ Role m = "assistant" \/ Role m = "tool".

Global Instance known_role_dec m : Decision (known_role m).
Proof. unfold known_role. apply _. Defined.

(** The messages that stay in the message list of the content-block
    protocol. *)
Definition spoken (m : Message) : Prop :=
  Role m = "user" \/ Role m = "assistant" \/ Role m = "tool".

Global Instance spoken_dec m : Decision (spoken m).
Proof. unfold spoken. apply _. Defined.

(** A [Chat] that returned before it built a request. *)
Definition stopped_early `{Transport} (st : NetState)
           (out : result ChatResponse * NetState) : Prop :=
  out.2 = st /\ exists err, out.1 = inr err.

(** The values [lo], [lo + step], [lo + 2 step], ... up to [hi]. *)
Definition in_progression (lo hi step j : Z) : Prop :=
  (lo <= j <= hi)%Z /\ ((j - lo) mod step = 0)%Z.

Global Instance in_progression_dec lo hi step j : Decision (in_progression lo hi step j).
Proof. unfold in_progression. apply _. Defined.

(** The first value of [i] past [hi] in the loop that marks the
    progression from [lo]. *)
Definition past_the_end (lo hi step : Z) : Z :=
  (lo + ((hi - lo) / step + 1) * step)%Z.

(** The part [part] of a field allowed [min] to [max] reads as the
    range [lo] to [hi] taken every [step]. *)
Definition reads_as (part : string) (min max lo hi step : Z) : Prop :=
  exists rest,
    scheduler.partStep part = inl (step, rest)
    /\ scheduler.partBounds rest min max = Done (lo, hi)
    /\ (min <= lo)%Z /\ (lo <= hi)%Z /\ (hi <= max)%Z.

(** The field [field] names the value [j]: one of its parts, between
    commas, reads as a progression that holds [j]. *)
Definition names (field : string) (min max : Z) (j : Z) : Prop :=
  exists part lo hi step,
    part ∈ scheduler.Split field ","
    /\ reads_as part min max lo hi step
    /\ in_progression lo hi step j.

(* ===================================================================== *)
(** ** A test bed: the doubles of [loop_test.go] and a scripted world     *)
(* ===================================================================== *)

Module testbed.

(** The quotation mark, and the JSON text of a one-member object of strings. *)
Definition dq : string := String "034"%char "".

Definition obj1 (k v : string) : string :=
  "{" +:+ dq +:+ k +:+ dq +:+ ":" +:+ dq +:+ v +:+ dq +:+ "}".

(** A decoder that knows the documents the tests send. *)
Definition decode_args (s : string) : result (gmap string JValue) :=
  if decide (s = "{}") then inl ∅
  else if decide (s = obj1 "text" "hello") then inl {[ "text" := JString "hello" ]}
  else if decide (s = obj1 "text" "ok") then inl {[ "text" := JString "ok" ]}
  else if decide (s = obj1 "text" "hi") then inl {[ "text" := JString "hi" ]}
  else inr "invalid character".

Definition decode_any (s : string) : result JValue :=
  if decide (s = "null") then inl JNull
  else match decode_args s with
       | inl m => inl (JObject m)
       | inr e => inr e
       end.

Definition encode_any (v : JValue) : result string :=
  match v with
  | JNull => inl "null"
  | JObject m =>
    match map_to_list m with
    | [] => inl "{}"
    | [(k, JString s)] => inl (obj1 k s)
    | _ => inr "json: unsupported value"
    end
  | _ => inr "json: unsupported value"
  end.

(** The processes of the scripted world: [echo] prints its arguments,
    [sleep] outlives every deadline, nothing else is installed.  The world
    is the list of the command lines run so far. *)
Definition run (timeout : option Z) (binary : string) (argv : list string)
           (stdin : option string) (w : list (list string))
  : ProcResult * list (list string) :=
  if decide (binary = "echo") then
    ({| run_err := None; stdout := String.concat " " argv +:+ String "010"%char "";
        stderr := "" |}, w ++ [binary :: argv])
  else if decide (binary = "sleep") then
    ({| run_err := Some (DeadlineExceeded "signal: killed"); stdout := "";
        stderr := "" |}, w ++ [binary :: argv])
  else
    ({| run_err := Some (ExitError "executable file not found in $PATH");
        stdout := ""; stderr := "" |}, w).

#[export] Instance scripted : GoRuntime := {|
  World := list (list string);
  format_float := fun _ => "0";
  map_range := fun A m w => (map_to_list m, w);
  map_range_perm := fun A m _ => Permutation_refl (map_to_list m);
  unmarshal_args := decode_args;
  unmarshal_any := decode_any;
  marshal_any := encode_any;
  marshal_capture_input := fun _ _ => inl "{}";
  look_path := fun binary _ => bool_decide (binary = "echo");
  run_process := run
|}.

(** The world in which nothing was run yet. *)
Definition idle : World := [].

#[export] Instance no_files : session.SessionFiles :=
  {| session.write_snapshot := fun _ _ _ w => (None, w) |}.

#[export] Instance fixed_prompt : ctxpkg.PromptSources :=
  {| ctxpkg.BuildSystemPrompt := fun _ _ w => ("You are an agent.", w) |}.

(** [mockProvider] of [loop_test.go]: canned answers and errors by call
    index; its state is [callIdx]. *)
Definition mockProvider (responses : list ChatResponse) (errors : list (option error))
  : Provider :=
  {| PState := nat;
     Chat := fun idx _ =>
       (match errors !! idx with
        | Some (Some err) => inr err
        | _ =>
          match responses !! idx with
          | Some resp => inl resp
          | None => inl {| resp_Content := "default"; resp_ToolCalls := [];
                           resp_Usage := {| PromptTokens := 0; CompletionTokens := 0 |} |}
          end
        end, S idx);
     Name := "mock" |}.

(** The tool the tests register: [echo] with command [run] and template
    [{text}]. *)
Definition echo_cmd : toolreg.CommandDef :=
  {| toolreg.cd_Description := "echoes input"; toolreg.Args := "{text}";
     toolreg.Stdin := false; toolreg.StdinParam := ""; toolreg.Parameters := ∅ |}.

Definition echo_tool : toolreg.ToolManifest :=
  {| toolreg.tm_Name := "echo"; toolreg.Binary := "echo"; toolreg.tm_Description := "";
     toolreg.Commands := {[ "run" := echo_cmd ]} |}.

(** A tool whose binary never returns in time. *)
Definition nap_cmd : toolreg.CommandDef :=
  {| toolreg.cd_Description := "sleeps"; toolreg.Args := "";
     toolreg.Stdin := false; toolreg.StdinParam := ""; toolreg.Parameters := ∅ |}.

Definition nap_tool : toolreg.ToolManifest :=
  {| toolreg.tm_Name := "nap"; toolreg.Binary := "sleep"; toolreg.tm_Description := "";
     toolreg.Commands := {[ "run" := nap_cmd ]} |}.

Definition echo_registry : toolreg.Registry :=
  toolreg.Register (toolreg.Register (toolreg.NewRegistry (30 * Second)) echo_tool)
                   nap_tool.

(** [makeLoop] of [loop_test.go], with the iteration budget as a parameter. *)
Definition makeLoop (mp : Provider) (reg : toolreg.Registry) (max : Z) : loop.AgentLoop :=
  loop.New mp reg (ctxpkg.NewBuilder "/tmp/ws" ctxpkg.DefaultConfig (Some reg))
    {| loop.MaxIterations := max; loop.SessionKey := "main"; loop.Verbose := false;
       loop.AutoCapture := false; loop.EvalBinary := "token-eval" |}.

(** A fresh run: no session in memory, nothing run, no call made. *)
Definition fresh (mp : Provider) (ps : PState mp) : loop.RunState mp :=
  {| loop.pstate := ps; loop.world := idle;
     loop.sessions := {| session.sessions := ∅; session.dir := "/tmp/sessions" |};
     loop.chat_log := []; loop.save_log := [] |}.

Definition call (id name arguments : string) : ToolCall :=
  {| tc_ID := id; tc_Name := name; tc_Arguments := arguments |}.

Definition answer (content : string) (calls : list ToolCall) : ChatResponse :=
  {| resp_Content := content; resp_ToolCalls := calls;
     resp_Usage := {| PromptTokens := 0; CompletionTokens := 0 |} |}.

(** A network with one backend, which answers every request with the
    status 200 and the body [{}]; its state counts the round trips. *)
#[export] Instance canned : Transport :=
  {| Net := nat;
     NewRequest_error := fun _ _ => None;
     http_Do := fun _ n => (Responded 200 "{}", S n) |}.

(** Codecs that know that one body: as a response it has no choices, no
    content blocks and no error object. *)
#[export] Instance openai_codec : openai.WireJSON :=
  {| openai.marshal_request := fun _ => inl "request";
     openai.unmarshal_response := fun s =>
       if decide (s = "{}")
       then inl {| openai.ors_Choices := []; openai.ors_PromptTokens := 0;
                   openai.ors_CompletionTokens := 0; openai.ors_Error := None |}
       else inr "unexpected end of JSON input" |}.

#[export] Instance anthropic_codec : anthropic.WireJSON :=
  {| anthropic.marshal_request := fun _ => inl "request";
     anthropic.unmarshal_response := fun s =>
       if decide (s = "{}")
       then inl {| anthropic.rs_Content := []; anthropic.rs_InputTokens := 0;
                   anthropic.rs_OutputTokens := 0; anthropic.rs_StopReason := "";
                   anthropic.rs_Error := None; anthropic.rs_Type := "" |}
       else inr "unexpected end of JSON input" |}.

(** A network on which nothing was sent yet. *)
Definition quiet : NetState := {| net := 0; sent := [] |}.

End testbed.


Module scenarios.
Import testbed.

(** [TestRun_SimpleResponse]. *)
Definition hello_mock : Provider := mockProvider [answer "Hello!" []] [].
Definition hello_loop : loop.AgentLoop := makeLoop hello_mock echo_registry 20.

(** [TestRun_ToolCallThenResponse]. *)
Definition echo_call : ToolCall := call "tc1" "echo.run" (obj1 "text" "hello").
Definition echo_mock : Provider :=
  mockProvider [answer "" [echo_call]; answer "Done! The echo said hello." []] [].
Definition echo_loop : loop.AgentLoop := makeLoop echo_mock echo_registry 20.

(** [TestRun_MaxIterations]. *)
Definition busy_mock : Provider :=
  mockProvider [answer "iter 0" [call "tc0" "echo.run" (obj1 "text" "ok")];
                answer "iter 1" [call "tc1" "echo.run" (obj1 "text" "ok")];
                answer "iter 2" [call "tc2" "echo.run" (obj1 "text" "ok")]] [].
Definition busy_loop : loop.AgentLoop := makeLoop busy_mock echo_registry 3.

(** [TestRun_LLMError], after one iteration that completed. *)
Definition down_mock : Provider :=
  mockProvider [answer "" [echo_call]] [None; Some "API down"].
Definition down_loop : loop.AgentLoop := makeLoop down_mock echo_registry 20.


(** The request of the first iteration of a run on [userMessage]. *)
Definition first_request (userMessage : string) : ChatRequest :=
  {| req_Model := "";
     req_Messages := [ {| Role := "system"; Content := "You are an agent.";
                          ToolCalls := []; ToolCallID := "" |};
                       loop.userMsg userMessage ];
     req_Tools := (toolreg.ToToolDefs echo_registry (loop.world (fresh hello_mock 0))).1;
     req_MaxTokens := 0 |}.

End scenarios.


(** Fixtures of the properties beyond the specification's. *)
Module fixtures.
Import testbed.

(** A loop whose budget is used up before it starts. *)
Definition spent_loop : loop.AgentLoop := makeLoop scenarios.hello_mock echo_registry 0.

(** A manager that holds one session under [a:b] and one under [a_b]. *)
Definition two_keys : session.Manager :=
  {| session.sessions :=
       {[ "a:b" := {| session.Key := "a:b"; session.Messages := [];
                      session.Summary := "colon" |};
          "a_b" := {| session.Key := "a_b"; session.Messages := [];
                      session.Summary := "underscore" |} ]};
     session.dir := "/tmp/sessions" |}.

(** Monday 2026-02-16, 9:00, of [TestCronMatches]. *)
Definition mon9 : scheduler.Time :=
  {| scheduler.t_Minute := 0; scheduler.t_Hour := 9; scheduler.t_Day := 16;
     scheduler.t_Month := 2; scheduler.t_Weekday := 1 |}.

(** Sunday 2026-02-15, 0:00, of [TestCronSunday7Alias]. *)
Definition sun0 : scheduler.Time :=
  {| scheduler.t_Minute := 0; scheduler.t_Hour := 0; scheduler.t_Day := 15;
     scheduler.t_Month := 2; scheduler.t_Weekday := 0 |}.

(** The time of day [hour]:[minute] on Thursday 2026-01-01. *)
Definition new_year (hour minute : nat) : scheduler.Time :=
  {| scheduler.t_Minute := minute; scheduler.t_Hour := hour; scheduler.t_Day := 1;
     scheduler.t_Month := 1; scheduler.t_Weekday := 4 |}.

(** A workspace that holds two of the five bootstrap files, ten bytes
    each. *)
Definition two_files (name : string) : option string :=
  if decide (name = "SOUL.md") then Some "0123456789"
  else if decide (name = "TOOLS.md") then Some "abcdefghij"
  else None.

Definition builder (perFile total : Z) : ctxpkg.Builder :=
  ctxpkg.NewBuilder "/tmp/ws"
    {| ctxpkg.BootstrapMaxChars := perFile; ctxpkg.BootstrapTotalMaxChars := total |}
    None.

End fixtures.


(* ===================================================================== *)
(** ** The loop: one iteration, the whole loop, the whole run             *)
(* ===================================================================== *)

Section loop_facts.
Import loop.
Context `{HR : GoRuntime} `{!session.SessionFiles} `{!ctxpkg.PromptSources}.
Context {p : Provider}.
Implicit Types (st : RunState p) (al : AgentLoop) (key : string).

Lemma GetHistory_AddMessage (m : session.Manager) key msg :
  session.GetHistory (session.AddMessage m key msg) key
  = session.GetHistory m key ++ [msg].
Proof.
  unfold session.GetHistory, session.AddMessage, session.getOrCreate. simpl.
  rewrite lookup_insert_eq. simpl. destruct (session.sessions m !! key); reflexivity.
Qed.

(** A step in the outside world leaves the provider, the sessions and the
    two records of calls alone. *)
Lemma in_world_frame {A} (c : W A) st :
  pstate (in_world c st).2 = pstate st
  /\ sessions (in_world c st).2 = sessions st
  /\ chat_log (in_world c st).2 = chat_log st
  /\ save_log (in_world c st).2 = save_log st.
Proof. unfold in_world. destruct (c (world st)). simpl. auto. Qed.

Lemma capture_frame al resp userMessage i st :
  pstate (capture al resp userMessage i st).2 = pstate st
  /\ sessions (capture al resp userMessage i st).2 = sessions st
  /\ chat_log (capture al resp userMessage i st).2 = chat_log st
  /\ save_log (capture al resp userMessage i st).2 = save_log st.
Proof.
  unfold capture. destruct (AutoCapture (cfg al)).
  - apply in_world_frame.
  - simpl. auto.
Qed.

(** One tool call: whatever [Execute] returns, one tool message goes to the
    transcript and to the session, and nothing else moves but the world. *)
Lemma execToolCall_eq al key msgs tc st :
  let r := (toolreg.Execute (registry al) tc (world st)).1 in
  (execToolCall al key msgs tc st).1 = msgs ++ [toolMsg tc (resultText r)]
  /\ history (execToolCall al key msgs tc st).2 key
     = history st key ++ [toolMsg tc (resultText r)]
  /\ pstate (execToolCall al key msgs tc st).2 = pstate st
  /\ chat_log (execToolCall al key msgs tc st).2 = chat_log st
  /\ save_log (execToolCall al key msgs tc st).2 = save_log st
  /\ world (execToolCall al key msgs tc st).2
     = (toolreg.Execute (registry al) tc (world st)).2.
Proof.
  unfold execToolCall, sbind, in_world, addMessage, sret, history.
  destruct (toolreg.Execute (registry al) tc (world st)) as [r w]. simpl.
  rewrite GetHistory_AddMessage. repeat split.
Qed.

Lemma execToolCalls_cons al key tc tcs msgs st :
  execToolCalls al key (tc :: tcs) msgs st
  = execToolCalls al key tcs (execToolCall al key msgs tc st).1
                  (execToolCall al key msgs tc st).2.
Proof.
  unfold execToolCalls. cbn [sfold]. unfold sbind at 1.
  destruct (execToolCall al key msgs tc st). reflexivity.
Qed.

(** The whole EXECUTING phase, by induction on the calls. *)
Lemma execToolCalls_eq al key tcs : forall msgs st,
  exists new,
    (execToolCalls al key tcs msgs st).1 = msgs ++ new
    /\ history (execToolCalls al key tcs msgs st).2 key = history st key ++ new
    /\ Forall (fun m => Role m = "tool") new
    /\ map ToolCallID new = map tc_ID tcs
    /\ pstate (execToolCalls al key tcs msgs st).2 = pstate st
    /\ chat_log (execToolCalls al key tcs msgs st).2 = chat_log st
    /\ save_log (execToolCalls al key tcs msgs st).2 = save_log st.
Proof.
  induction tcs as [|tc tcs IH]; intros msgs st.
  - exists []. simpl. rewrite !app_nil_r. repeat split. constructor.
  - rewrite execToolCalls_cons.
    destruct (execToolCall_eq al key msgs tc st) as (E1 & E2 & E3 & E4 & E5 & _).
    destruct (IH (execToolCall al key msgs tc st).1 (execToolCall al key msgs tc st).2)
      as (new & F1 & F2 & F3 & F4 & F5 & F6 & F7).
    eexists (_ :: new). rewrite F1, F2, F5, F6, F7, E1, E2, E3, E4, E5.
    rewrite <- !app_assoc. simpl. repeat split; try reflexivity.
    + constructor; [reflexivity | exact F3].
    + simpl. f_equal. exact F4.
Qed.

(** One iteration of the loop, with its intermediate states named. *)
Lemma toolLoop_S al key userMessage toolDefs n i msgs fc st :
  toolLoop al key userMessage toolDefs (S n) i msgs fc st =
  let req := {| req_Model := ""; req_Messages := msgs;
                req_Tools := toolDefs; req_MaxTokens := 0 |} in
  let rps := Chat p (pstate st) req in
  let st1 := {| pstate := rps.2; world := world st; sessions := sessions st;
                chat_log := chat_log st ++ [(req, rps.1)];
                save_log := save_log st |} in
  match rps.1 with
  | inr err => (inr (call_failed (i + 1) err), st1)
  | inl resp =>
    let st2 := (capture al resp userMessage i st1).2 in
    if decide (length (resp_ToolCalls resp) = 0) then (inl (resp_Content resp), st2)
    else
      let st3 := (addMessage key (assistantMsg resp) st2).2 in
      let ex := execToolCalls al key (resp_ToolCalls resp)
                              (msgs ++ [assistantMsg resp]) st3 in
      toolLoop al key userMessage toolDefs n (i + 1)%Z ex.1 (final_of al i resp fc) ex.2
  end.
Proof.
  cbn [toolLoop]. unfold sbind at 1. unfold chat at 1.
  destruct (Chat p (pstate st) _) as [r ps]. cbn [fst snd].
  destruct r as [resp|err]; [|reflexivity].
  unfold sbind at 1.
  destruct (capture al resp userMessage i _) as [[] st2]. cbn [fst snd].
  destruct (decide (length (resp_ToolCalls resp) = 0)); [reflexivity|].
  unfold sbind at 1. unfold addMessage at 1. cbn [fst snd].
  unfold sbind at 1.
  destruct (execToolCalls al key _ _ _) as [msgs' st4]. reflexivity.
Qed.

(** The shape of every run of the loop: the calls it made to the provider
    and how it ended.  Either every answer asked for tools and the budget
    ran out; or the last answer asked for none; or the last call failed. *)
Lemma toolLoop_trace al key userMessage toolDefs n : forall i msgs fc st r st',
  n = 0 \/ (i + Z.of_nat n)%Z = MaxIterations (cfg al) ->
  toolLoop al key userMessage toolDefs n i msgs fc st = (r, st') ->
  exists calls appended,
    chat_log st' = chat_log st ++ calls
    /\ save_log st' = save_log st
    /\ history st' key = history st key ++ appended
    /\ ((Forall with_calls calls /\ length calls = n /\ r = inl (last_text fc calls))
        \/ (exists before req resp,
              calls = before ++ [(req, inl resp)] /\ Forall with_calls before
              /\ resp_ToolCalls resp = [] /\ r = inl (resp_Content resp))
        \/ (exists before req err,
              calls = before ++ [(req, inr err)] /\ Forall with_calls before
              /\ r = inr (call_failed (i + Z.of_nat (length calls)) err)
              /\ forall sys, msgs = sys :: history st key ->
                             req_Messages req = sys :: history st' key)).
Proof.
  induction n as [|n IH]; intros i msgs fc st r st' Hn E.
  - injection E as <- <-. exists [], []. rewrite !app_nil_r. repeat split. left.
    repeat split. constructor.
  - rewrite toolLoop_S in E. cbv zeta in E.
    destruct (Chat p (pstate st) _) as [r0 ps] eqn:EC. cbn [fst snd] in E.
    set (req := {| req_Model := ""; req_Messages := msgs;
                   req_Tools := toolDefs; req_MaxTokens := 0 |}) in *.
    destruct r0 as [resp|err].
    + destruct (capture_frame al resp userMessage i
                  {| pstate := ps; world := world st; sessions := sessions st;
                     chat_log := chat_log st ++ [(req, inl resp)];
                     save_log := save_log st |}) as (_ & C2 & C3 & C4).
      cbn [sessions chat_log save_log] in C2, C3, C4.
      set (st2 := (capture al resp userMessage i _).2) in *. clearbody st2.
      destruct (decide (length (resp_ToolCalls resp) = 0)) as [Hz|Hnz].
      * injection E as <- <-. exists [(req, inl resp)], [].
        rewrite C3, C4, app_nil_r. unfold history. rewrite C2.
        repeat split. right; left. exists [], req, resp.
        repeat split; [constructor|]. by destruct (resp_ToolCalls resp).
      * set (st3 := (addMessage key (assistantMsg resp) st2).2) in *.
        destruct (execToolCalls_eq al key (resp_ToolCalls resp)
                    (msgs ++ [assistantMsg resp]) st3)
          as (new & X1 & X2 & _ & _ & _ & X6 & X7).
        apply IH in E; [|destruct Hn as [?|Hn]; [discriminate|right; lia]].
        destruct E as (calls & appended & L1 & L2 & L3 & Hcases).
        assert (Hst3 : history st3 key = history st key ++ [assistantMsg resp]).
        { unfold history, st3, addMessage. cbn [snd sessions].
          rewrite GetHistory_AddMessage, C2. reflexivity. }
        assert (Hwc : with_calls (req, inl resp)).
        { exists resp. split; [reflexivity|]. intros Hnil. apply Hnz.
          by rewrite Hnil. }
        exists ((req, inl resp) :: calls), ([assistantMsg resp] ++ new ++ appended).
        rewrite L1, L2, L3, X6, X7, X2, Hst3. cbn [chat_log save_log st3 addMessage snd].
        rewrite C3, C4.
        rewrite <- !app_assoc. repeat split.
        destruct Hcases as [(F & Hlen & ->)|[(before & rq & rs & -> & F & Hno & ->)
                                           |(before & rq & er & -> & F & -> & Hsys)]].
        -- left. repeat split; [by constructor | simpl; lia |].
           f_equal. clear -F Hlen Hn. destruct calls as [|c calls].
           ++ simpl in Hlen. subst n. unfold last_text, final_of. simpl.
              destruct Hn as [?|Hn]; [discriminate|].
              rewrite decide_True by lia. reflexivity.
           ++ unfold last_text.
              change (last ((req, inl resp) :: c :: calls)) with (last (c :: calls)).
              destruct (last (c :: calls)) as [x|] eqn:Hx;
                [|by apply last_None in Hx].
              apply last_Some_elem_of in Hx.
              rewrite Forall_forall in F. destruct (F _ Hx) as (rs & Hrs & _).
              destruct x as [rq [rs'|e]]; simpl in Hrs; [reflexivity|discriminate].
        -- right; left. exists ((req, inl resp) :: before), rq, rs.
           repeat split; auto.
        -- right; right. exists ((req, inl resp) :: before), rq, er.
           repeat split; auto.
           ++ do 2 f_equal. simpl length. lia.
           ++ intros sys ->. rewrite (Hsys sys).
              ** rewrite L3, X2, Hst3, <- !app_assoc. reflexivity.
              ** rewrite X1, X2, Hst3. simpl. rewrite <- !app_assoc. reflexivity.
    + injection E as <- <-. exists [(req, inr err)], [].
      cbn [chat_log save_log]. rewrite app_nil_r. repeat split.
      right; right. exists [], req, err. repeat split; [constructor|].
      intros sys ->. reflexivity.
Qed.

Lemma BuildMessages_fst b h summary userMessage w :
  exists sys, (ctxpkg.BuildMessages b h summary userMessage w).1
              = sys :: h ++ [userMsg userMessage].
Proof.
  unfold ctxpkg.BuildMessages, sbind, sret.
  destruct (ctxpkg.BuildSystemPrompt b summary w). simpl. eauto.
Qed.

Lemma new_calls_app st st' calls :
  chat_log st' = chat_log st ++ calls -> new_calls st st' = calls.
Proof. intros E. unfold new_calls. rewrite E. apply drop_app_length. Qed.

(** [Run], with its intermediate states named. *)
Lemma Run_unfold al userMessage st :
  Run al userMessage st =
  let key := SessionKey (cfg al) in
  let bm := ctxpkg.BuildMessages (ctxBuilder al) (history st key)
              (session.GetSummary (sessions st) key) userMessage (world st) in
  let td := toolreg.ToToolDefs (registry al) bm.2 in
  let st2 := {| pstate := pstate st; world := td.2;
                sessions := session.AddMessage (sessions st) key (userMsg userMessage);
                chat_log := chat_log st; save_log := save_log st |} in
  let lp := toolLoop al key userMessage td.1 (Z.to_nat (MaxIterations (cfg al))) 0
                     bm.1 "" st2 in
  match lp.1 with
  | inr err => (inr err, lp.2)
  | inl finalContent =>
    (inl (fallback finalContent),
     (save key (addMessage key {| Role := "assistant"; Content := fallback finalContent;
                                  ToolCalls := []; ToolCallID := "" |} lp.2).2).2)
  end.
Proof.
  unfold Run. unfold sbind at 1. unfold sbind at 1. unfold sbind at 1.
  unfold in_world at 1. fold (history st (SessionKey (cfg al))).
  destruct (ctxpkg.BuildMessages _ _ _ _ _) as [msgs w1]. cbn [fst snd].
  unfold sbind at 1. unfold addMessage at 1. unfold sbind at 1.
  unfold in_world at 1. cbn [world].
  destruct (toolreg.ToToolDefs _ _) as [tds w2]. cbn [fst snd pstate sessions chat_log save_log].
  unfold sbind at 1.
  destruct (toolLoop _ _ _ _ _ _ _ _ _) as [[fc|err] st3]; cbn [fst snd]; [|reflexivity].
  unfold sbind at 1. unfold addMessage at 1.
  unfold sbind at 1. destruct (save _ _) as [e st4]. reflexivity.
Qed.

(** The shape of every [Run]: as for the loop, with what [Run] does around
    it.  [Save] is called exactly when the loop ends without an error. *)
Lemma Run_trace al userMessage st out st' :
  let key := SessionKey (cfg al) in
  Run al userMessage st = (out, st') ->
  exists calls appended,
    chat_log st' = chat_log st ++ calls
    /\ history st' key = history st key ++ [userMsg userMessage] ++ appended
    /\ ((Forall with_calls calls
         /\ length calls = Z.to_nat (MaxIterations (cfg al))
         /\ out = inl (fallback (last_text "" calls))
         /\ save_log st' = save_log st ++ [key])
        \/ (exists before req resp,
              calls = before ++ [(req, inl resp)] /\ Forall with_calls before
              /\ resp_ToolCalls resp = []
              /\ out = inl (fallback (resp_Content resp))
              /\ save_log st' = save_log st ++ [key])
        \/ (exists before req err,
              calls = before ++ [(req, inr err)] /\ Forall with_calls before
              /\ out = inr (call_failed (Z.of_nat (length calls)) err)
              /\ save_log st' = save_log st
              /\ tail (req_Messages req) = history st' key)).
Proof.
  intros key. rewrite Run_unfold. cbv zeta. fold key.
  destruct (BuildMessages_fst (ctxBuilder al) (history st key)
              (session.GetSummary (sessions st) key) userMessage (world st))
    as [sys Hsys].
  set (bm := ctxpkg.BuildMessages _ _ _ _ _) in *. clearbody bm.
  set (td := toolreg.ToToolDefs _ _). clearbody td.
  set (st2 := {| pstate := pstate st; world := td.2;
                 sessions := session.AddMessage (sessions st) key (userMsg userMessage);
                 chat_log := chat_log st; save_log := save_log st |}).
  assert (H2 : history st2 key = history st key ++ [userMsg userMessage]).
  { unfold history, st2. cbn [sessions]. apply GetHistory_AddMessage. }
  assert (H3 : chat_log st2 = chat_log st) by reflexivity.
  assert (H4 : save_log st2 = save_log st) by reflexivity.
  clearbody st2.
  destruct (toolLoop al key userMessage td.1 _ 0 bm.1 "" st2) as [r st3] eqn:EL.
  apply toolLoop_trace in EL; [|lia].
  destruct EL as (calls & appended & L1 & L2 & L3 & Hcases).
  cbn [fst snd].
  destruct Hcases as [(F & Hlen & ->)|[(before & rq & rs & -> & F & Hno & ->)
                                      |(before & rq & er & -> & F & -> & Hm)]].
  - intros E. injection E as <- <-.
    exists calls, (appended ++ [{| Role := "assistant";
                                  Content := fallback (last_text "" calls);
                                  ToolCalls := []; ToolCallID := "" |}]).
    unfold save, addMessage. cbn [snd sessions world chat_log save_log].
    destruct (session.Save _ _ _) as [e w]. cbn [snd chat_log save_log].
    unfold history in *. cbn [sessions]. rewrite GetHistory_AddMessage.
    rewrite L1, L2, L3, H2, H3, H4, <- !app_assoc. repeat split.
    left. repeat split; auto.
  - intros E. injection E as <- <-.
    exists (before ++ [(rq, inl rs)]),
           (appended ++ [{| Role := "assistant";
                            Content := fallback (resp_Content rs);
                            ToolCalls := []; ToolCallID := "" |}]).
    unfold save, addMessage. cbn [snd sessions world chat_log save_log].
    destruct (session.Save _ _ _) as [e w]. cbn [snd chat_log save_log].
    unfold history in *. cbn [sessions]. rewrite GetHistory_AddMessage.
    rewrite L1, L2, L3, H2, H3, H4, <- !app_assoc. repeat split.
    right; left. exists before, rq, rs. repeat split; auto.
  - intros E. injection E as <- <-.
    exists (before ++ [(rq, inr er)]), appended.
    rewrite L1, L2, L3, H2, H3, H4, <- !app_assoc. repeat split.
    right; right. exists before, rq, er. repeat split; auto.
    rewrite (Hm sys); [|rewrite Hsys, H2; reflexivity]. simpl.
    rewrite L3, H2, <- !app_assoc. reflexivity.
Qed.


End loop_facts.

(* ===================================================================== *)
(** ** The loop: the properties of the specification                      *)
(* ===================================================================== *)

Section loop_claims.
Import loop.
Context `{HR : GoRuntime} `{!session.SessionFiles} `{!ctxpkg.PromptSources}.
Context {p : Provider}.
Implicit Types (st : RunState p) (al : AgentLoop) (key : string).

(** C1.  When the provider answers an iteration with a response that
    carries [N >= 1] tool calls, the EXECUTING phase of that iteration
    appends exactly [N] messages after the assistant message, to the
    transcript and to the session alike; the [k]-th of them has role
    [tool] and the [tool_call_id] of the [k]-th call of the response; no
    provider call happens in between, and the loop goes on to the next
    iteration with that transcript. *)
Theorem executing_phase_answers_each_call
        al key userMessage toolDefs n i msgs fc st resp ps N :
  Chat p (pstate st) {| req_Model := ""; req_Messages := msgs;
                        req_Tools := toolDefs; req_MaxTokens := 0 |} = (inl resp, ps) ->
  length (resp_ToolCalls resp) = N ->
  1 <= N ->
  exists new st4,
    toolLoop al key userMessage toolDefs (S n) i msgs fc st
    = toolLoop al key userMessage toolDefs n (i + 1)
               (msgs ++ [assistantMsg resp] ++ new) (final_of al i resp fc) st4
    /\ length new = N
    /\ (forall k tc, resp_ToolCalls resp !! k = Some tc ->
          exists m, new !! k = Some m /\ Role m = "tool" /\ ToolCallID m = tc_ID tc)
    /\ history st4 key = history st key ++ [assistantMsg resp] ++ new
    /\ chat_log st4
       = chat_log st ++ [({| req_Model := ""; req_Messages := msgs;
                             req_Tools := toolDefs; req_MaxTokens := 0 |}, inl resp)].
Proof.
  intros EC HN H1. rewrite toolLoop_S. cbv zeta. rewrite EC. cbn [fst snd].
  rewrite decide_False by lia.
  set (st1 := {| pstate := ps; world := world st; sessions := sessions st;
                 chat_log := chat_log st ++ [_]; save_log := save_log st |}).
  destruct (capture_frame al resp userMessage i st1) as (_ & C2 & C3 & _).
  set (st2 := (capture al resp userMessage i st1).2) in *.
  set (st3 := (addMessage key (assistantMsg resp) st2).2).
  destruct (execToolCalls_eq al key (resp_ToolCalls resp)
              (msgs ++ [assistantMsg resp]) st3)
    as (new & X1 & X2 & X3 & X4 & _ & X6 & _).
  exists new, (execToolCalls al key (resp_ToolCalls resp)
                             (msgs ++ [assistantMsg resp]) st3).2.
  rewrite X1, X2, X6, <- app_assoc. repeat split.
  - rewrite <- HN, <- (length_map tc_ID), <- X4. by rewrite length_map.
  - intros k tc Hk.
    assert (Hid : map ToolCallID new !! k = Some (tc_ID tc)).
    { rewrite X4. change (map tc_ID ?l) with (tc_ID <$> l).
      by rewrite list_lookup_fmap, Hk. }
    change (map ToolCallID new) with (ToolCallID <$> new) in Hid.
    rewrite list_lookup_fmap in Hid.
    destruct (new !! k) as [m|] eqn:Hm; [|discriminate].
    exists m. repeat split.
    + rewrite Forall_forall in X3. apply X3. eapply list_elem_of_lookup_2. exact Hm.
    + simpl in Hid. congruence.
  - unfold history, st3, addMessage. cbn [snd sessions].
    rewrite GetHistory_AddMessage, C2, <- app_assoc. reflexivity.
  - unfold st3, addMessage. cbn [snd chat_log]. rewrite C3. reflexivity.
Qed.

(** C2.  In every run whose first call to the provider is answered with no
    tool call, that call is the only one, and [Run] returns the content of
    the answer, or the fallback text when the content is empty. *)
Theorem no_tool_call_ends_after_one_call al userMessage st out st' req resp :
  Run al userMessage st = (out, st') ->
  head (new_calls st st') = Some (req, inl resp) ->
  resp_ToolCalls resp = [] ->
  length (new_calls st st') = 1
  /\ out = inl (if decide (resp_Content resp = "")
                then "I've completed processing but have no response to give."
                else resp_Content resp).
Proof.
  intros E Hhd Hno. apply Run_trace in E.
  destruct E as (calls & appended & L1 & _ & Hcases).
  rewrite (new_calls_app _ _ _ L1) in *.
  assert (Hc : forall l, Forall with_calls l -> head l = Some (req, inl resp) -> False).
  { intros l F Hl. destruct l as [|x l]; [discriminate|].
    injection Hl as ->. apply Forall_cons in F as [(rs & Hrs & Hne) _].
    simpl in Hrs. congruence. }
  destruct Hcases as [(F & _)|[(before & rq & rs & -> & F & _ & -> & _)
                              |(before & rq & er & -> & F & _)]].
  - destruct (Hc _ F Hhd).
  - destruct before as [|x before].
    + simpl in Hhd. injection Hhd as -> ->. auto.
    + destruct (Hc (x :: before) F). exact Hhd.
  - destruct before as [|x before].
    + simpl in Hhd. discriminate.
    + destruct (Hc (x :: before) F). exact Hhd.
Qed.

(** C3.  With [MaxIterations = 3], in every run in which each call to the
    provider is answered with at least one tool call, the provider is
    called exactly 3 times and [Run] returns the content of the last
    answer, or the sentinel text when that content is empty: never the
    empty string. *)
Theorem three_iterations_three_calls al userMessage st out st' :
  MaxIterations (cfg al) = 3%Z ->
  Run al userMessage st = (out, st') ->
  Forall with_calls (new_calls st st') ->
  length (new_calls st st') = 3
  /\ exists req resp,
       last (new_calls st st') = Some (req, inl resp)
       /\ out = inl (if decide (resp_Content resp = "")
                     then "[max iterations reached]" else resp_Content resp)
       /\ out <> inl "".
Proof.
  intros HM E F. apply Run_trace in E.
  destruct E as (calls & appended & L1 & _ & Hcases).
  rewrite (new_calls_app _ _ _ L1) in *. rewrite HM in Hcases.
  destruct Hcases as [(_ & Hlen & -> & _)|[(before & rq & rs & -> & _ & Hno & _)
                                          |(before & rq & er & -> & _)]].
  - split; [exact Hlen|].
    destruct (last calls) as [[rq [rs|er]]|] eqn:Hl.
    + exists rq, rs. unfold last_text. rewrite Hl.
      assert (Hne : exhausted_text rs <> "").
      { unfold exhausted_text. destruct (decide (resp_Content rs = "")); [discriminate|done]. }
      unfold fallback. rewrite decide_False by exact Hne.
      repeat split. intros Heq. injection Heq as Heq. exact (Hne Heq).
    + apply last_Some_elem_of in Hl. rewrite Forall_forall in F.
      destruct (F _ Hl) as (rs & Hrs & _). discriminate.
    + apply last_None in Hl. subst calls. discriminate.
  - apply Forall_app in F as [_ F]. apply Forall_cons in F as [(r & Hr & Hne) _].
    simpl in Hr. congruence.
  - apply Forall_app in F as [_ F]. apply Forall_cons in F as [(r & Hr & _) _].
    discriminate.
Qed.


(** C10.  When a call to the provider fails in some iteration of a run,
    [Run] returns at once with that error, wrapped with the number of
    the iteration: the failed call is the last call of the run.  The
    session is not rolled back: it still holds what it held before the
    run, then the user message, then every assistant and tool message of
    the iterations that completed, which is the whole transcript of the
    failing request after its system message; and [Save] is not called. *)
Theorem provider_error_keeps_session al userMessage st req perr :
  let key := SessionKey (cfg al) in
  let out := (Run al userMessage st).1 in
  let st' := (Run al userMessage st).2 in
  (req, inr perr) ∈ new_calls st st' ->
  out = inr ("LLM call failed (iteration "
             +:+ pretty (Z.of_nat (length (new_calls st st'))) +:+ "): " +:+ perr)
  /\ last (new_calls st st') = Some (req, inr perr)
  /\ (exists appended,
        history st' key = history st key ++ [userMsg userMessage] ++ appended)
  /\ tail (req_Messages req) = history st' key
  /\ save_log st' = save_log st.
Proof.
  intros key out st' Hin.
  pose proof (surjective_pairing (Run al userMessage st)) as E.
  apply Run_trace in E. fold key out st' in E.
  destruct E as (calls & appended & L1 & L2 & Hcases).
  rewrite (new_calls_app _ _ _ L1) in *.
  assert (Hnot : forall l, Forall with_calls l -> (req, inr perr) ∉ l).
  { intros l Hl Hm. rewrite Forall_forall in Hl.
    destruct (Hl _ Hm) as (resp & Hr & _). discriminate. }
  destruct Hcases as [(Hw & _)|[(before & rq & rs & -> & Hw & _)
                               |(before & rq & er & -> & Hw & Ho & Hs & Ht)]].
  - destruct (Hnot _ Hw Hin).
  - apply elem_of_app in Hin as [Hin|Hin]; [destruct (Hnot _ Hw Hin)|].
    apply list_elem_of_singleton in Hin. discriminate.
  - apply elem_of_app in Hin as [Hin|Hin]; [destruct (Hnot _ Hw Hin)|].
    apply list_elem_of_singleton in Hin. injection Hin as -> ->.
    split; [exact Ho|]. split; [apply last_snoc|]. split; [by exists appended|].
    split; [exact Ht | exact Hs].
Qed.

End loop_claims.

(* ===================================================================== *)
(** ** The tool executor: argument vectors                                *)
(* ===================================================================== *)

Section toolreg_claims.
Import gostrings toolreg.
Context `{HR : GoRuntime}.

Lemma flag_pairs_eq cmdDef order : forall result,
  flag_pairs cmdDef result order
  = result ++ concat (map flag_pair (filter (on_command_line cmdDef) order)).
Proof.
  unfold flag_pairs. induction order as [|kv order IH]; intros result; simpl.
  - by rewrite app_nil_r.
  - rewrite IH. unfold filter at 2. simpl.
    destruct (Stdin cmdDef) eqn:ES; simpl.
    + destruct (bool_decide (kv.1 = stdinParam_of cmdDef)) eqn:EB.
      * apply bool_decide_eq_true in EB.
        rewrite decide_False; [reflexivity|]. unfold on_command_line. rewrite ES. tauto.
      * apply bool_decide_eq_false in EB.
        rewrite decide_True; [|unfold on_command_line; tauto].
        simpl. rewrite <- app_assoc. reflexivity.
    + rewrite decide_True; [|unfold on_command_line; rewrite ES; intros [? _]; discriminate].
      simpl. rewrite <- app_assoc. reflexivity.
Qed.




Lemma append_cons x (a b : string) : String x a +:+ b = String x (a +:+ b).
Proof. reflexivity. Qed.

Lemma append_nil_l (b : string) : "" +:+ b = b.
Proof. reflexivity. Qed.

Ltac push_append := rewrite ?append_cons, ?append_nil_l.

Lemma append_nil_r (a : string) : a +:+ "" = a.
Proof. induction a as [|x a IH]; [reflexivity|]. push_append. by rewrite IH. Qed.

Lemma append_assoc (a b c : string) : (a +:+ b) +:+ c = a +:+ (b +:+ c).
Proof. induction a as [|x a IH]; [reflexivity|]. push_append. by rewrite IH. Qed.

Lemma has_byte_append c a b : has_byte c (a +:+ b) = has_byte c a || has_byte c b.
Proof.
  induction a as [|x a IH]; [reflexivity|]. push_append. cbn [has_byte].
  rewrite IH. apply orb_assoc.
Qed.

Lemma prefix_nil (s : string) : String.prefix "" s = true.
Proof. by destruct s. Qed.




Section replace.
Variables (o new : string).
Let old : string := String "{" o.




End replace.








Lemma keep_parts_eq (parts : list string) : forall result,
  keep_parts result parts
  = result ++ filter (fun part => Contains part "{" = false) parts.
Proof.
  unfold keep_parts. induction parts as [|x parts IH]; intros result; cbn [fold_left].
  - by rewrite app_nil_r.
  - rewrite IH, filter_cons. destruct (Contains x "{") eqn:E; cbn [negb].
    + rewrite decide_False; [reflexivity | discriminate].
    + rewrite decide_True by reflexivity. by rewrite <- app_assoc.
Qed.

End toolreg_claims.

(* ===================================================================== *)
(** ** The provider adapters                                              *)
(* ===================================================================== *)

Section adapter_claims.
Context `{HR : GoRuntime} `{HT : Transport}.
Context `{HA : !anthropic.WireJSON} `{HO : !openai.WireJSON}.

Lemma toolUseBlock_nullified tc :
  unmarshal_any "null" = inl JNull ->
  anthropic.toolUseBlock (nullified tc) = anthropic.toolUseBlock tc.
Proof.
  intros Hnull. unfold nullified, anthropic.toolUseBlock.
  destruct (unmarshal_any (tc_Arguments tc)) as [v|e] eqn:E; simpl.
  - rewrite E. reflexivity.
  - rewrite Hnull. reflexivity.
Qed.

Lemma convertMessage_nullified acc m :
  unmarshal_any "null" = inl JNull ->
  anthropic.convertMessage acc (nullified_msg m) = anthropic.convertMessage acc m.
Proof.
  intros Hnull. unfold anthropic.convertMessage, nullified_msg. simpl.
  rewrite length_map, map_map.
  rewrite (map_ext _ _ (fun tc => toolUseBlock_nullified tc Hnull)). reflexivity.
Qed.

Lemma buildRequest_nullified a req :
  unmarshal_any "null" = inl JNull ->
  anthropic.buildRequest a req = anthropic.buildRequest a (nullified_req req).
Proof.
  intros Hnull. unfold anthropic.buildRequest, nullified_req. simpl.
  replace (anthropic.convertMessages (map nullified_msg (req_Messages req)))
    with (anthropic.convertMessages (req_Messages req)); [reflexivity|].
  unfold anthropic.convertMessages. generalize ("", @nil anthropic.anthropicMessage).
  induction (req_Messages req) as [|m ms IH]; intros acc; simpl; [reflexivity|].
  rewrite (convertMessage_nullified _ _ Hnull). apply IH.
Qed.

(** C5.  For both variants and every request, [Chat] on a provider whose
    credential is empty returns an error and leaves the network state as
    it was: nothing was sent, no round trip was made. *)
Theorem empty_credential_fails_before_the_network
        (a : anthropic.Anthropic) (o : openai.OpenAI) (st : NetState) (req : ChatRequest) :
  anthropic.apiKey a = "" ->
  openai.apiKey o = "" ->
  anthropic.Chat a st req = (inr "anthropic: ANTHROPIC_API_KEY not set", st)
  /\ openai.Chat o st req = (inr "openai: API key not set (OPENAI_API_KEY)", st)
  /\ sent (anthropic.Chat a st req).2 = sent st
  /\ sent (openai.Chat o st req).2 = sent st.
Proof.
  intros Ha Ho. unfold anthropic.Chat, openai.Chat.
  rewrite !decide_True by assumption. auto.
Qed.

(** C8.  Variant B.  When the backend answers with status 200 and a body
    that decodes and carries no error object: if its list of choices is
    empty, [Chat] returns a response with empty content and no tool calls,
    not an error; otherwise the response is made of the first choice (and
    the usage counters), whatever the other choices are. *)
Theorem empty_choices_give_an_empty_response
        (o : openai.OpenAI) (st : NetState) (req : ChatRequest)
        (body respBody : string) (apiResp : openai.openaiResponse) (net' : Net) :
  openai.apiKey o <> "" ->
  openai.marshal_request (openai.buildRequest o req) = inl body ->
  NewRequest_error "POST" (openai.baseURL o) = None ->
  http_Do {| http_method := "POST"; http_url := openai.baseURL o;
             http_header := [("Content-Type", "application/json");
                             ("Authorization", "Bearer " +:+ openai.apiKey o)];
             http_body := body |} (net st) = (Responded 200 respBody, net') ->
  openai.unmarshal_response respBody = inl apiResp ->
  openai.ors_Error apiResp = None ->
  (openai.ors_Choices apiResp = [] ->
   (openai.Chat o st req).1
   = inl {| resp_Content := ""; resp_ToolCalls := [];
            resp_Usage := {| PromptTokens := 0; CompletionTokens := 0 |} |})
  /\ (forall choice rest,
        openai.ors_Choices apiResp = choice :: rest ->
        (openai.Chat o st req).1
        = inl {| resp_Content := openai.ch_Message_Content choice;
                 resp_ToolCalls :=
                   map (fun tc => {| tc_ID := openai.otc_ID tc;
                                     tc_Name := openai.otc_Function_Name tc;
                                     tc_Arguments := openai.otc_Function_Arguments tc |})
                       (openai.ch_Message_ToolCalls choice);
                 resp_Usage := {| PromptTokens := openai.ors_PromptTokens apiResp;
                                  CompletionTokens := openai.ors_CompletionTokens apiResp |} |}).
Proof.
  intros Hk Hm Hn Hd Hu He. unfold openai.Chat.
  rewrite decide_False by assumption. rewrite Hm, Hn, Hd. cbn [negb Z.eqb Pos.eqb].
  rewrite Hu, He. unfold openai.parseResponse. split.
  - intros ->. reflexivity.
  - intros choice rest ->. reflexivity.
Qed.

Lemma convertMessage_snd (system : string) (msgs : list anthropic.anthropicMessage)
      (m : Message) :
  (anthropic.convertMessage (system, msgs) m).2
  = msgs ++ (anthropic.convertMessage ("", []) m).2.
Proof.
  unfold anthropic.convertMessage.
  repeat (destruct (decide _)); try destruct (0 <? length (ToolCalls m))%nat;
    cbn [snd app]; by rewrite ?app_nil_r.
Qed.

Lemma convertMessages_from (ms : list Message) :
  forall system msgs,
    (fold_left anthropic.convertMessage ms (system, msgs)).2
    = msgs ++ (anthropic.convertMessages ms).2.
Proof.
  unfold anthropic.convertMessages.
  induction ms as [|m ms IH]; intros system msgs; cbn [fold_left].
  - cbn. by rewrite app_nil_r.
  - destruct (anthropic.convertMessage (system, msgs) m) as [s1 m1] eqn:E1.
    destruct (anthropic.convertMessage ("", []) m) as [s0 m0] eqn:E0.
    rewrite (IH s1 m1), (IH s0 m0).
    pose proof (convertMessage_snd system msgs m) as Hs. rewrite E1, E0 in Hs.
    cbn [snd] in Hs. rewrite Hs. by rewrite app_assoc.
Qed.

Lemma convertMessages_app (pre post : list Message) :
  (anthropic.convertMessages (pre ++ post)).2
  = (anthropic.convertMessages pre).2 ++ (anthropic.convertMessages post).2.
Proof.
  unfold anthropic.convertMessages at 1. rewrite fold_left_app.
  fold (anthropic.convertMessages pre).
  destruct (anthropic.convertMessages pre) as [s1 m1]. apply convertMessages_from.
Qed.

Lemma convertMessages_cons (m : Message) (post : list Message) :
  (anthropic.convertMessages (m :: post)).2
  = (anthropic.convertMessage ("", []) m).2 ++ (anthropic.convertMessages post).2.
Proof.
  unfold anthropic.convertMessages at 1. cbn [fold_left].
  destruct (anthropic.convertMessage ("", []) m) as [s1 m1]. apply convertMessages_from.
Qed.

Lemma buildRequest_Messages (a : anthropic.Anthropic) (req : ChatRequest) :
  anthropic.ar_Messages (anthropic.buildRequest a req)
  = (anthropic.convertMessages (req_Messages req)).2.
Proof.
  unfold anthropic.buildRequest.
  by destruct (anthropic.convertMessages (req_Messages req)).
Qed.

(** C9.  Variant A.  Take a request with an assistant message that
    carries tool calls, and one of these calls.  In the request [Chat]
    builds, the message is sent as a list of blocks in which the call
    stands, at its place, as a [tool_use] block with its id and name;
    the input of that block is the nil value when the arguments of the
    call are not valid JSON, and the value they decode to when they are.
    [Chat] does not fail on such a request: when the request is written
    and the backend answers with status 200 and a body that decodes to no
    error, [Chat] returns the response, having sent the request once;
    and whatever [Chat] returns, it returns the same on the request with
    the text [null] in place of the invalid arguments.  A [tool_use]
    block of a response, turned into a tool call and sent again, is the
    same block whenever the codec reads back what it wrote for its
    input. *)
Theorem invalid_arguments_degrade_to_null
        (a : anthropic.Anthropic) (st : NetState) (req : ChatRequest)
        (pre post : list Message) (m : Message)
        (before after : list ToolCall) (tc : ToolCall) :
  req_Messages req = pre ++ m :: post ->
  Role m = "assistant" ->
  ToolCalls m = before ++ tc :: after ->
  let block input :=
    {| anthropic.cb_Type := "tool_use"; anthropic.cb_Text := "";
       anthropic.cb_ID := tc_ID tc; anthropic.cb_Name := tc_Name tc;
       anthropic.cb_Input := input; anthropic.cb_ToolUseID := "";
       anthropic.cb_Content := "" |} in
  let text :=
    if decide (Content m = "") then []
    else [{| anthropic.cb_Type := "text"; anthropic.cb_Text := Content m;
             anthropic.cb_ID := ""; anthropic.cb_Name := "";
             anthropic.cb_Input := JNull; anthropic.cb_ToolUseID := "";
             anthropic.cb_Content := "" |}] in
  let wire input :=
    (anthropic.convertMessages pre).2
    ++ {| anthropic.am_Role := "assistant";
          anthropic.am_Content :=
            anthropic.BlockContent
              (text ++ map anthropic.toolUseBlock before
                    ++ block input :: map anthropic.toolUseBlock after) |}
       :: (anthropic.convertMessages post).2 in
  let httpReq body :=
    {| http_method := "POST"; http_url := anthropic.anthropicAPIURL;
       http_header := [("Content-Type", "application/json");
                       ("x-api-key", anthropic.apiKey a);
                       ("anthropic-version", "2023-06-01")];
       http_body := body |} in
  (forall err,
      unmarshal_any (tc_Arguments tc) = inr err ->
      anthropic.ar_Messages (anthropic.buildRequest a req) = wire JNull)
  /\ (forall v,
        unmarshal_any (tc_Arguments tc) = inl v ->
        anthropic.ar_Messages (anthropic.buildRequest a req) = wire v)
  /\ (forall body respBody apiResp net',
        anthropic.apiKey a <> "" ->
        anthropic.marshal_request (anthropic.buildRequest a req) = inl body ->
        NewRequest_error "POST" anthropic.anthropicAPIURL = None ->
        http_Do (httpReq body) (net st) = (Responded 200 respBody, net') ->
        anthropic.unmarshal_response respBody = inl apiResp ->
        ~ (anthropic.rs_Type apiResp = "error" /\ anthropic.rs_Error apiResp <> None) ->
        anthropic.Chat a st req
        = (inl (anthropic.parseResponse apiResp),
           {| net := net'; sent := sent st ++ [httpReq body] |}))
  /\ (unmarshal_any "null" = inl JNull ->
      anthropic.Chat a st req = anthropic.Chat a st (nullified_req req))
  /\ (forall block text r,
        anthropic.cb_Type block = "tool_use" ->
        marshal_any (anthropic.cb_Input block) = inl text ->
        unmarshal_any text = inl (anthropic.cb_Input block) ->
        map anthropic.toolUseBlock (resp_ToolCalls (anthropic.parseBlock r block))
        = map anthropic.toolUseBlock (resp_ToolCalls r)
          ++ [{| anthropic.cb_Type := "tool_use"; anthropic.cb_Text := "";
                 anthropic.cb_ID := anthropic.cb_ID block;
                 anthropic.cb_Name := anthropic.cb_Name block;
                 anthropic.cb_Input := anthropic.cb_Input block;
                 anthropic.cb_ToolUseID := ""; anthropic.cb_Content := "" |}]).
Proof.
  intros Hreq Hrole Hcalls block text wire httpReq.
  assert (W : anthropic.ar_Messages (anthropic.buildRequest a req)
              = wire (anthropic.cb_Input (anthropic.toolUseBlock tc))).
  { rewrite buildRequest_Messages, Hreq, convertMessages_app, convertMessages_cons.
    unfold wire. f_equal. f_equal. unfold anthropic.convertMessage.
    rewrite decide_False by (rewrite Hrole; discriminate).
    rewrite decide_False by (rewrite Hrole; discriminate).
    rewrite decide_True by exact Hrole.
    rewrite Hcalls, length_app. cbn [length].
    replace (0 <? length before + S (length after))%nat with true
      by (symmetry; apply Nat.ltb_lt; lia).
    cbn [snd app]. rewrite map_app. reflexivity. }
  split; [|split; [|split; [|split]]].
  - intros err Herr. rewrite W. unfold anthropic.toolUseBlock. rewrite Herr. reflexivity.
  - intros v Hv. rewrite W. unfold anthropic.toolUseBlock. rewrite Hv. reflexivity.
  - intros body respBody apiResp net' Hk Hm Hn Hd Hu He. unfold anthropic.Chat.
    rewrite decide_False by exact Hk. rewrite Hm, Hn. fold (httpReq body). rewrite Hd.
    cbn [negb Z.eqb Pos.eqb]. rewrite Hu.
    destruct (anthropic.rs_Error apiResp) as [e|] eqn:Ee; [|reflexivity].
    destruct (decide (anthropic.rs_Type apiResp = "error")) as [Et|Nt]; [|reflexivity].
    destruct He. split; [exact Et | discriminate].
  - intros Hnull. unfold anthropic.Chat.
    rewrite (buildRequest_nullified a req Hnull). reflexivity.
  - intros blk txt r Ht Hm Hu. unfold anthropic.parseBlock.
    rewrite Ht. simpl. rewrite Hm, map_app. simpl.
    unfold anthropic.toolUseBlock at 2. simpl. rewrite Hu. reflexivity.
Qed.
End adapter_claims.


(* ===================================================================== *)
(** ** More about the loop                                                *)
(* ===================================================================== *)

Section loop_more.
Import loop.
Context `{HR : GoRuntime} `{!session.SessionFiles} `{!ctxpkg.PromptSources}.
Context {p : Provider}.
Implicit Types (st : RunState p) (al : AgentLoop) (key : string).

Lemma fallback_nonempty (s : string) : fallback s <> "".
Proof. unfold fallback. destruct (decide (s = "")); [discriminate | done]. Qed.

(** X1.  When [Run] succeeds, the text it returns is not empty, the last
    message of the session is the assistant message that carries this
    text, and [Save] was called exactly once, for the session key. *)
Theorem run_success_is_recorded al userMessage st out st' :
  Run al userMessage st = (inl out, st') ->
  out <> ""
  /\ last (history st' (SessionKey (cfg al)))
     = Some {| Role := "assistant"; Content := out; ToolCalls := []; ToolCallID := "" |}
  /\ save_log st' = save_log st ++ [SessionKey (cfg al)].
Proof.
  rewrite Run_unfold. cbv zeta.
  set (bm := ctxpkg.BuildMessages _ _ _ _ _). clearbody bm.
  set (td := toolreg.ToToolDefs _ _). clearbody td.
  set (st2 := {| pstate := pstate st; world := td.2; sessions := _;
                 chat_log := chat_log st; save_log := save_log st |}).
  assert (H4 : save_log st2 = save_log st) by reflexivity. clearbody st2.
  destruct (toolLoop al _ userMessage td.1 _ 0 bm.1 "" st2) as [r st3] eqn:EL.
  apply toolLoop_trace in EL; [|lia].
  destruct EL as (calls & appended & _ & L2 & _ & _). cbn [fst snd].
  destruct r as [fc|err]; [|discriminate]. intros E. injection E as <- <-.
  split; [apply fallback_nonempty|].
  unfold save, addMessage. cbn [snd sessions world chat_log save_log].
  destruct (session.Save _ _ _) as [e w]. cbn [snd sessions save_log].
  unfold history. cbn [sessions]. rewrite GetHistory_AddMessage, last_snoc, L2, H4.
  split; reflexivity.
Qed.

(** X2.  With an iteration budget of zero or less the provider is never
    called: [Run] returns the fallback text, and still records it in the
    session after the user message and saves. *)
Theorem no_budget_no_call al userMessage st :
  (MaxIterations (cfg al) <= 0)%Z ->
  (Run al userMessage st).1
  = inl "I've completed processing but have no response to give."
  /\ chat_log (Run al userMessage st).2 = chat_log st
  /\ pstate (Run al userMessage st).2 = pstate st
  /\ history (Run al userMessage st).2 (SessionKey (cfg al))
     = history st (SessionKey (cfg al))
       ++ [userMsg userMessage;
           {| Role := "assistant";
              Content := "I've completed processing but have no response to give.";
              ToolCalls := []; ToolCallID := "" |}].
Proof.
  intros HM. rewrite Run_unfold. cbv zeta.
  replace (Z.to_nat (MaxIterations (cfg al))) with 0%nat by lia.
  cbn [toolLoop sret fst snd]. unfold save, addMessage.
  cbn [snd sessions world chat_log save_log pstate].
  destruct (session.Save _ _ _) as [e w]. cbn [fst snd sessions chat_log pstate].
  unfold history. cbn [sessions]. rewrite !GetHistory_AddMessage, <- app_assoc.
  repeat split.
Qed.

(** The loop calls the provider at most once per iteration it is allowed. *)
Lemma toolLoop_calls_le al key userMessage toolDefs n : forall i msgs fc st,
  exists calls,
    chat_log (toolLoop al key userMessage toolDefs n i msgs fc st).2
    = chat_log st ++ calls
    /\ length calls <= n.
Proof.
  induction n as [|n IH]; intros i msgs fc st.
  - exists []. cbn. by rewrite app_nil_r.
  - rewrite toolLoop_S. cbv zeta.
    destruct (Chat p (pstate st) _) as [r0 ps]. cbn [fst snd].
    destruct r0 as [resp|err].
    + match goal with |- context [capture al resp userMessage i ?s] =>
        destruct (capture_frame al resp userMessage i s) as (_ & _ & C3 & _) end.
      cbn [chat_log] in C3.
      destruct (decide (length (resp_ToolCalls resp) = 0)).
      * eexists [_]. cbn [snd]. rewrite C3. split; [reflexivity | simpl; lia].
      * match goal with |- context [execToolCalls al key ?tcs ?m ?s] =>
          destruct (execToolCalls_eq al key tcs m s) as (new & _ & _ & _ & _ & _ & X6 & _);
          destruct (IH (i + 1)%Z (execToolCalls al key tcs m s).1 (final_of al i resp fc)
                       (execToolCalls al key tcs m s).2) as (calls & L & Hle)
        end.
        rewrite L, X6. cbn [addMessage snd chat_log]. rewrite C3.
        eexists (_ :: calls). rewrite <- app_assoc. split; [reflexivity | simpl; lia].
    + eexists [_]. cbn [snd chat_log]. split; [reflexivity | simpl; lia].
Qed.

(** X3.  Whatever the provider and the tools do, one [Run] calls the
    provider at most [MaxIterations] times. *)
Theorem provider_calls_are_bounded al userMessage st :
  (Z.of_nat (length (new_calls st (Run al userMessage st).2))
   <= Z.max 0 (MaxIterations (cfg al)))%Z.
Proof.
  rewrite Run_unfold. cbv zeta.
  set (bm := ctxpkg.BuildMessages _ _ _ _ _). clearbody bm.
  set (td := toolreg.ToToolDefs _ _). clearbody td.
  set (st2 := {| pstate := pstate st; world := td.2; sessions := _;
                 chat_log := chat_log st; save_log := save_log st |}).
  assert (H3 : chat_log st2 = chat_log st) by reflexivity. clearbody st2.
  destruct (toolLoop_calls_le al (SessionKey (cfg al)) userMessage td.1
              (Z.to_nat (MaxIterations (cfg al))) 0 bm.1 "" st2) as (calls & L & Hle).
  destruct (toolLoop _ _ _ _ _ _ _ _ _) as [[fc|err] st3]; cbn [fst snd] in *.
  - unfold save, addMessage. cbn [snd sessions world chat_log save_log].
    destruct (session.Save _ _ _) as [e w]. cbn [snd chat_log].
    erewrite new_calls_app; [|rewrite L, H3; reflexivity]. lia.
  - erewrite new_calls_app; [|rewrite L, H3; reflexivity]. lia.
Qed.

End loop_more.

Section loop_transcript.
Import loop.
Context `{HR : GoRuntime} `{!session.SessionFiles} `{!ctxpkg.PromptSources}.
Context {p : Provider}.
Implicit Types (st : RunState p) (al : AgentLoop) (key : string).

Lemma toolLoop_requests al key userMessage toolDefs n : forall i msgs fc st,
  exists calls,
    chat_log (toolLoop al key userMessage toolDefs n i msgs fc st).2
    = chat_log st ++ calls
    /\ Forall (fun e => msgs `prefix_of` req_Messages e.1
                        /\ req_Tools e.1 = toolDefs) calls
    /\ StronglySorted grows calls.
Proof.
  induction n as [|n IH]; intros i msgs fc st.
  - exists []. cbn. rewrite app_nil_r. repeat split; constructor.
  - rewrite toolLoop_S. cbv zeta.
    destruct (Chat p (pstate st) _) as [r0 ps]. cbn [fst snd].
    set (req := {| req_Model := ""; req_Messages := msgs;
                   req_Tools := toolDefs; req_MaxTokens := 0 |}).
    assert (Hone : forall r, Forall (fun e => msgs `prefix_of` req_Messages e.1
                                              /\ req_Tools e.1 = toolDefs) [(req, r)]
                             /\ StronglySorted grows [(req, r)]).
    { intros r. split; [|repeat constructor].
      constructor; [|constructor]. split; [|reflexivity].
      exists []. cbn. by rewrite app_nil_r. }
    destruct r0 as [resp|err].
    + match goal with |- context [capture al resp userMessage i ?s] =>
        destruct (capture_frame al resp userMessage i s) as (_ & _ & C3 & _) end.
      cbn [chat_log] in C3.
      destruct (decide (length (resp_ToolCalls resp) = 0)).
      * exists [(req, inl resp)]. cbn [snd]. rewrite C3.
        split; [reflexivity | apply Hone].
      * match goal with |- context [execToolCalls al key ?tcs ?m ?s] =>
          destruct (execToolCalls_eq al key tcs m s) as (new & X1 & _ & _ & _ & _ & X6 & _);
          destruct (IH (i + 1)%Z (execToolCalls al key tcs m s).1 (final_of al i resp fc)
                       (execToolCalls al key tcs m s).2) as (calls & L & F & S)
        end.
        rewrite L, X6. cbn [addMessage snd chat_log]. rewrite C3.
        exists ((req, inl resp) :: calls). rewrite <- app_assoc.
        rewrite X1 in F.
        split; [reflexivity|]. split.
        -- constructor; [split; [exists []; cbn; by rewrite app_nil_r | reflexivity]|].
           eapply Forall_impl; [exact F|]. intros e [[k Hk] Ht]. split; [|exact Ht].
           exists ([assistantMsg resp] ++ new ++ k). rewrite Hk, <- !app_assoc. reflexivity.
        -- constructor; [exact S|].
           eapply Forall_impl; [exact F|]. intros e [[k Hk] Ht].
           unfold grows. cbn [fst req_Messages req_Tools req]. rewrite Hk, Ht.
           split; [|split; [|reflexivity]].
           ++ exists ([assistantMsg resp] ++ new ++ k). rewrite <- !app_assoc. reflexivity.
           ++ rewrite !length_app. simpl. lia.
    + exists [(req, inr err)]. cbn [snd chat_log]. split; [reflexivity | apply Hone].
Qed.

(** X4.  The transcript only grows.  Of any two calls one [Run] makes to
    the provider, the later request holds all the messages of the earlier
    one, in the same places, and more after them; both carry the same tool
    definitions; and every request starts with one system message, then
    the history the session had before the run, then the user message. *)
Theorem transcript_only_grows al userMessage st :
  let key := SessionKey (cfg al) in
  let calls := new_calls st (Run al userMessage st).2 in
  StronglySorted grows calls
  /\ Forall (fun e => exists sys rest,
                 req_Messages e.1
                 = sys :: history st key ++ [userMsg userMessage] ++ rest
                 /\ Role sys = "system") calls.
Proof.
  intros key calls. unfold calls. rewrite Run_unfold. cbv zeta. fold key.
  assert (Hbm : exists sys w, ctxpkg.BuildMessages (ctxBuilder al) (history st key)
                (session.GetSummary (sessions st) key) userMessage (world st)
                = (sys :: history st key ++ [userMsg userMessage], w)
                /\ Role sys = "system").
  { unfold ctxpkg.BuildMessages, sbind, sret.
    destruct (ctxpkg.BuildSystemPrompt _ _ _) as [sp w]. eexists _, w. split; reflexivity. }
  destruct Hbm as (sys & w & -> & Hsys). cbn [fst snd].
  set (td := toolreg.ToToolDefs _ _). clearbody td.
  set (st2 := {| pstate := pstate st; world := td.2; sessions := _;
                 chat_log := chat_log st; save_log := save_log st |}).
  assert (H3 : chat_log st2 = chat_log st) by reflexivity. clearbody st2.
  destruct (toolLoop_requests al key userMessage td.1
              (Z.to_nat (MaxIterations (cfg al))) 0
              (sys :: history st key ++ [userMsg userMessage]) "" st2)
    as (cs & L & F & S).
  assert (Hfin : forall st3, chat_log st3 = chat_log st ++ cs ->
            StronglySorted grows (new_calls st st3)
            /\ Forall (fun e => exists sys rest,
                           req_Messages e.1
                           = sys :: history st key ++ [userMsg userMessage] ++ rest
                           /\ Role sys = "system") (new_calls st st3)).
  { intros st3 E. rewrite (new_calls_app _ _ _ E). split; [exact S|].
    eapply Forall_impl; [exact F|]. intros e [[k Hk] _].
    exists sys, k. split; [|exact Hsys]. rewrite Hk. cbn. rewrite <- !app_assoc.
    reflexivity. }
  destruct (toolLoop _ _ _ _ _ _ _ _ _) as [[fc|err] st3]; cbn [fst snd] in *;
    apply Hfin.
  - unfold save, addMessage. cbn [snd sessions world chat_log save_log].
    destruct (session.Save _ _ _) as [e w']. cbn [snd chat_log].
    rewrite L, H3. reflexivity.
  - rewrite L, H3. reflexivity.
Qed.

End loop_transcript.

Section loop_pairing.
Import loop.
Context `{HR : GoRuntime} `{!session.SessionFiles} `{!ctxpkg.PromptSources}.
Context {p : Provider}.
Implicit Types (st : RunState p) (al : AgentLoop) (key : string).

Lemma toolLoop_answered al key userMessage toolDefs n : forall i msgs fc st,
  exists appended,
    history (toolLoop al key userMessage toolDefs n i msgs fc st).2 key
    = history st key ++ appended
    /\ answered appended.
Proof.
  induction n as [|n IH]; intros i msgs fc st.
  - exists []. cbn. rewrite app_nil_r. split; [reflexivity | constructor].
  - rewrite toolLoop_S. cbv zeta.
    destruct (Chat p (pstate st) _) as [r0 ps]. cbn [fst snd].
    destruct r0 as [resp|err].
    + match goal with |- context [capture al resp userMessage i ?s] =>
        destruct (capture_frame al resp userMessage i s) as (_ & C2 & _ & _) end.
      cbn [sessions] in C2.
      destruct (decide (length (resp_ToolCalls resp) = 0)) as [Hz|Hnz].
      * exists []. cbn [snd]. unfold history. rewrite C2, app_nil_r.
        split; [reflexivity | constructor].
      * match goal with |- context [execToolCalls al key ?tcs ?m ?s] =>
          destruct (execToolCalls_eq al key tcs m s) as (new & _ & X2 & X3 & X4 & _);
          destruct (IH (i + 1)%Z (execToolCalls al key tcs m s).1 (final_of al i resp fc)
                       (execToolCalls al key tcs m s).2) as (appended & L & A)
        end.
        rewrite L, X2. unfold history at 1. cbn [addMessage snd sessions].
        rewrite GetHistory_AddMessage, C2.
        exists (assistantMsg resp :: new ++ appended). rewrite <- !app_assoc.
        split; [reflexivity|]. constructor; auto.
        intros Hnil. apply Hnz. cbn in Hnil. by rewrite Hnil.
    + exists []. cbn [snd]. unfold history. cbn [sessions]. rewrite app_nil_r.
      split; [reflexivity | constructor].
Qed.

(** X5.  What one [Run] adds to the session is, in this order: the user
    message; then, for every iteration that ran tools, the assistant
    message with its calls followed by exactly one tool message per call,
    carrying the ids of the calls in their order; and, when [Run]
    succeeds, the final assistant message.  Nothing that was in the
    session is changed or removed. *)
Theorem session_gets_answered_turns al userMessage st :
  let key := SessionKey (cfg al) in
  exists turns,
    answered turns
    /\ history (Run al userMessage st).2 key
       = history st key ++ [userMsg userMessage] ++ turns
         ++ match (Run al userMessage st).1 with
            | inl out => [{| Role := "assistant"; Content := out;
                             ToolCalls := []; ToolCallID := "" |}]
            | inr _ => []
            end.
Proof.
  intros key. rewrite Run_unfold. cbv zeta. fold key.
  set (bm := ctxpkg.BuildMessages _ _ _ _ _). clearbody bm.
  set (td := toolreg.ToToolDefs _ _). clearbody td.
  set (st2 := {| pstate := pstate st; world := td.2;
                 sessions := session.AddMessage (sessions st) key (userMsg userMessage);
                 chat_log := chat_log st; save_log := save_log st |}).
  assert (H2 : history st2 key = history st key ++ [userMsg userMessage]).
  { unfold history, st2. cbn [sessions]. apply GetHistory_AddMessage. }
  clearbody st2.
  destruct (toolLoop_answered al key userMessage td.1
              (Z.to_nat (MaxIterations (cfg al))) 0 bm.1 "" st2) as (turns & L & A).
  exists turns. split; [exact A|].
  destruct (toolLoop _ _ _ _ _ _ _ _ _) as [[fc|err] st3]; cbn [fst snd] in *.
  - unfold save, addMessage. cbn [snd sessions world chat_log save_log].
    destruct (session.Save _ _ _) as [e w']. cbn [snd sessions].
    unfold history in *. cbn [sessions]. rewrite GetHistory_AddMessage, L, H2.
    rewrite <- !app_assoc. reflexivity.
  - unfold history in *. rewrite L, H2, app_nil_r, <- !app_assoc. reflexivity.
Qed.

(** [truncate] *)

Lemma substring_0_length (n : nat) (s : string) :
  n <= String.length s -> String.length (String.substring 0 n s) = n.
Proof.
  revert s. induction n as [|n IH]; intros s Hn.
  - by destruct s.
  - destruct s as [|a s]; [simpl in Hn; lia|]. simpl. f_equal. apply IH. simpl in Hn. lia.
Qed.

Lemma length_append (a b : string) :
  String.length (a +:+ b) = String.length a + String.length b.
Proof. induction a as [|x a IH]; [reflexivity|]. rewrite append_cons. simpl. by rewrite IH. Qed.

Lemma substring_0_prefix (n : nat) (s : string) :
  String.prefix (String.substring 0 n s) s = true.
Proof.
  revert s. induction n as [|n IH]; intros s.
  - destruct s; reflexivity.
  - destruct s as [|a s]; [reflexivity|]. simpl.
    destruct (ascii_dec a a); [apply IH | congruence].
Qed.

(** X6.  [truncate s max], for [max >= 0]: a text of at most [max] bytes
    comes back unchanged; a longer one comes back as its first [max]
    bytes followed by three dots, so the result has exactly [max + 3]
    bytes and is never longer than that. *)
Theorem truncate_bounds (s : string) (max : Z) :
  (0 <= max)%Z ->
  ((Z.of_nat (String.length s) <= max)%Z -> truncate s max = s)
  /\ ((max < Z.of_nat (String.length s))%Z ->
      Z.of_nat (String.length (truncate s max)) = (max + 3)%Z
      /\ exists head, truncate s max = head +:+ "..."
                      /\ Z.of_nat (String.length head) = max
                      /\ String.prefix head s = true).
Proof.
  intros Hmax. unfold truncate. split; intros Hlen.
  - destruct (Z.leb_spec (Z.of_nat (String.length s)) max); [reflexivity | lia].
  - destruct (Z.leb_spec (Z.of_nat (String.length s)) max); [lia|].
    assert (Hl : String.length (String.substring 0 (Z.to_nat max) s) = Z.to_nat max).
    { apply substring_0_length. lia. }
    split.
    + rewrite length_append, Hl. simpl. lia.
    + eexists. split; [reflexivity|]. split; [rewrite Hl; lia | apply substring_0_prefix].
Qed.

End loop_pairing.

(* ===================================================================== *)
(** ** The session manager                                                *)
(* ===================================================================== *)

Section session_facts.
Import gostrings session.

Lemma lookup_AddMessage_ne (m : Manager) key key' msg :
  key' <> key -> sessions (AddMessage m key msg) !! key' = sessions m !! key'.
Proof. intros Hne. unfold AddMessage. cbn. by rewrite lookup_insert_ne. Qed.

(** X7.  [AddMessage] appends: the history of the key gets the message at
    its end and one more in its count, its summary stays; and no other
    key's history, summary or count changes.  A key that had no session
    gets one that holds just this message. *)
Theorem AddMessage_appends_to_one_key (m : Manager) (key : string) (msg : Message) :
  GetHistory (AddMessage m key msg) key = GetHistory m key ++ [msg]
  /\ MessageCount (AddMessage m key msg) key = (MessageCount m key + 1)%Z
  /\ GetSummary (AddMessage m key msg) key = GetSummary m key
  /\ (forall key', key' <> key ->
        GetHistory (AddMessage m key msg) key' = GetHistory m key'
        /\ GetSummary (AddMessage m key msg) key' = GetSummary m key'
        /\ MessageCount (AddMessage m key msg) key' = MessageCount m key').
Proof.
  split; [apply GetHistory_AddMessage|]. split; [|split].
  - unfold MessageCount, AddMessage, getOrCreate. cbn. rewrite lookup_insert_eq. cbn.
    destruct (sessions m !! key); cbn; rewrite ?length_app; cbn; lia.
  - unfold GetSummary, AddMessage, getOrCreate. cbn. rewrite lookup_insert_eq. cbn.
    destruct (sessions m !! key); reflexivity.
  - intros key' Hne. unfold GetHistory, GetSummary, MessageCount.
    rewrite !(lookup_AddMessage_ne m key key' msg Hne). auto.
Qed.

(** X8.  [SetSummary] sets the summary of the key and keeps a suffix of
    its history: the last [keepLast] messages when [keepLast] is positive
    and smaller than the count, everything otherwise (also for
    [keepLast <= 0]).  No other key changes. *)
Theorem SetSummary_keeps_a_suffix (m : Manager) (key summary : string) (keepLast : Z) :
  GetSummary (SetSummary m key summary keepLast) key = summary
  /\ (exists dropped,
        GetHistory m key = dropped ++ GetHistory (SetSummary m key summary keepLast) key)
  /\ MessageCount (SetSummary m key summary keepLast) key
     = (if (0 <? keepLast)%Z then Z.min keepLast (MessageCount m key)
        else MessageCount m key)
  /\ (forall key', key' <> key ->
        GetHistory (SetSummary m key summary keepLast) key' = GetHistory m key'
        /\ GetSummary (SetSummary m key summary keepLast) key' = GetSummary m key').
Proof.
  assert (E : forall l : list Message,
             let n := Z.of_nat (length l) in
             let l' := if (0 <? keepLast)%Z && (keepLast <? n)%Z
                       then drop (Z.to_nat (n - keepLast)) l else l in
             (exists dropped, l = dropped ++ l')
             /\ Z.of_nat (length l')
                = if (0 <? keepLast)%Z then Z.min keepLast n else n).
  { intros l n l'. unfold l'.
    destruct (Z.ltb_spec 0 keepLast), (Z.ltb_spec keepLast n); cbn [andb].
    - split; [exists (take (Z.to_nat (n - keepLast)) l); by rewrite take_drop|].
      rewrite length_drop. unfold n in *. lia.
    - split; [by exists []|]. lia.
    - split; [by exists []|]. reflexivity.
    - split; [by exists []|]. reflexivity. }
  unfold GetSummary, GetHistory, MessageCount, SetSummary, getOrCreate. cbn.
  rewrite !lookup_insert_eq. cbn. split; [reflexivity|].
  split; [|split].
  - destruct (sessions m !! key) as [s|]; [apply E | apply (E [])].
  - destruct (sessions m !! key) as [s|]; [apply E | apply (E [])].
  - intros key' Hne. rewrite !lookup_insert_ne by done. auto.
Qed.

Lemma replace_go_colon (s : string) :
  replace_go 0 s ":" "_" =
  match s with
  | "" => ""
  | String c s' => String (if decide (c = ":"%char) then "_"%char else c)
                          (replace_go 0 s' ":" "_")
  end.
Proof.
  destruct s as [|c s]; [reflexivity|]. cbn [replace_go String.prefix].
  destruct (ascii_dec ":" c) as [<-|Hne].
  - rewrite prefix_nil. rewrite decide_True by reflexivity. reflexivity.
  - rewrite decide_False by congruence. reflexivity.
Qed.

Lemma sanitize_cons (c : ascii) (s : string) :
  sanitize (String c s)
  = String (if decide (c = ":"%char) then "_"%char else c) (sanitize s).
Proof. unfold sanitize, ReplaceAll. by rewrite replace_go_colon. Qed.

Lemma sanitize_append (a b : string) : sanitize (a +:+ b) = sanitize a +:+ sanitize b.
Proof.
  induction a as [|c a IH]; [reflexivity|].
  rewrite append_cons, !sanitize_cons, append_cons. by rewrite IH.
Qed.

Lemma sanitize_get (key : string) (i : nat) :
  String.get i (sanitize key)
  = (fun c => if decide (c = ":"%char) then "_"%char else c) <$> String.get i key.
Proof.
  revert i. induction key as [|c key IH]; intros i; [by destruct i|].
  rewrite sanitize_cons. destruct i as [|i]; [reflexivity|]. cbn [String.get]. apply IH.
Qed.

(** X9.  [sanitize] turns every colon of a key into an underscore and
    nothing else: byte for byte, the result holds an underscore where
    the key holds a colon and the byte of the key everywhere else.  So
    the result has the length of the key and no colon, a key without a
    colon is its own result, and sanitizing twice is sanitizing once. *)
Theorem sanitize_removes_colons (key : string) :
  (forall i : nat,
      String.get i (sanitize key)
      = (fun c => if decide (c = ":"%char) then "_"%char else c) <$> String.get i key)
  /\ String.length (sanitize key) = String.length key
  /\ has_byte ":" (sanitize key) = false
  /\ (has_byte ":" key = false -> sanitize key = key)
  /\ sanitize (sanitize key) = sanitize key.
Proof.
  split; [intros i; apply sanitize_get|].
  induction key as [|c key (IH1 & IH2 & IH3 & IH4)]; [by repeat split|].
  destruct (decide (c = ":"%char)) as [->|Hne].
  - rewrite sanitize_cons, decide_True by reflexivity.
    rewrite sanitize_cons, decide_False by discriminate.
    cbn [String.length has_byte]. rewrite IH1, IH2, IH4. repeat split.
    intros H. rewrite bool_decide_eq_true_2 in H by reflexivity. discriminate.
  - rewrite sanitize_cons, decide_False by exact Hne.
    rewrite sanitize_cons, decide_False by exact Hne.
    cbn [String.length has_byte].
    rewrite IH1, IH2, IH4, bool_decide_eq_false_2 by exact Hne. repeat split.
    cbn [orb]. intros H. by rewrite (IH3 H).
Qed.

(** X10.  Two session keys that differ only in a colon against an
    underscore are saved under the same file name: [Save] writes each of
    them to the file of the other. *)
Theorem colon_and_underscore_share_a_file
        `{HR : GoRuntime} `{!SessionFiles}
        (m : Manager) (a b : string) (s1 s2 : Session) (w : World) :
  sessions m !! (a +:+ ":" +:+ b) = Some s1 ->
  sessions m !! (a +:+ "_" +:+ b) = Some s2 ->
  sanitize (a +:+ ":" +:+ b) = sanitize (a +:+ "_" +:+ b)
  /\ Save m (a +:+ ":" +:+ b) w
     = write_snapshot (dir m) (sanitize (a +:+ "_" +:+ b) +:+ ".json") s1 w
  /\ Save m (a +:+ "_" +:+ b) w
     = write_snapshot (dir m) (sanitize (a +:+ "_" +:+ b) +:+ ".json") s2 w.
Proof.
  intros H1 H2.
  assert (E : sanitize (a +:+ ":" +:+ b) = sanitize (a +:+ "_" +:+ b)).
  { rewrite !sanitize_append. reflexivity. }
  unfold Save. rewrite H1, H2, E. auto.
Qed.

End session_facts.

(* ===================================================================== *)
(** ** More about the tool executor                                       *)
(* ===================================================================== *)

Section executor_facts.
Import gostrings toolreg.
Context `{HR : GoRuntime}.

Lemma Cut_dot_cons (c : ascii) (s : string) :
  Cut (String c s) "." =
  if decide (c = "."%char) then Some ("", s)
  else match Cut s "." with
       | Some (before, after) => Some (String c before, after)
       | None => None
       end.
Proof.
  cbn [Cut String.prefix]. destruct (ascii_dec "." c) as [<-|Hne].
  - rewrite prefix_nil, decide_True by reflexivity. reflexivity.
  - rewrite decide_False by congruence. reflexivity.
Qed.

Lemma Cut_dot_None (s : string) : has_byte "." s = false -> Cut s "." = None.
Proof.
  induction s as [|c s IH]; [reflexivity|]. cbn [has_byte]. intros H.
  apply orb_false_iff in H as [Hc Hs]. apply bool_decide_eq_false in Hc.
  rewrite Cut_dot_cons, decide_False, IH by assumption. reflexivity.
Qed.

Lemma Cut_dot_Some (s : string) :
  has_byte "." s = true ->
  exists before after,
    Cut s "." = Some (before, after)
    /\ s = before +:+ "." +:+ after
    /\ has_byte "." before = false
    /\ String.length before < String.length s.
Proof.
  induction s as [|c s IH]; [discriminate|]. cbn [has_byte]. intros H.
  rewrite Cut_dot_cons. destruct (decide (c = "."%char)) as [->|Hne].
  - exists "", s. repeat split. cbn. lia.
  - rewrite bool_decide_eq_false_2 in H by exact Hne. cbn [orb] in H.
    destruct (IH H) as (b & a & -> & E & Hb & Hl). exists (String c b), a.
    split; [reflexivity|]. rewrite append_cons, <- E. repeat split.
    + cbn [has_byte]. rewrite Hb, bool_decide_eq_false_2 by exact Hne. reflexivity.
    + cbn. lia.
Qed.

Lemma Cut_dot_joined (t c : string) :
  has_byte "." t = false -> Cut (t +:+ "." +:+ c) "." = Some (t, c).
Proof.
  induction t as [|x t IH]; intros H.
  - rewrite append_nil_l. rewrite append_cons, append_nil_l, Cut_dot_cons.
    by rewrite decide_True.
  - cbn [has_byte] in H. apply orb_false_iff in H as [Hx Ht].
    apply bool_decide_eq_false in Hx.
    rewrite append_cons, Cut_dot_cons, decide_False, (IH Ht) by exact Hx. reflexivity.
Qed.

(** X11.  A tool call's name is cut at its first dot.  A name without a
    dot is refused as invalid before anything else is looked at, and the
    world is left alone; a name with a dot names the tool by the text
    before the first dot, which holds no dot, and the command by all the
    rest, further dots included. *)
Theorem name_is_cut_at_the_first_dot (r : Registry) (tc : ToolCall) (w : World) :
  (has_byte "." (tc_Name tc) = false ->
   Execute r tc w
   = (inr ("invalid tool name: " +:+ tc_Name tc +:+ " (expected tool.command)"), w))
  /\ (has_byte "." (tc_Name tc) = true ->
      exists toolName cmdName,
        SplitN2 (tc_Name tc) "." = [toolName; cmdName]
        /\ tc_Name tc = toolName +:+ "." +:+ cmdName
        /\ has_byte "." toolName = false
        /\ (tools r !! toolName = None ->
            Execute r tc w = (inr ("unknown tool: " +:+ toolName), w))).
Proof.
  split; intros H.
  - unfold Execute, SplitN2. rewrite (Cut_dot_None _ H). reflexivity.
  - destruct (Cut_dot_Some _ H) as (b & a & E & Hn & Hb & _).
    exists b, a. unfold Execute, SplitN2. rewrite E. repeat split; [exact Hn | exact Hb |].
    intros ->. reflexivity.
Qed.

(** X12.  [Execute] returns an output only after it has found the tool
    and the command, decoded the arguments and run the tool's binary,
    under the registry's timeout, on an argument vector that starts with
    the command name; the output is then the captured standard output,
    byte for byte, of a run that ended without an error. *)
Theorem output_is_the_stdout_of_the_tool (r : Registry) (tc : ToolCall)
        (w w' : World) (out : string) :
  Execute r tc w = (inl out, w') ->
  exists toolName cmdName tool cmdDef args rest w1 res,
    tc_Name tc = toolName +:+ "." +:+ cmdName
    /\ tools r !! toolName = Some tool
    /\ Commands tool !! cmdName = Some cmdDef
    /\ unmarshal_args (tc_Arguments tc) = inl args
    /\ buildCommandArgs cmdDef args cmdName w = (cmdName :: rest, w1)
    /\ run_process (Some (timeout r)) (Binary tool) (cmdName :: rest)
         (if Stdin cmdDef
          then sprint_v format_float <$> (args !! stdinParam_of cmdDef)
          else None) w1 = (res, w')
    /\ run_err res = None
    /\ out = stdout res.
Proof.
  unfold Execute, SplitN2.
  destruct (has_byte "." (tc_Name tc)) eqn:Hd.
  2:{ rewrite (Cut_dot_None _ Hd). discriminate. }
  destruct (Cut_dot_Some _ Hd) as (tn & cn & -> & Hn & _ & _).
  destruct (tools r !! tn) as [tool|] eqn:Ht; [|discriminate].
  destruct (Commands tool !! cn) as [cmdDef|] eqn:Hc; [|discriminate].
  destruct (unmarshal_args (tc_Arguments tc)) as [args|e] eqn:Ha; [|discriminate].
  unfold sbind.
  destruct (buildCommandArgs cmdDef args cn w) as [argv w1] eqn:Hb.
  destruct (run_process _ _ _ _ _) as [res w2] eqn:Hr.
  destruct (run_err res) as [e|] eqn:He; [discriminate|].
  intros E. injection E as <- <-.
  assert (Hhd : exists rest, argv = cn :: rest).
  { unfold buildCommandArgs, sbind, sret in Hb.
    destruct (negb (bool_decide (Args cmdDef = ""))); destruct (map_range args w) as [o w0];
      injection Hb as <- _.
    - rewrite keep_parts_eq. eauto.
    - rewrite flag_pairs_eq. eauto. }
  destruct Hhd as [rest ->].
  exists tn, cn, tool, cmdDef, args, rest, w1, res. repeat split; assumption.
Qed.

End executor_facts.

Section registry_facts.
Import gostrings toolreg.
Context `{HR : GoRuntime}.

Lemma registered_snoc (timeout : Z) ms m :
  registered timeout (ms ++ [m]) = Register (registered timeout ms) m.
Proof. unfold registered. by rewrite fold_left_app. Qed.

(** X13.  A registry built by [NewRegistry] and [Register] never has a
    zero timeout (zero asks for 30 seconds), files every tool under its
    own name, and answers a lookup with the manifest registered last
    under that name, or with nothing when none was. *)
Theorem registry_keeps_the_last_manifest (timeout : Z) (ms : list ToolManifest) :
  toolreg.timeout (registered timeout ms)
  = (if decide (timeout = 0) then 30 * Second else timeout)%Z
  /\ toolreg.timeout (registered timeout ms) <> 0%Z
  /\ name_keyed (registered timeout ms)
  /\ (forall name,
        tools (registered timeout ms) !! name
        = last (filter (fun m => tm_Name m = name) ms)).
Proof.
  induction ms as [|m ms (IH1 & IH2 & IH3 & IH4)] using rev_ind.
  - unfold registered, NewRegistry, name_keyed. cbn.
    destruct (Z.eqb_spec timeout 0) as [->|Hne].
    + rewrite decide_True by reflexivity. repeat split; try done.
    + rewrite decide_False by exact Hne. repeat split; try done.
  - rewrite registered_snoc. unfold Register at 1 2 3 4. cbn [toolreg.timeout tools].
    split; [exact IH1|]. split; [exact IH2|]. split.
    + intros k t. unfold Register. cbn [tools].
      destruct (decide (tm_Name m = k)) as [<-|Hne].
      * rewrite lookup_insert_eq. by intros [= <-].
      * rewrite lookup_insert_ne by exact Hne. apply IH3.
    + intros name. unfold Register. cbn [tools]. rewrite filter_app, filter_cons, filter_nil.
      destruct (decide (tm_Name m = name)) as [<-|Hne].
      * by rewrite lookup_insert_eq, last_snoc.
      * rewrite lookup_insert_ne by exact Hne. rewrite app_nil_r. apply IH4.
Qed.

(** A [range] loop whose body appends, seen through [h]. *)
Lemma sfold_appends {A B C} (f : list B -> A -> W (list B)) (h : B -> C)
      (g : A -> list C) :
  (forall defs a w, exists new, (f defs a w).1 = defs ++ new /\ h <$> new ≡ₚ g a) ->
  forall l defs w,
    exists new, (sfold f l defs w).1 = defs ++ new /\ h <$> new ≡ₚ concat (g <$> l).
Proof.
  intros Hf. induction l as [|a l IH]; intros defs w.
  - exists []. cbn. by rewrite app_nil_r.
  - cbn [sfold]. unfold sbind. destruct (Hf defs a w) as (n1 & E1 & P1).
    destruct (f defs a w) as [d1 w1]. cbn [fst] in E1. subst d1.
    destruct (IH (defs ++ n1) w1) as (n2 & E2 & P2).
    exists (n1 ++ n2). rewrite E2, <- app_assoc. split; [reflexivity|].
    rewrite fmap_app. cbn. by rewrite P1, P2.
Qed.

(** X14.  [ToToolDefs] advertises one definition per command of every
    registered tool and nothing else: the names of the definitions are,
    up to their order, the texts [tool.command], tool by tool and command
    by command. *)
Theorem every_command_is_advertised_once (r : Registry) (w : World) :
  td_Name <$> (ToToolDefs r w).1
  ≡ₚ concat ((fun nt : string * ToolManifest => advertised_names nt.2)
               <$> map_to_list (tools r)).
Proof.
  unfold ToToolDefs, sbind.
  pose proof (map_range_perm _ (tools r) w) as P.
  destruct (map_range (tools r) w) as [ts w1]. cbn [fst] in P. rewrite <- P.
  match goal with |- context [sfold ?f ts [] w1] =>
    destruct (sfold_appends f td_Name
                (fun nt : string * ToolManifest => advertised_names nt.2)) with
      (l := ts) (defs := @nil ToolDef) (w := w1) as (new & E & Pn)
  end.
  - intros defs [k tool] w0. unfold sbind. cbn [snd].
    pose proof (map_range_perm _ (Commands tool) w0) as Pc.
    destruct (map_range (Commands tool) w0) as [cs w2]. cbn [fst] in Pc.
    unfold advertised_names. cbn [snd].
    match goal with |- context [sfold ?f cs defs w2] =>
      destruct (sfold_appends f td_Name
                  (fun nc : string * CommandDef => [tm_Name tool +:+ "." +:+ nc.1])) with
        (l := cs) (defs := defs) (w := w2) as (new & E & Pn)
    end.
    + intros d [c cmd] w3. unfold sbind, sret.
      destruct (buildJSONSchema (Parameters cmd) w3) as [schema w4]. cbn [fst].
      eexists [_]. split; reflexivity.
    + exists new. split; [exact E|]. etrans; [exact Pn|].
      etrans; [|apply fmap_Permutation, Pc]. clear.
      induction cs as [|x cs IH]; [reflexivity|]. cbn. by rewrite IH.
  - rewrite E. cbn. exact Pn.
Qed.

Lemma advertised_by_a_tool (r : Registry) (w : World) (name : string) :
  name ∈ td_Name <$> (ToToolDefs r w).1 ->
  exists k tool, tools r !! k = Some tool /\ name ∈ advertised_names tool.
Proof.
  assert (Hperm : td_Name <$> (ToToolDefs r w).1
                  ≡ₚ concat ((fun nt : string * ToolManifest => advertised_names nt.2)
                               <$> map_to_list (tools r))).
  {
      unfold ToToolDefs, sbind.
      pose proof (map_range_perm _ (tools r) w) as P.
      destruct (map_range (tools r) w) as [ts w1]. cbn [fst] in P. rewrite <- P.
      match goal with |- context [sfold ?f ts [] w1] =>
        destruct (sfold_appends f td_Name
                    (fun nt : string * ToolManifest => advertised_names nt.2)) with
          (l := ts) (defs := @nil ToolDef) (w := w1) as (new & E & Pn)
      end.
      - intros defs [k tool] w0. unfold sbind. cbn [snd].
        pose proof (map_range_perm _ (Commands tool) w0) as Pc.
        destruct (map_range (Commands tool) w0) as [cs w2]. cbn [fst] in Pc.
        unfold advertised_names. cbn [snd].
        match goal with |- context [sfold ?f cs defs w2] =>
          destruct (sfold_appends f td_Name
                      (fun nc : string * CommandDef => [tm_Name tool +:+ "." +:+ nc.1])) with
            (l := cs) (defs := defs) (w := w2) as (new & E & Pn)
        end.
        + intros d [c cmd] w3. unfold sbind, sret.
          destruct (buildJSONSchema (Parameters cmd) w3) as [schema w4]. cbn [fst].
          eexists [_]. split; reflexivity.
        + exists new. split; [exact E|]. etrans; [exact Pn|].
          etrans; [|apply fmap_Permutation, Pc]. clear.
          induction cs as [|x cs IH]; [reflexivity|]. cbn. by rewrite IH.
      - rewrite E. cbn. exact Pn.
  }
  rewrite Hperm. clear Hperm.
  assert (Hall : forall kt : string * ToolManifest,
             kt ∈ map_to_list (tools r) -> tools r !! kt.1 = Some kt.2).
  { intros [k t] Hkt. by apply elem_of_map_to_list. }
  revert Hall. generalize (map_to_list (tools r)). intros kts.
  induction kts as [|[k tool] kts IH]; intros Hall Hin; cbn in Hin.
  - by apply elem_of_nil in Hin.
  - apply elem_of_app in Hin as [Hin|Hin].
    + exists k, tool. split; [|exact Hin]. apply (Hall (k, tool)). by left.
    + apply IH; [|exact Hin]. intros kt Hkt. apply Hall. by right.
Qed.

(** X15.  In a registry that files every tool under its own name, take
    a tool call whose name is one of those [ToToolDefs] advertises.  The
    name is that of a registered tool, a dot and one of its commands.
    When the name of the tool holds no dot, [Execute] finds this tool and
    this command: it fails on the arguments if they do not decode, and
    otherwise runs the binary of the tool on the argument vector of the
    command.  When the name of the tool holds a dot, [Execute] cuts the
    call's name inside it and looks for a tool of a shorter name, which
    is not this tool: it reports an unknown tool when there is none. *)
Theorem advertised_names_resolve (r : Registry) (tc : ToolCall) (w0 w : World) :
  name_keyed r ->
  tc_Name tc ∈ td_Name <$> (ToToolDefs r w0).1 ->
  exists tool cmdName cmdDef,
    tools r !! tm_Name tool = Some tool
    /\ Commands tool !! cmdName = Some cmdDef
    /\ tc_Name tc = tm_Name tool +:+ "." +:+ cmdName
    /\ (has_byte "." (tm_Name tool) = false ->
        Execute r tc w
        = match unmarshal_args (tc_Arguments tc) with
          | inr err => (inr ("parse tool arguments: " +:+ err), w)
          | inl args =>
            let '(cmdArgs, w1) := buildCommandArgs cmdDef args cmdName w in
            let '(res, w2) :=
              run_process (Some (timeout r)) (Binary tool) cmdArgs
                (if Stdin cmdDef
                 then sprint_v format_float <$> (args !! stdinParam_of cmdDef)
                 else None) w1 in
            (match run_err res with
             | Some err =>
               inr (tm_Name tool +:+ "." +:+ cmdName +:+ " failed: "
                    +:+ (if decide (stderr res = "") then Error_text err
                         else stderr res))
             | None => inl (stdout res)
             end, w2)
          end)
    /\ (has_byte "." (tm_Name tool) = true ->
        exists toolName rest,
          tc_Name tc = toolName +:+ "." +:+ rest
          /\ String.length toolName < String.length (tm_Name tool)
          /\ (forall other, tools r !! toolName = Some other -> other <> tool)
          /\ (tools r !! toolName = None ->
              Execute r tc w = (inr ("unknown tool: " +:+ toolName), w))).
Proof.
  intros Hk Hin.
  destruct (advertised_by_a_tool _ _ _ Hin) as (k & tool & Ht & Ha).
  unfold advertised_names in Ha.
  apply list_elem_of_fmap in Ha as ([c cmd] & Hn & Hc). cbn [fst] in Hn.
  apply elem_of_map_to_list in Hc.
  pose proof (Hk _ _ Ht) as Hname. rewrite <- Hname in Ht.
  exists tool, c, cmd. split; [exact Ht|]. split; [exact Hc|]. split; [exact Hn|].
  split; intros Hdot.
  - unfold Execute, SplitN2. rewrite Hn, (Cut_dot_joined _ _ Hdot), Ht, Hc.
    destruct (unmarshal_args (tc_Arguments tc)) as [args|err]; [|reflexivity].
    unfold sbind, sret.
    destruct (buildCommandArgs cmd args c w) as [cmdArgs w1].
    destruct (run_process _ _ _ _ w1) as [res w2].
    by destruct (run_err res).
  - destruct (Cut_dot_Some (tm_Name tool) Hdot) as (b & a & _ & E & Hb & Hl).
    assert (E2 : tc_Name tc = b +:+ "." +:+ (a +:+ "." +:+ c)).
    { rewrite Hn. rewrite E at 1. rewrite !append_assoc. reflexivity. }
    exists b, (a +:+ "." +:+ c). split; [exact E2|]. split; [exact Hl|]. split.
    + intros other Ho ->. apply Hk in Ho. rewrite Ho in Hl. lia.
    + intros Hnone. unfold Execute, SplitN2.
      rewrite E2, (Cut_dot_joined _ _ Hb), Hnone. reflexivity.
Qed.

End registry_facts.

Section schema_facts.
Import toolreg.
Context `{HR : GoRuntime}.

Lemma fold_insert_lookup {A B} (f : A -> B) (l : list (string * A)) (k : string) :
  fold_left (fun (m : gmap string B) (kv : string * A) => <[kv.1 := f kv.2]> m) l ∅ !! k
  = f <$> (list_to_map (reverse l) : gmap string A) !! k.
Proof.
  induction l as [|[k' v] l IH] using rev_ind; [cbn; by rewrite !lookup_empty|].
  rewrite fold_left_app, reverse_app. cbn.
  destruct (decide (k' = k)) as [->|Hne].
  - by rewrite !lookup_insert_eq.
  - rewrite !lookup_insert_ne by exact Hne. exact IH.
Qed.

Lemma schema_fold_split (order : list (string * ParameterDef)) :
  fold_left
    (fun (acc : gmap string JValue * list string) (np : string * ParameterDef) =>
       let '(properties, required) := acc in
       let '(name, p) := np in
       let prop : gmap string JValue :=
         <["description" := JString (pd_Description p)]>
           (<["type" := JString (pd_Type p)]> ∅) in
       let prop :=
         match pd_Default p with
         | JNull => prop
         | d => <["default" := d]> prop
         end in
       (<[name := JObject prop]> properties,
        if pd_Required p then required ++ [name] else required))
    order (∅, [])
  = (fold_left (fun (m : gmap string JValue) (kv : string * ParameterDef) =>
                  <[kv.1 := property_of kv.2]> m) order ∅,
     (filter (fun np : string * ParameterDef => pd_Required np.2 = true) order).*1).
Proof.
  induction order as [|[name p] order IH] using rev_ind; [reflexivity|].
  rewrite !fold_left_app, IH, filter_app, fmap_app. cbn [fold_left fst snd].
  apply pair_equal_spec. split.
  - unfold property_of. by destruct (pd_Default p).
  - rewrite filter_cons, filter_nil. cbn [snd].
    destruct (pd_Required p); cbn.
    + reflexivity.
    + by rewrite app_nil_r.
Qed.

(** X16.  [buildJSONSchema] returns an object of type [object] whose
    [properties] hold, under the name of every parameter and no other
    name, the type and the description of that parameter and its default
    when it has one: the order in which the map is visited leaves no
    trace there.  The key [required] is present exactly when some
    parameter is required, and lists the required names, each once, in
    the order they were visited. *)
Theorem schema_lists_every_parameter (params : gmap string ParameterDef) (w : World) :
  exists required : list string,
    required ≡ₚ required_names params
    /\ (buildJSONSchema params w).1
       = JObject
           (let schema : gmap string JValue :=
              {[ "properties" := JObject (property_of <$> params);
                 "type" := JString "object" ]} in
            if decide (required = []) then schema
            else <["required" := JArray (JString <$> required)]> schema).
Proof.
  unfold buildJSONSchema, sbind, sret.
  pose proof (map_range_perm _ params w) as P.
  destruct (map_range params w) as [order w1]. cbn [fst] in P.
  rewrite schema_fold_split. cbn [fst].
  exists (filter (fun np : string * ParameterDef => pd_Required np.2 = true) order).*1.
  split.
  - unfold required_names. by rewrite P.
  - f_equal.
    assert (Ep : fold_left (fun (m : gmap string JValue) (kv : string * ParameterDef) =>
                              <[kv.1 := property_of kv.2]> m) order ∅
                 = property_of <$> params).
    { apply map_eq. intros k. rewrite fold_insert_lookup, lookup_fmap.
      do 2 f_equal. symmetry. apply list_to_map_flip.
      by rewrite reverse_Permutation, P. }
    rewrite Ep.
    assert (Es : (<["properties" := JObject (property_of <$> params)]>
                    (<["type" := JString "object"]> ∅) : gmap string JValue)
                 = {[ "properties" := JObject (property_of <$> params);
                      "type" := JString "object" ]}) by reflexivity.
    destruct ((filter _ order).*1) as [|x xs]; cbn [decide]; by rewrite Es.
Qed.

End schema_facts.

Section adapter_facts.
Context `{HR : GoRuntime} `{HT : Transport}.
Context `{HA : !anthropic.WireJSON} `{HO : !openai.WireJSON}.

Lemma anthropic_convertMessages_snoc ms m :
  anthropic.convertMessages (ms ++ [m])
  = anthropic.convertMessage (anthropic.convertMessages ms) m.
Proof. unfold anthropic.convertMessages. by rewrite fold_left_app. Qed.

(** X17.  Variant A, the conversion of the messages.  The system prompt
    of the request is the content of the last message of role [system],
    wherever it stands, and empty when there is none; the message list
    holds one entry for each message of role [user], [assistant] or
    [tool], in order, under the role [assistant] for the assistant's and
    [user] for the two others; a message of any other role is dropped. *)
Theorem anthropic_system_is_lifted_out (ms : list Message) :
  (anthropic.convertMessages ms).1
  = match last (filter (fun m => Role m = "system") ms) with
    | Some m => Content m
    | None => ""
    end
  /\ anthropic.am_Role <$> (anthropic.convertMessages ms).2
     = (fun m => if decide (Role m = "assistant") then "assistant" else "user")
         <$> filter spoken ms.
Proof.
  induction ms as [|m ms [IH1 IH2]] using rev_ind; [by split|].
  rewrite anthropic_convertMessages_snoc, !filter_app, !filter_cons, !filter_nil.
  destruct (anthropic.convertMessages ms) as [system msgs]. cbn [fst snd] in *.
  unfold anthropic.convertMessage.
  destruct (decide (Role m = "system")) as [E|N1].
  { cbn [fst snd]. rewrite last_snoc. split; [reflexivity|].
    rewrite (decide_False (P := spoken m)) by (unfold spoken; rewrite E; intros [|[|]]; discriminate).
    by rewrite app_nil_r. }
  rewrite app_nil_r.
  destruct (decide (Role m = "user")) as [E|N2].
  { cbn [fst snd]. split; [exact IH1|].
    rewrite (decide_True (P := spoken m)) by (unfold spoken; auto). rewrite !fmap_app, IH2. cbn.
    rewrite decide_False by (rewrite E; discriminate). reflexivity. }
  destruct (decide (Role m = "assistant")) as [E|N3].
  { rewrite (decide_True (P := spoken m)) by (unfold spoken; auto).
    destruct (0 <? length (ToolCalls m))%nat; cbn [fst snd];
      (split; [exact IH1|]); rewrite !fmap_app, IH2; cbn;
      rewrite decide_True by exact E; reflexivity. }
  destruct (decide (Role m = "tool")) as [E|N4].
  { cbn [fst snd]. split; [exact IH1|].
    rewrite (decide_True (P := spoken m)) by (unfold spoken; auto). rewrite !fmap_app, IH2. cbn.
    rewrite decide_False by exact N3. reflexivity. }
  cbn [fst snd]. rewrite (decide_False (P := spoken m)) by (unfold spoken; intros [|[|]]; contradiction).
  rewrite app_nil_r. auto.
Qed.

Lemma concat_empty_snoc (l : list string) (s : string) :
  String.concat "" (l ++ [s]) = String.concat "" l +:+ s.
Proof.
  induction l as [|x l IH]; cbn [app String.concat].
  - by rewrite append_nil_l.
  - destruct l as [|y l].
    + cbn [app String.concat]. by rewrite append_nil_l.
    + cbn [app String.concat] in *. rewrite IH. by rewrite !append_assoc.
Qed.

(** X18.  Variant A, the reading of a response.  The content of the
    result is the texts of the [text] blocks joined in order; its tool
    calls are the [tool_use] blocks, one each and in order, under their
    ids and names; blocks of any other type leave no trace; the usage
    counters are those of the body. *)
Theorem anthropic_blocks_are_sorted_by_type (apiResp : anthropic.anthropicResponse) :
  let blocks := anthropic.rs_Content apiResp in
  let resp := anthropic.parseResponse apiResp in
  resp_Content resp
  = String.concat "" (anthropic.cb_Text
                        <$> filter (fun b => anthropic.cb_Type b = "text") blocks)
  /\ tc_ID <$> resp_ToolCalls resp
     = anthropic.cb_ID <$> filter (fun b => anthropic.cb_Type b = "tool_use") blocks
  /\ tc_Name <$> resp_ToolCalls resp
     = anthropic.cb_Name <$> filter (fun b => anthropic.cb_Type b = "tool_use") blocks
  /\ resp_Usage resp
     = {| PromptTokens := anthropic.rs_InputTokens apiResp;
          CompletionTokens := anthropic.rs_OutputTokens apiResp |}.
Proof.
  cbn zeta. unfold anthropic.parseResponse.
  induction (anthropic.rs_Content apiResp) as [|b bs (IH1 & IH2 & IH3 & IH4)] using rev_ind;
    [by repeat split|].
  rewrite fold_left_app, !filter_app, !filter_cons, !filter_nil. cbn [fold_left].
  set (r := fold_left anthropic.parseBlock bs _) in *.
  unfold anthropic.parseBlock.
  destruct (decide (anthropic.cb_Type b = "text")) as [E|N1].
  { cbn [resp_Content resp_ToolCalls resp_Usage].
    rewrite decide_False by (rewrite E; discriminate).
    rewrite !app_nil_r, fmap_app. cbn [fmap list_fmap].
    rewrite concat_empty_snoc, IH1. auto. }
  destruct (decide (anthropic.cb_Type b = "tool_use")) as [E|N2].
  { cbn [resp_Content resp_ToolCalls resp_Usage].
    rewrite !app_nil_r, !fmap_app, IH2, IH3. auto. }
  rewrite !app_nil_r. auto.
Qed.

Lemma openai_convert_snoc ms m :
  fold_left openai.convertMessage (ms ++ [m]) []
  = openai.convertMessage (fold_left openai.convertMessage ms []) m.
Proof. by rewrite fold_left_app. Qed.

(** X19.  Variant B, the conversion.  The request holds one message for
    each message of role [system], [user], [assistant] or [tool], in
    order and under the same role and content, and drops the others; and
    the tool calls of an assistant message, as they are sent, are read
    back from a response as the same tool calls. *)
Theorem openai_messages_keep_role_and_content
        (o : openai.OpenAI) (req : ChatRequest) (tcs : list ToolCall)
        (apiResp : openai.openaiResponse) (choice : openai.openaiChoice)
        (rest : list openai.openaiChoice) :
  let sent_msgs := openai.or_Messages (openai.buildRequest o req) in
  (fun m => (openai.om_Role m, openai.om_Content m)) <$> sent_msgs
  = (fun m => (Role m, Content m)) <$> filter known_role (req_Messages req)
  /\ (openai.ors_Choices apiResp = choice :: rest ->
      openai.ch_Message_ToolCalls choice = map openai.convertToolCall tcs ->
      resp_ToolCalls (openai.parseResponse apiResp) = tcs).
Proof.
  cbn zeta. split.
  - unfold openai.buildRequest. cbn [openai.or_Messages].
    induction (req_Messages req) as [|m ms IH] using rev_ind; [reflexivity|].
    rewrite openai_convert_snoc, filter_app, filter_cons, filter_nil, fmap_app, <- IH.
    unfold openai.convertMessage.
    destruct (decide (Role m = "system" \/ Role m = "user")) as [E|N1].
    { rewrite (decide_True (P := known_role m)) by (unfold known_role; tauto). by rewrite fmap_app. }
    destruct (decide (Role m = "assistant")) as [E|N2].
    { rewrite (decide_True (P := known_role m)) by (unfold known_role; tauto). rewrite fmap_app. cbn. by rewrite E. }
    destruct (decide (Role m = "tool")) as [E|N3].
    { rewrite (decide_True (P := known_role m)) by (unfold known_role; tauto). rewrite fmap_app. cbn. by rewrite E. }
    rewrite (decide_False (P := known_role m)) by (unfold known_role; tauto). cbn. by rewrite app_nil_r.
  - intros Hc Ht. unfold openai.parseResponse. rewrite Hc, Ht.
    cbn [resp_ToolCalls]. rewrite map_map. clear.
    induction tcs as [|[i n a] tcs IH]; [reflexivity|]. cbn. f_equal. exact IH.
Qed.

(** X20.  Variant A, the network.  A call either stops before it built a
    request, with an error and the network untouched, or puts exactly
    one request on the network: a POST to the fixed address whose body is
    the serialized request and whose headers carry the credential.  A
    call that returns a response went this second way, got status 200 and
    a body that decodes, and does not have both the type [error] and an
    error object; the response is read off that body. *)
Theorem anthropic_chat_is_one_round_trip
        (a : anthropic.Anthropic) (st : NetState) (req : ChatRequest) :
  let out := anthropic.Chat a st req in
  stopped_early st out
  \/ exists body,
       let r := {| http_method := "POST"; http_url := anthropic.anthropicAPIURL;
                   http_header := [("Content-Type", "application/json");
                                   ("x-api-key", anthropic.apiKey a);
                                   ("anthropic-version", "2023-06-01")];
                   http_body := body |} in
       anthropic.apiKey a <> ""
       /\ anthropic.marshal_request (anthropic.buildRequest a req) = inl body
       /\ sent out.2 = sent st ++ [r]
       /\ net out.2 = (http_Do r (net st)).2
       /\ forall resp, out.1 = inl resp ->
            exists respBody apiResp,
              (http_Do r (net st)).1 = Responded 200 respBody
              /\ anthropic.unmarshal_response respBody = inl apiResp
              /\ ~ (anthropic.rs_Type apiResp = "error"
                    /\ anthropic.rs_Error apiResp <> None)
              /\ resp = anthropic.parseResponse apiResp.
Proof.
  cbn zeta. unfold anthropic.Chat, stopped_early.
  destruct (decide (anthropic.apiKey a = "")) as [E|Hk]; [left; eauto|].
  destruct (anthropic.marshal_request _) as [body|err] eqn:Hm; [|left; eauto].
  destruct (NewRequest_error _ _) as [err|]; [left; eauto|].
  right. exists body. cbn zeta.
  destruct (http_Do _ (net st)) as [res net'] eqn:Hd.
  destruct res as [err|status err|status respBody];
    [| |destruct (Z.eqb_spec status 200) as [->|Hs]; cbn [negb];
        [destruct (anthropic.unmarshal_response respBody) as [apiResp|err] eqn:Hu;
         [destruct (anthropic.rs_Error apiResp) as [e|] eqn:He;
          [destruct (decide (anthropic.rs_Type apiResp = "error")) as [Et|Nt]|]|]|]];
    cbn [fst snd sent net]; do 4 (split; [done|]);
    intros resp Hr; try discriminate Hr; injection Hr as <-;
    exists respBody, apiResp; repeat split; try done.
  - by intros [? ?].
  - rewrite He. by intros [? ?].
Qed.

(** X21.  Variant B, the network.  A call either stops before it built a
    request, with an error and the network untouched, or puts exactly
    one request on the network: a POST to the base address of the
    provider whose body is the serialized request and whose headers carry
    the credential as a bearer token.  A call that returns a response
    went this second way, got status 200 and a body that decodes and has
    no error object, whatever else the body holds. *)
Theorem openai_chat_is_one_round_trip
        (o : openai.OpenAI) (st : NetState) (req : ChatRequest) :
  let out := openai.Chat o st req in
  stopped_early st out
  \/ exists body,
       let r := {| http_method := "POST"; http_url := openai.baseURL o;
                   http_header := [("Content-Type", "application/json");
                                   ("Authorization", "Bearer " +:+ openai.apiKey o)];
                   http_body := body |} in
       openai.apiKey o <> ""
       /\ openai.marshal_request (openai.buildRequest o req) = inl body
       /\ sent out.2 = sent st ++ [r]
       /\ net out.2 = (http_Do r (net st)).2
       /\ forall resp, out.1 = inl resp ->
            exists respBody apiResp,
              (http_Do r (net st)).1 = Responded 200 respBody
              /\ openai.unmarshal_response respBody = inl apiResp
              /\ openai.ors_Error apiResp = None
              /\ resp = openai.parseResponse apiResp.
Proof.
  cbn zeta. unfold openai.Chat, stopped_early.
  destruct (decide (openai.apiKey o = "")) as [E|Hk]; [left; eauto|].
  destruct (openai.marshal_request _) as [body|err] eqn:Hm; [|left; eauto].
  destruct (NewRequest_error _ _) as [err|]; [left; eauto|].
  right. exists body. cbn zeta.
  destruct (http_Do _ (net st)) as [res net'] eqn:Hd.
  destruct res as [err|status err|status respBody];
    [| |destruct (Z.eqb_spec status 200) as [->|Hs]; cbn [negb];
        [destruct (openai.unmarshal_response respBody) as [apiResp|err] eqn:Hu;
         [destruct (openai.ors_Error apiResp) as [e|] eqn:He|]|]];
    cbn [fst snd sent net]; do 4 (split; [done|]);
    intros resp Hr; try discriminate Hr; injection Hr as <-;
    exists respBody, apiResp; repeat split; done.
Qed.

End adapter_facts.

(* ===================================================================== *)
(** ** The cron parser                                                    *)
(* ===================================================================== *)

Section cron_facts.
Import gostrings gostrconv goint scheduler.
Local Open Scope Z_scope.

Lemma wrap_id z : minInt <= z <= maxInt -> wrap z = z.
Proof. unfold wrap, minInt, maxInt. intros. rewrite Z.mod_small; lia. Qed.

Lemma wrap_over z : maxInt < z <= maxInt + 2 ^ 63 -> wrap z = z - 2 ^ 64.
Proof.
  unfold wrap, maxInt. intros.
  replace (z + 2 ^ 63) with ((z + 2 ^ 63 - 2 ^ 64) + 1 * 2 ^ 64) by lia.
  rewrite Z_mod_plus_full, Z.mod_small; lia.
Qed.

Lemma wrap_range z : minInt <= wrap z <= maxInt.
Proof.
  unfold wrap, minInt, maxInt.
  pose proof (Z.mod_pos_bound (z + 2 ^ 63) (2 ^ 64) ltac:(lia)). lia.
Qed.

Lemma digit_range c d : digit c = Some d -> 0 <= d <= 9.
Proof.
  unfold digit. destruct (Z.leb_spec 48 (Z.of_N (N_of_ascii c)));
    destruct (Z.leb_spec (Z.of_N (N_of_ascii c)) 57); cbn; intros [= <-]; lia.
Qed.

Lemma parseUint_range s : forall n un, 0 <= n -> parseUint n s = inl un -> 0 <= un.
Proof.
  induction s as [|c s IH]; intros n un Hn; cbn [parseUint].
  - intros [= <-]. exact Hn.
  - destruct (digit c) as [d|] eqn:Hd; [|discriminate].
    apply digit_range in Hd. destruct (Z.ltb_spec (2 ^ 64 - 1) (n * 10 + d)); [discriminate|].
    apply IH. lia.
Qed.

Lemma Atoi_range s v : Atoi s = inl v -> minInt <= v <= maxInt.
Proof.
  unfold Atoi. destruct s as [|c rest]; [discriminate|].
  set (body := if bool_decide (c = "-"%char \/ c = "+"%char) then rest else String c rest).
  destruct body as [|b body'] eqn:Eb; [discriminate|].
  destruct (parseUint 0 (String b body')) as [un|e] eqn:Hu; [|discriminate].
  apply parseUint_range in Hu; [|lia]. unfold minInt, maxInt.
  destruct (bool_decide (c = "-"%char)); cbn [negb andb].
  - destruct (Z.ltb_spec (2 ^ 63) un); [discriminate|]. intros [= <-]. lia.
  - destruct (Z.leb_spec (2 ^ 63) un); [discriminate|]. intros [= <-]. lia.
Qed.

Lemma partStep_range part step rest :
  partStep part = inl (step, rest) -> 0 < step <= maxInt.
Proof.
  unfold partStep. destruct (Z.leb_spec 0 (Index part "/")).
  - destruct (Atoi _) as [s|e] eqn:Ha; [|discriminate].
    destruct (Z.leb_spec s 0); [discriminate|]. intros [= <- _].
    apply Atoi_range in Ha. lia.
  - intros [= <- _]. unfold maxInt. lia.
Qed.

Lemma store_Some s i :
  0 <= i < Z.of_nat (length s) -> store s i = Some (<[Z.to_nat i := true]> s).
Proof.
  intros H. unfold store.
  destruct (Z.leb_spec 0 i); [|lia]. destruct (Z.ltb_spec i (Z.of_nat (length s))); [|lia].
  reflexivity.
Qed.

Lemma store_None s i : i < 0 \/ Z.of_nat (length s) <= i -> store s i = None.
Proof.
  intros H. unfold store.
  destruct (Z.leb_spec 0 i); destruct (Z.ltb_spec i (Z.of_nat (length s))); try lia; reflexivity.
Qed.

Lemma store_inv s i s' :
  store s i = Some s' ->
  0 <= i < Z.of_nat (length s) /\ s' = <[Z.to_nat i := true]> s.
Proof.
  unfold store.
  destruct (Z.leb_spec 0 i); destruct (Z.ltb_spec i (Z.of_nat (length s)));
    cbn; intros [= <-]. split; [lia | reflexivity].
Qed.

Lemma nth_insert_bool (l : list bool) (n j : nat) (b : bool) :
  (n < length l)%nat ->
  nth j (<[n := b]> l) false = if decide (j = n) then b else nth j l false.
Proof.
  intros Hn. rewrite !nth_lookup. destruct (decide (j = n)) as [->|Hne].
  - by rewrite list_lookup_insert_eq.
  - by rewrite list_lookup_insert_ne.
Qed.

Lemma nth_insert_true (l : list bool) (n j : nat) :
  (n < length l)%nat ->
  nth j (<[n := true]> l) false = if decide (j = n) then true else nth j l false.
Proof.
  intros Hn. rewrite !nth_lookup. destruct (decide (j = n)) as [->|Hne].
  - by rewrite list_lookup_insert_eq.
  - by rewrite list_lookup_insert_ne.
Qed.

Lemma in_progression_next lo hi step j :
  0 < step -> j <> lo ->
  in_progression lo hi step j <-> in_progression (lo + step) hi step j.
Proof.
  intros Hs Hne. unfold in_progression.
  replace (j - (lo + step)) with ((j - lo) + (-1) * step) by lia.
  rewrite Z_mod_plus_full. split; intros [Hr Hm]; (split; [|exact Hm]); [|lia].
  pose proof (Z.div_mod (j - lo) step ltac:(lia)) as E. rewrite Hm in E.
  assert (1 <= (j - lo) / step) by nia. nia.
Qed.

Lemma past_the_end_next lo hi step :
  0 < step -> lo + step <= hi ->
  past_the_end (lo + step) hi step = past_the_end lo hi step.
Proof.
  intros Hs Hle. unfold past_the_end.
  replace (hi - (lo + step)) with ((hi - lo) + (-1) * step) by lia.
  rewrite Z.div_add by lia. lia.
Qed.

Lemma past_the_end_first lo hi step :
  0 < step -> lo <= hi -> hi < lo + step -> past_the_end lo hi step = lo + step.
Proof.
  intros Hs Hle Hlt. unfold past_the_end. rewrite Z.div_small by lia. lia.
Qed.

Lemma past_the_end_ge lo hi step :
  0 < step -> lo <= hi -> lo + step <= past_the_end lo hi step.
Proof.
  intros Hs Hle. unfold past_the_end.
  pose proof (Z.div_pos (hi - lo) step ltac:(lia) Hs). nia.
Qed.

(** The loop runs to its end when no [i += step] overflows. *)
Lemma mark_done step hi :
  0 < step ->
  forall fuel i result,
    0 <= i -> hi < Z.of_nat (length result) ->
    (Z.to_nat (hi - i + 1) <= fuel)%nat ->
    (i <= hi -> past_the_end i hi step <= maxInt) ->
    exists r',
      mark fuel i hi step result = Done r'
      /\ length r' = length result
      /\ forall j : nat,
           nth j r' false
           = nth j result false || bool_decide (in_progression i hi step (Z.of_nat j)).
Proof.
  intros Hs. induction fuel as [|k IH]; intros i result Hi Hlen Hf Hp.
  - cbn [mark]. destruct (Z.leb_spec i hi); [lia|].
    exists result. repeat split. intros j.
    rewrite bool_decide_eq_false_2, orb_false_r; [reflexivity|].
    unfold in_progression. lia.
  - cbn [mark]. destruct (Z.leb_spec i hi) as [Hle|Hgt].
    + rewrite store_Some by lia.
      pose proof (past_the_end_ge i hi step Hs Hle) as Hge. specialize (Hp Hle).
      rewrite wrap_id by (unfold minInt; lia).
      destruct (IH (i + step) (<[Z.to_nat i := true]> result)) as (r' & E & L & B).
      * lia.
      * by rewrite length_insert.
      * lia.
      * intros Hn. rewrite past_the_end_next by lia. exact Hp.
      * exists r'. split; [exact E|]. rewrite L, length_insert. split; [reflexivity|].
        intros j. rewrite B, nth_insert_true by lia.
        destruct (decide (j = Z.to_nat i)) as [->|Hne].
        -- cbn [orb]. rewrite (bool_decide_eq_true_2 (in_progression i hi step _)).
           ++ by rewrite orb_true_r.
           ++ unfold in_progression. rewrite Z2Nat.id by lia.
              rewrite Z.sub_diag, Z.mod_0_l by lia. lia.
        -- f_equal. apply bool_decide_ext. symmetry. apply in_progression_next; lia.
    + exists result. repeat split. intros j.
      rewrite bool_decide_eq_false_2, orb_false_r; [reflexivity|].
      unfold in_progression. lia.
Qed.

(** The loop panics when the [i += step] that would end it overflows:
    [i] turns negative and indexes the slice. *)
Lemma mark_panic step hi :
  0 < step <= maxInt -> hi <= maxInt ->
  forall fuel i result,
    0 <= i <= hi -> hi < Z.of_nat (length result) ->
    (Z.to_nat (hi - i + 2) <= fuel)%nat ->
    maxInt < past_the_end i hi step ->
    mark fuel i hi step result = Panicked.
Proof.
  intros Hs Hhi. induction fuel as [|k IH]; intros i result Hi Hlen Hf Hp; [lia|].
  cbn [mark]. destruct (Z.leb_spec i hi); [|lia].
  rewrite store_Some by lia.
  destruct (Z_le_gt_dec (i + step) maxInt) as [Hok|Hov].
  - rewrite wrap_id by (unfold minInt; lia).
    destruct (Z_le_gt_dec (i + step) hi) as [Hin|Hout].
    + apply IH; [lia | by rewrite length_insert | lia |].
      rewrite past_the_end_next by lia. exact Hp.
    + rewrite past_the_end_first in Hp by lia. lia.
  - rewrite wrap_over by (unfold maxInt in *; lia).
    destruct k as [|k']; [lia|]. cbn [mark].
    destruct (Z.leb_spec (i + step - 2 ^ 64) hi); [|unfold maxInt in *; lia].
    rewrite store_None; [reflexivity|]. left. unfold maxInt in *. lia.
Qed.

Lemma mark_length step hi fuel :
  forall i result r', mark fuel i hi step result = Done r' -> length r' = length result.
Proof.
  induction fuel as [|k IH]; intros i result r'; cbn [mark];
    destruct (Z.leb_spec i hi); try discriminate; try (by intros [= <-]).
  destruct (store result i) as [s'|] eqn:Es; [|discriminate].
  apply store_inv in Es as [_ ->]. intros Hm. apply IH in Hm. by rewrite length_insert in Hm.
Qed.

(** The loop ends, whatever its bounds: a turn that does not panic
    leaves [i] further up in a slice of bounded length. *)
Lemma mark_ends step hi :
  0 < step <= maxInt ->
  forall fuel i result,
    Z.of_nat (length result) <= maxInt ->
    (1 <= fuel)%nat ->
    (0 <= i -> (Z.to_nat (Z.of_nat (length result) - i) < fuel)%nat) ->
    mark fuel i hi step result <> Spinning.
Proof.
  intros Hs. induction fuel as [|k IH]; intros i result Hlen H1 Hf; [lia|].
  cbn [mark]. destruct (Z.leb_spec i hi); [|discriminate].
  destruct (store result i) as [s'|] eqn:Es; [|discriminate].
  apply store_inv in Es as [Hi ->].
  destruct (Z_le_gt_dec (i + step) maxInt) as [Hok|Hov].
  - rewrite wrap_id by (unfold minInt; lia).
    destruct k as [|k']; [lia|]. apply IH; rewrite ?length_insert; lia.
  - rewrite wrap_over by (unfold maxInt in *; lia).
    destruct k as [|k']; [lia|]. cbn [mark].
    destruct (Z.leb_spec (i + step - 2 ^ 64) hi); [|discriminate].
    rewrite store_None; [discriminate|]. left. unfold maxInt in *. lia.
Qed.

Lemma Contains_Cut (s sep : string) :
  Contains s sep = true -> exists before after, Cut s sep = Some (before, after).
Proof.
  induction s as [|c s IH]; cbn [Contains Cut].
  - destruct (String.prefix sep ""); [eauto | discriminate].
  - destruct (String.prefix sep (String c s)); [eauto|]. cbn [orb]. intros Hc.
    destruct (IH Hc) as (b & a & ->). eauto.
Qed.

Lemma partBounds_returns part min max :
  partBounds part min max <> Panicked /\ partBounds part min max <> Spinning.
Proof.
  unfold partBounds. destruct (decide (part = "*")); [done|].
  destruct (Contains part "-") eqn:Hc.
  - destruct (Contains_Cut _ _ Hc) as (b & a & E). unfold SplitN2. rewrite E.
    destruct (Atoi b); [|done]. by destruct (Atoi a).
  - by destruct (Atoi part).
Qed.

Lemma parsePart_reads part min max result :
  parsePart part min max result <> Spinning ->
  (forall err, parsePart part min max result <> Failed err) ->
  exists lo hi step,
    reads_as part min max lo hi step
    /\ parsePart part min max result = mark (S (length result)) lo hi step result.
Proof.
  unfold parsePart, reads_as. intros Hs Hf.
  destruct (partStep part) as [[step rest]|err] eqn:Est; [|by destruct (Hf err)].
  destruct (partBounds_returns rest min max) as [Hp Hq].
  destruct (partBounds rest min max) as [[lo hi]|err| |] eqn:Eb; cbn [obind] in *;
    [|by destruct (Hf err)|done|done].
  destruct (Z.ltb_spec lo min); cbn [orb] in *; [by edestruct Hf|].
  destruct (Z.ltb_spec max hi); cbn [orb] in *; [by edestruct Hf|].
  destruct (Z.ltb_spec hi lo); cbn [orb] in *; [by edestruct Hf|].
  exists lo, hi, step. split; [|reflexivity]. exists rest. auto.
Qed.

Lemma parsePart_of_reads part min max result lo hi step :
  reads_as part min max lo hi step ->
  parsePart part min max result = mark (S (length result)) lo hi step result.
Proof.
  intros (rest & Est & Eb & H1 & H2 & H3). unfold parsePart. rewrite Est, Eb. cbn [obind].
  destruct (Z.ltb_spec lo min); [lia|]. destruct (Z.ltb_spec max hi); [lia|].
  destruct (Z.ltb_spec hi lo); [lia|]. reflexivity.
Qed.

Lemma reads_as_unique part min max lo hi step lo' hi' step' :
  reads_as part min max lo hi step -> reads_as part min max lo' hi' step' ->
  lo = lo' /\ hi = hi' /\ step = step'.
Proof.
  intros (rest & Est & Eb & _) (rest' & Est' & Eb' & _).
  rewrite Est in Est'. injection Est' as <- <-. rewrite Eb in Eb'. by injection Eb' as <- <-.
Qed.

Lemma reads_as_step part min max lo hi step :
  reads_as part min max lo hi step -> 0 < step <= maxInt.
Proof. intros (rest & Est & _). by apply partStep_range in Est. Qed.

(** X22.  One part of a cron field, written to a slice that spans 0 to
    [max].  When the part reads as the range [lo] to [hi] taken every
    [step], [parsePart] sets the flags at [lo], [lo + step], ... up to
    [hi] and leaves the others as they were, provided the first value
    past [hi] still fits an [int]; when it does not, the counter wraps
    to a negative index and the call panics. *)
Theorem cron_part_marks_a_progression
        (part : string) (min max : Z) (result : list bool) (lo hi step : Z) :
  0 <= min -> max <= maxInt -> Z.of_nat (length result) = max + 1 ->
  reads_as part min max lo hi step ->
  (past_the_end lo hi step <= maxInt ->
   exists result',
     parsePart part min max result = Done result'
     /\ length result' = length result
     /\ forall j : nat,
          nth j result' false
          = nth j result false || bool_decide (in_progression lo hi step (Z.of_nat j)))
  /\ (maxInt < past_the_end lo hi step ->
      parsePart part min max result = Panicked).
Proof.
  intros Hmin Hmax Hlen Hr. rewrite (parsePart_of_reads _ _ _ _ _ _ _ Hr).
  pose proof (reads_as_step _ _ _ _ _ _ Hr) as Hs.
  destruct Hr as (rest & _ & _ & H1 & H2 & H3). split; intros Hp.
  - apply mark_done; lia.
  - apply mark_panic; lia.
Qed.

Lemma parsePart_ends part min max result :
  Z.of_nat (length result) <= maxInt -> parsePart part min max result <> Spinning.
Proof.
  intros Hlen. unfold parsePart.
  destruct (partStep part) as [[step rest]|err] eqn:Est; [|done].
  apply partStep_range in Est.
  destruct (partBounds_returns rest min max) as [_ Hq].
  destruct (partBounds rest min max) as [[lo hi]|err| |]; cbn [obind]; try done.
  destruct ((lo <? min) || (max <? hi) || (hi <? lo)); [done|].
  apply mark_ends; [exact Est | exact Hlen | lia | lia].
Qed.

Lemma parsePart_length part min max result r' :
  parsePart part min max result = Done r' -> length r' = length result.
Proof.
  unfold parsePart. destruct (partStep part) as [[step rest]|err]; [|done].
  destruct (partBounds rest min max) as [[lo hi]|err| |]; cbn [obind]; try done.
  destruct ((lo <? min) || (max <? hi) || (hi <? lo)); [done|]. apply mark_length.
Qed.

Lemma parseParts_ends parts min max :
  forall result,
    Z.of_nat (length result) <= maxInt -> parseParts parts min max result <> Spinning.
Proof.
  induction parts as [|part parts IH]; intros result Hlen; cbn [parseParts]; [done|].
  pose proof (parsePart_ends part min max result Hlen) as He.
  destruct (parsePart part min max result) as [r'|err| |] eqn:Ep; cbn [obind]; try done.
  apply IH. by rewrite (parsePart_length _ _ _ _ _ Ep).
Qed.

Lemma parsePart_Done part min max result r' :
  0 <= min -> max <= maxInt -> Z.of_nat (length result) = max + 1 ->
  parsePart part min max result = Done r' ->
  exists lo hi step,
    reads_as part min max lo hi step
    /\ past_the_end lo hi step <= maxInt
    /\ length r' = length result
    /\ forall j : nat,
         nth j r' false
         = nth j result false || bool_decide (in_progression lo hi step (Z.of_nat j)).
Proof.
  intros Hmin Hmax Hlen Ep.
  destruct (parsePart_reads part min max result) as (lo & hi & step & Hr & Em);
    [by rewrite Ep | by rewrite Ep |].
  exists lo, hi, step. split; [exact Hr|].
  pose proof (reads_as_step _ _ _ _ _ _ Hr) as Hs.
  destruct Hr as (rest & _ & _ & H1 & H2 & H3). rewrite Ep in Em.
  destruct (Z_le_gt_dec (past_the_end lo hi step) maxInt) as [Hok|Hov].
  - split; [exact Hok|].
    destruct (mark_done step hi ltac:(lia) (S (length result)) lo result) as (r'' & E & L & B);
      try lia.
    rewrite E in Em. injection Em as ->. auto.
  - rewrite (mark_panic step hi) in Em by lia. discriminate.
Qed.

Lemma parsePart_Panicked part min max result :
  0 <= min -> max <= maxInt -> Z.of_nat (length result) = max + 1 ->
  parsePart part min max result = Panicked ->
  exists lo hi step,
    reads_as part min max lo hi step /\ maxInt < past_the_end lo hi step.
Proof.
  intros Hmin Hmax Hlen Ep.
  destruct (parsePart_reads part min max result) as (lo & hi & step & Hr & Em);
    [by rewrite Ep | by rewrite Ep |].
  exists lo, hi, step. split; [exact Hr|].
  pose proof (reads_as_step _ _ _ _ _ _ Hr) as Hs.
  destruct Hr as (rest & _ & _ & H1 & H2 & H3). rewrite Ep in Em.
  destruct (Z_le_gt_dec (past_the_end lo hi step) maxInt) as [Hok|Hov]; [|lia].
  destruct (mark_done step hi ltac:(lia) (S (length result)) lo result) as (r'' & E & _);
    try lia.
  rewrite E in Em. discriminate.
Qed.

Lemma parseParts_Done parts min max :
  0 <= min -> max <= maxInt ->
  forall result r',
    Z.of_nat (length result) = max + 1 ->
    parseParts parts min max result = Done r' ->
    length r' = length result
    /\ forall j : nat,
         nth j r' false = true
         <-> nth j result false = true
             \/ exists part lo hi step,
                  part ∈ parts /\ reads_as part min max lo hi step
                  /\ in_progression lo hi step (Z.of_nat j).
Proof.
  intros Hmin Hmax. induction parts as [|part parts IH]; intros result r' Hlen; cbn [parseParts].
  - intros [= <-]. split; [reflexivity|]. intros j. split; [auto|].
    intros [Hj|(part & lo & hi & step & Hin & _)]; [exact Hj|]. by apply elem_of_nil in Hin.
  - destruct (parsePart part min max result) as [r1|err| |] eqn:Ep; cbn [obind]; try done.
    destruct (parsePart_Done _ _ _ _ _ Hmin Hmax Hlen Ep) as (lo & hi & step & Hr & _ & L & B).
    intros Hrest. apply IH in Hrest as [L' B']; [|by rewrite L].
    split; [by rewrite L', L|]. intros j. rewrite B', B, orb_true_iff, bool_decide_eq_true.
    split.
    + intros [[Hj|Hj]|(p & lo' & hi' & step' & Hin & Hr' & Hj)]; [by left| |].
      * right. exists part, lo, hi, step. split; [apply elem_of_cons; by left | done].
      * right. exists p, lo', hi', step'. split; [apply elem_of_cons; by right | done].
    + intros [Hj|(p & lo' & hi' & step' & Hin & Hr' & Hj)]; [by left; left|].
      apply elem_of_cons in Hin as [->|Hin].
      * destruct (reads_as_unique _ _ _ _ _ _ _ _ _ Hr Hr') as (-> & -> & ->).
        left. by right.
      * right. by exists p, lo', hi', step'.
Qed.

Lemma parseParts_Panicked parts min max :
  0 <= min -> max <= maxInt ->
  forall result,
    Z.of_nat (length result) = max + 1 ->
    parseParts parts min max result = Panicked ->
    exists part lo hi step,
      part ∈ parts /\ reads_as part min max lo hi step
      /\ maxInt < past_the_end lo hi step.
Proof.
  intros Hmin Hmax. induction parts as [|part parts IH]; intros result Hlen; cbn [parseParts];
    [done|].
  destruct (parsePart part min max result) as [r1|err| |] eqn:Ep; cbn [obind]; try done.
  - intros Hrest. apply IH in Hrest as (p & lo & hi & step & Hin & Hr & Hp).
    + exists p, lo, hi, step. split; [apply elem_of_cons; by right | done].
    + by rewrite (parsePart_length _ _ _ _ _ Ep).
  - intros _. destruct (parsePart_Panicked _ _ _ _ Hmin Hmax Hlen Ep) as (lo & hi & step & Hr & Hp).
    exists part, lo, hi, step. split; [apply elem_of_cons; by left | done].
Qed.

Lemma nth_replicate_false (n j : nat) : nth j (replicate n false) false = false.
Proof.
  rewrite nth_lookup. destruct (replicate n false !! j) as [b|] eqn:E; [|reflexivity].
  apply lookup_replicate in E as [-> _]. reflexivity.
Qed.

Lemma parseField_unfold field min max :
  0 <= min <= max -> max < maxInt ->
  parseField field min max
  = parseParts (Split field ",") min max (replicate (Z.to_nat (max + 1)) false).
Proof.
  intros Hmin Hmax. unfold parseField. rewrite wrap_id by (unfold minInt; lia).
  destruct (Z.ltb_spec (max + 1) 0); [lia | reflexivity].
Qed.

Lemma parseField_Done field min max bits :
  0 <= min <= max -> max < maxInt ->
  parseField field min max = Done bits ->
  Z.of_nat (length bits) = max + 1
  /\ forall j : nat, nth j bits false = true <-> names field min max (Z.of_nat j).
Proof.
  intros Hmin Hmax. rewrite parseField_unfold by assumption. intros Ep.
  apply parseParts_Done in Ep as [L B]; [|lia|lia|rewrite length_replicate; lia].
  rewrite L, length_replicate. split; [lia|]. intros j. rewrite B, nth_replicate_false.
  unfold names. split; [intros [|]; [discriminate|done] | by right].
Qed.

Lemma parseField_ends field min max : parseField field min max <> Spinning.
Proof.
  unfold parseField. destruct (wrap (max + 1) <? 0); [done|].
  apply parseParts_ends. rewrite length_replicate.
  pose proof (wrap_range (max + 1)). unfold minInt, maxInt in *. lia.
Qed.

Lemma parseField_below field min max bits (j : nat) :
  0 <= min <= max -> max < maxInt ->
  parseField field min max = Done bits ->
  Z.of_nat j < min -> nth j bits false = false.
Proof.
  intros Hmin Hmax Ep Hj. destruct (parseField_Done _ _ _ _ Hmin Hmax Ep) as [_ B].
  destruct (nth j bits false) eqn:E; [|reflexivity].
  apply B in E as (part & lo & hi & step & _ & (rest & _ & _ & H1 & _) & [H2 _]). lia.
Qed.

(** X23.  A cron field.  [parseField] always ends.  For a field allowed
    [min] to [max], when it returns the flags there is one for each
    value from 0 to [max], and the flag of a value is set exactly when
    one of the comma-separated parts of the field reads as a progression
    that holds the value; so no flag below [min] is ever set.  When it
    panics, some part of the field reads as a valid range whose step
    carries the counter past the largest [int]. *)
Theorem cron_field_is_the_union_of_its_parts (field : string) (min max : Z) :
  parseField field min max <> Spinning
  /\ (0 <= min <= max -> max < maxInt ->
      (forall bits,
          parseField field min max = Done bits ->
          Z.of_nat (length bits) = max + 1
          /\ (forall j : nat, nth j bits false = true <-> names field min max (Z.of_nat j))
          /\ (forall j : nat, Z.of_nat j < min -> nth j bits false = false))
      /\ (parseField field min max = Panicked ->
          exists part lo hi step,
            part ∈ Split field ","
            /\ reads_as part min max lo hi step
            /\ maxInt < past_the_end lo hi step)).
Proof.
  split; [apply parseField_ends|].
  intros Hmin Hmax. split.
  - intros bits Ep. destruct (parseField_Done _ _ _ _ Hmin Hmax Ep) as [L B].
    split; [exact L|]. split; [exact B|]. intros j Hj.
    by apply (parseField_below field min max).
  - rewrite parseField_unfold by assumption. intros Ep.
    apply parseParts_Panicked in Ep; [exact Ep|lia|lia|rewrite length_replicate; lia].
Qed.

Lemma normalize_eight (dow : list bool) :
  length dow = 8%nat ->
  normalize 8 0 dow (replicate 7 false)
  = Done (<[0%nat := nth 0 dow false || nth 7 dow false]> (take 7 dow)).
Proof.
  destruct dow as [|d0 [|d1 [|d2 [|d3 [|d4 [|d5 [|d6 [|d7 [|d8 l]]]]]]]]]; try discriminate.
  intros _. destruct d0, d1, d2, d3, d4, d5, d6, d7; reflexivity.
Qed.

Lemma ParseCron_Done expr c :
  ParseCron expr = Done c ->
  exists f0 f1 f2 f3 f4 dow,
    Fields expr = [f0; f1; f2; f3; f4]
    /\ parseField f0 0 59 = Done (Minute c)
    /\ parseField f1 0 23 = Done (Hour c)
    /\ parseField f2 1 31 = Done (DayOfMonth c)
    /\ parseField f3 1 12 = Done (Month c)
    /\ parseField f4 0 7 = Done dow
    /\ DayOfWeek c = <[0%nat := nth 0 dow false || nth 7 dow false]> (take 7 dow).
Proof.
  unfold ParseCron.
  destruct (Fields expr) as [|f0 [|f1 [|f2 [|f3 [|f4 [|f5 l]]]]]]; try discriminate.
  destruct (parseField f0 0 59) as [minute|?| |] eqn:E0; cbn [wrapped obind]; try discriminate.
  destruct (parseField f1 0 23) as [hour|?| |] eqn:E1; cbn [wrapped obind]; try discriminate.
  destruct (parseField f2 1 31) as [dom|?| |] eqn:E2; cbn [wrapped obind]; try discriminate.
  destruct (parseField f3 1 12) as [month|?| |] eqn:E3; cbn [wrapped obind]; try discriminate.
  destruct (parseField f4 0 7) as [dow|?| |] eqn:E4; cbn [wrapped obind]; try discriminate.
  destruct (parseField_Done f4 0 7 dow) as [L _]; [lia|unfold maxInt; lia|exact E4|].
  rewrite normalize_eight by lia. cbn [obind]. intros [= <-]. cbn.
  exists f0, f1, f2, f3, f4, dow. auto 10.
Qed.

(** X24.  A cron expression.  [ParseCron] always ends; an expression
    that does not hold exactly five fields is refused with the count of
    its fields.  An expression that parses gives 60, 24, 32, 13 and 7
    flags; those at day 0 and at month 0 are never set; the flags of the
    days of the week are those of the fifth field, where 7 is allowed,
    with day 7 folded onto day 0. *)
Theorem cron_sunday_is_zero_or_seven (expr : string) :
  ParseCron expr <> Spinning
  /\ (length (Fields expr) <> 5%nat ->
      ParseCron expr
      = Failed ("cron: expected 5 fields, got "
                +:+ pretty (Z.of_nat (length (Fields expr)))))
  /\ (forall c,
        ParseCron expr = Done c ->
        length (Minute c) = 60%nat /\ length (Hour c) = 24%nat
        /\ length (DayOfMonth c) = 32%nat /\ length (Month c) = 13%nat
        /\ length (DayOfWeek c) = 7%nat
        /\ nth 0 (DayOfMonth c) false = false
        /\ nth 0 (Month c) false = false
        /\ exists dow,
             parseField (Fields expr !!! 4%nat) 0 7 = Done dow
             /\ (forall j : nat,
                   nth j (DayOfWeek c) false
                   = if decide (j = 0%nat) then nth 0 dow false || nth 7 dow false
                     else if decide (j < 7)%nat then nth j dow false else false)).
Proof.
  split; [|split].
  - unfold ParseCron.
    destruct (Fields expr) as [|f0 [|f1 [|f2 [|f3 [|f4 [|f5 l]]]]]]; try discriminate.
    pose proof (parseField_ends f0 0 59) as H0. pose proof (parseField_ends f1 0 23) as H1.
    pose proof (parseField_ends f2 1 31) as H2. pose proof (parseField_ends f3 1 12) as H3.
    pose proof (parseField_ends f4 0 7) as H4.
    destruct (parseField f0 0 59) as [minute|?| |]; cbn [wrapped obind]; try done.
    destruct (parseField f1 0 23) as [hour|?| |]; cbn [wrapped obind]; try done.
    destruct (parseField f2 1 31) as [dom|?| |]; cbn [wrapped obind]; try done.
    destruct (parseField f3 1 12) as [month|?| |]; cbn [wrapped obind]; try done.
    destruct (parseField f4 0 7) as [dow|?| |] eqn:E4; cbn [wrapped obind]; try done.
    destruct (parseField_Done f4 0 7 dow) as [L _]; [lia|unfold maxInt; lia|exact E4|].
    by rewrite normalize_eight by lia.
  - intros Hn. unfold ParseCron.
    destruct (Fields expr) as [|f0 [|f1 [|f2 [|f3 [|f4 [|f5 l]]]]]]; try reflexivity.
    by destruct Hn.
  - intros c Ep.
    destruct (ParseCron_Done _ _ Ep) as (f0 & f1 & f2 & f3 & f4 & dow & Ef & E0 & E1 & E2 & E3 & E4 & Ew).
    destruct (parseField_Done f0 0 59 _ ltac:(lia) ltac:(unfold maxInt; lia) E0) as [L0 _].
    destruct (parseField_Done f1 0 23 _ ltac:(lia) ltac:(unfold maxInt; lia) E1) as [L1 _].
    destruct (parseField_Done f2 1 31 _ ltac:(lia) ltac:(unfold maxInt; lia) E2) as [L2 _].
    destruct (parseField_Done f3 1 12 _ ltac:(lia) ltac:(unfold maxInt; lia) E3) as [L3 _].
    destruct (parseField_Done f4 0 7 _ ltac:(lia) ltac:(unfold maxInt; lia) E4) as [L4 _].
    repeat (split; [lia|]).
    split; [rewrite Ew, length_insert, length_take; lia|].
    split; [apply (parseField_below f2 1 31); [lia|unfold maxInt; lia|exact E2|lia]|].
    split; [apply (parseField_below f3 1 12); [lia|unfold maxInt; lia|exact E3|lia]|].
    exists dow. rewrite Ef. split; [exact E4|]. intros j. rewrite Ew.
    rewrite nth_insert_bool by (rewrite length_take; lia).
    destruct (decide (j = 0%nat)) as [->|Hj]; [reflexivity|].
    rewrite !nth_lookup. destruct (decide (j < 7)%nat) as [Hlt|Hge].
    + by rewrite lookup_take_lt.
    + by rewrite lookup_take_ge by lia.
Qed.

Lemma misses_false bits v :
  (v < length bits)%nat -> misses bits v = negb (nth v bits false).
Proof. intros Hv. unfold misses. by rewrite (proj2 (Nat.ltb_lt _ _) Hv). Qed.

(** X25.  [Matches] on a parsed expression and a time whose five values
    are in their calendar ranges.  The time matches exactly when each
    field names its value: the first the minute, the second the hour,
    the third the day of the month, the fourth the month, and the fifth
    the day of the week, where a Sunday is named by 0 and by 7 alike.
    The five tests are joined by "and", the days of the month and of the
    week included. *)
Theorem cron_matches_what_the_fields_name
        (expr : string) (c : CronExpr) (f0 f1 f2 f3 f4 : string) (t : Time) :
  ParseCron expr = Done c ->
  Fields expr = [f0; f1; f2; f3; f4] ->
  (t_Minute t < 60)%nat -> (t_Hour t < 24)%nat -> (t_Day t < 32)%nat ->
  (t_Month t < 13)%nat -> (t_Weekday t < 7)%nat ->
  Matches c t = true
  <-> names f0 0 59 (Z.of_nat (t_Minute t))
      /\ names f1 0 23 (Z.of_nat (t_Hour t))
      /\ names f2 1 31 (Z.of_nat (t_Day t))
      /\ names f3 1 12 (Z.of_nat (t_Month t))
      /\ (names f4 0 7 (Z.of_nat (t_Weekday t))
          \/ t_Weekday t = 0%nat /\ names f4 0 7 7).
Proof.
  intros Ep Ef Hmin Hhr Hday Hmon Hwd.
  destruct (ParseCron_Done _ _ Ep) as (g0 & g1 & g2 & g3 & g4 & dow & Eg & E0 & E1 & E2 & E3 & E4 & Ew).
  rewrite Ef in Eg. injection Eg as <- <- <- <- <-.
  destruct (parseField_Done f0 0 59 _ ltac:(lia) ltac:(unfold maxInt; lia) E0) as [L0 B0].
  destruct (parseField_Done f1 0 23 _ ltac:(lia) ltac:(unfold maxInt; lia) E1) as [L1 B1].
  destruct (parseField_Done f2 1 31 _ ltac:(lia) ltac:(unfold maxInt; lia) E2) as [L2 B2].
  destruct (parseField_Done f3 1 12 _ ltac:(lia) ltac:(unfold maxInt; lia) E3) as [L3 B3].
  destruct (parseField_Done f4 0 7 _ ltac:(lia) ltac:(unfold maxInt; lia) E4) as [L4 B4].
  rewrite <- B0, <- B1, <- B2, <- B3, <- (B4 (t_Weekday t)), <- (B4 7%nat).
  assert (Hw : nth (t_Weekday t) (DayOfWeek c) false = true
               <-> nth (t_Weekday t) dow false = true
                   \/ t_Weekday t = 0%nat /\ nth 7 dow false = true).
  { rewrite Ew, nth_insert_bool by (rewrite length_take; lia).
    destruct (decide (t_Weekday t = 0%nat)) as [->|Hj].
    - rewrite orb_true_iff. tauto.
    - rewrite !nth_lookup, lookup_take_lt by lia. tauto. }
  rewrite <- Hw. unfold Matches.
  rewrite !misses_false by (rewrite ?Ew, ?length_insert, ?length_take; lia).
  destruct (nth (t_Minute t) (Minute c) false), (nth (t_Hour t) (Hour c) false),
    (nth (t_Day t) (DayOfMonth c) false), (nth (t_Month t) (Month c) false),
    (nth (t_Weekday t) (DayOfWeek c) false); cbn; intuition congruence.
Qed.

End cron_facts.

(* ===================================================================== *)
(** ** The bootstrap files                                                *)
(* ===================================================================== *)

Section bootstrap_facts.
Import ctxpkg bootstrap.
Variable ReadFile : string -> option string.
Local Open Scope Z_scope.

Lemma length_truncated : String.length truncated = 17%nat.
Proof. reflexivity. Qed.

Lemma capped_Done content cap :
  0 <= cap ->
  exists content',
    capped content cap = Done content'
    /\ Z.of_nat (String.length content') <= cap + 17.
Proof.
  intros Hcap. unfold capped, cut.
  destruct (Z.ltb_spec cap (Z.of_nat (String.length content))) as [Hlt|Hge].
  - destruct (Z.ltb_spec cap 0); [lia|].
    destruct (Z.ltb_spec (Z.of_nat (String.length content)) cap); [lia|]. cbn [orb].
    eexists. split; [reflexivity|].
    rewrite length_append, substring_0_length, length_truncated by lia. lia.
  - exists content. split; [reflexivity | lia].
Qed.

Lemma length_concat_blank (p : string) (parts : list string) :
  (String.length (String.concat blank_line (p :: parts)) + 2
   = sum_list ((fun q => String.length q + 2) <$> (p :: parts)))%nat.
Proof.
  revert p. induction parts as [|q parts IH]; intros p.
  - cbn. lia.
  - change (String.concat blank_line (p :: q :: parts))
      with (p +:+ blank_line +:+ String.concat blank_line (q :: parts)).
    rewrite !length_append, fmap_cons. cbn [sum_list sum_list_with].
    rewrite <- IH. cbn [blank_line String.length]. unfold id. lia.
Qed.

Lemma loadFiles_bound (cfg : Config) (names : list string) :
  0 <= BootstrapMaxChars cfg ->
  forall parts total,
    exists parts',
      loadFiles ReadFile cfg names parts total = Done parts'
      /\ Z.of_nat (sum_list ((fun q => String.length q + 2)%nat <$> parts'))
         <= Z.of_nat (sum_list ((fun q => String.length q + 2)%nat <$> parts))
            + Z.of_nat (sum_list ((fun f => String.length f + 7)%nat <$> names))
            + (Z.max total (BootstrapTotalMaxChars cfg + 17) - total).
Proof.
  intros Hmax. induction names as [|f rest IH]; intros parts total; cbn [loadFiles].
  - exists parts. split; [reflexivity|]. cbn. lia.
  - destruct (Z.leb_spec (BootstrapTotalMaxChars cfg) total) as [Hbreak|Hgo].
    + exists parts. split; [reflexivity|]. lia.
    + destruct (ReadFile f) as [content|].
      * destruct (capped_Done content _ Hmax) as (c1 & -> & _). cbn [obind].
        destruct (capped_Done c1 (BootstrapTotalMaxChars cfg - total)) as (c2 & -> & L2); [lia|].
        cbn [obind].
        destruct (IH (parts ++ ["## " +:+ f +:+ blank_line +:+ c2])
                     (total + Z.of_nat (String.length c2))) as (parts' & E & B).
        exists parts'. split; [exact E|].
        rewrite fmap_app, sum_list_with_app in B. cbn [fmap list_fmap sum_list sum_list_with] in B.
        rewrite !length_append in B. cbn [blank_line String.length] in B.
        rewrite fmap_cons. cbn [sum_list sum_list_with]. unfold id in *. lia.
      * destruct (IH parts total) as (parts' & E & B).
        exists parts'. split; [exact E|]. rewrite fmap_cons. cbn [sum_list sum_list_with].
        unfold id in *. lia.
Qed.

Lemma loadFiles_no_budget (cfg : Config) (names : list string) (parts : list string) total :
  BootstrapTotalMaxChars cfg <= total ->
  loadFiles ReadFile cfg names parts total = Done parts.
Proof.
  intros Hb. destruct names as [|f rest]; cbn [loadFiles]; [reflexivity|].
  destruct (Z.leb_spec (BootstrapTotalMaxChars cfg) total); [reflexivity | lia].
Qed.

(** X26.  The bootstrap section of the system prompt, for a per-file cap
    that is not negative.  [loadBootstrapFiles] returns; with a total
    budget of zero or less it returns the empty text; and its result is
    never more than 113 bytes longer than the total budget: the headings
    of the five files, and one mark of truncation that the budget does
    not count. *)
Theorem bootstrap_overshoots_by_a_constant (b : Builder) :
  0 <= BootstrapMaxChars (cfg b) ->
  exists text,
    loadBootstrapFiles ReadFile b = Done text
    /\ (BootstrapTotalMaxChars (cfg b) <= 0 -> text = "")
    /\ Z.of_nat (String.length text) <= Z.max 0 (BootstrapTotalMaxChars (cfg b) + 113).
Proof.
  intros Hmax. unfold loadBootstrapFiles.
  destruct (Z_le_gt_dec (BootstrapTotalMaxChars (cfg b)) 0) as [Hno|Hyes].
  - rewrite loadFiles_no_budget by exact Hno. cbn [obind]. exists "". cbn. split; [reflexivity|].
    split; [reflexivity | lia].
  - destruct (loadFiles_bound (cfg b) files Hmax [] 0) as (parts' & -> & B). cbn [obind].
    destruct parts' as [|p parts']; [exists ""; cbn; split; [reflexivity | split; [lia | lia]]|].
    eexists. split; [reflexivity|]. split; [lia|].
    rewrite !length_append. pose proof (length_concat_blank p parts') as L.
    cbn [fmap list_fmap files sum_list sum_list_with String.length blank_line] in *.
    unfold id in *. lia.
Qed.

Lemma loadFiles_panics (cfg : Config) (names : list string) :
  BootstrapMaxChars cfg < 0 ->
  forall parts total,
    total < BootstrapTotalMaxChars cfg ->
    (exists f, f ∈ names /\ ReadFile f <> None) ->
    loadFiles ReadFile cfg names parts total = Panicked.
Proof.
  intros Hneg. induction names as [|f rest IH]; intros parts total Hgo (g & Hin & Hg).
  - by apply elem_of_nil in Hin.
  - cbn [loadFiles]. destruct (Z.leb_spec (BootstrapTotalMaxChars cfg) total); [lia|].
    destruct (ReadFile f) as [content|] eqn:Ef.
    + unfold capped at 1, cut.
      destruct (Z.ltb_spec (BootstrapMaxChars cfg) (Z.of_nat (String.length content))); [|lia].
      destruct (Z.ltb_spec (BootstrapMaxChars cfg) 0); [|lia]. reflexivity.
    + apply IH; [exact Hgo|]. exists g. split; [|exact Hg].
      apply elem_of_cons in Hin as [->|Hin]; [congruence | exact Hin].
Qed.

(** X27.  With a negative per-file cap and a positive total budget,
    [loadBootstrapFiles] panics as soon as one of the five files can be
    read: every content is longer than the cap, and the slice that cuts
    it has a negative bound. *)
Theorem negative_file_cap_panics (b : Builder) (f : string) :
  BootstrapMaxChars (cfg b) < 0 ->
  0 < BootstrapTotalMaxChars (cfg b) ->
  f ∈ files -> ReadFile f <> None ->
  loadBootstrapFiles ReadFile b = Panicked.
Proof.
  intros Hneg Hpos Hin Hf. unfold loadBootstrapFiles.
  rewrite loadFiles_panics; [reflexivity | exact Hneg | exact Hpos | by exists f].
Qed.

End bootstrap_facts.

(* ===================================================================== *)
(** ** The properties at work on the test bed                             *)
(* ===================================================================== *)

(** The embedding reproduces what the repository's tests expect. *)
Module tests.
Import testbed scenarios.

Example TestRun_ToolCallThenResponse :
  (loop.Run echo_loop "echo something" (fresh echo_mock 0)).1
  = inl "Done! The echo said hello."
  /\ length (loop.chat_log (loop.Run echo_loop "echo something" (fresh echo_mock 0)).2) = 2
  /\ loop.world (loop.Run echo_loop "echo something" (fresh echo_mock 0)).2
     = [["echo"; "run"; "hello"]].
Proof. vm_compute. repeat split. Qed.

Example TestRun_EmptyResponseFallback :
  (loop.Run (makeLoop (mockProvider [answer "" []] []) echo_registry 20) "Hi"
            (fresh (mockProvider [answer "" []] []) 0)).1
  = inl "I've completed processing but have no response to give.".
Proof. vm_compute. reflexivity. Qed.

Example TestRun_SessionPersistence :
  history (loop.Run hello_loop "Hello" (fresh hello_mock 0)).2 "main"
  = [loop.userMsg "Hello";
     {| Role := "assistant"; Content := "Hello!"; ToolCalls := []; ToolCallID := "" |}]
  /\ loop.save_log (loop.Run hello_loop "Hello" (fresh hello_mock 0)).2 = ["main"].
Proof. vm_compute. split; reflexivity. Qed.

Example TestExecuteUnknownTool :
  (toolreg.Execute echo_registry (call "1" "nope.cmd" "{}") idle).1
  = inr "unknown tool: nope".
Proof. vm_compute. reflexivity. Qed.

Example TestExecuteInvalidName :
  (toolreg.Execute echo_registry (call "1" "nodot" "{}") idle).1
  = inr "invalid tool name: nodot (expected tool.command)".
Proof. vm_compute. reflexivity. Qed.

Example Fields_splits_on_unicode_space :
  gostrings.Fields ("  a" +:+ String "194"%char (String "160"%char "b{c}  d"))
  = ["a"; "b{c}"; "d"].
Proof. vm_compute. reflexivity. Qed.

Example ReplaceAll_is_leftmost_and_disjoint :
  gostrings.ReplaceAll "aaa {x}{x} {y}" "{x}" "aa" = "aaa aaaa {y}"
  /\ gostrings.ReplaceAll "aaa" "aa" "b" = "ba".
Proof. vm_compute. split; reflexivity. Qed.

End tests.

Module witnesses.
Import testbed scenarios.

Lemma executing_phase_answers_each_call_witness :
  exists new st4,
    loop.toolLoop echo_loop "main" "echo something" [] 20 0 [loop.userMsg "echo something"]
                  "" (fresh echo_mock 0)
    = loop.toolLoop echo_loop "main" "echo something" [] 19 1
                    ([loop.userMsg "echo something"]
                     ++ [loop.assistantMsg (answer "" [echo_call])] ++ new)
                    "" st4
    /\ length new = 1
    /\ exists m, new !! 0 = Some m /\ Role m = "tool" /\ ToolCallID m = "tc1".
Proof.
  destruct (executing_phase_answers_each_call (p := echo_mock) echo_loop "main"
              "echo something" [] 19 0 [loop.userMsg "echo something"] ""
              (fresh echo_mock 0) (answer "" [echo_call]) 1 1)
    as (new & st4 & H1 & H2 & H3 & H4 & H5).
  - reflexivity.
  - reflexivity.
  - lia.
  - exists new, st4. split; [exact H1|]. split; [exact H2|].
    apply (H3 0 echo_call). reflexivity.
Defined.

Lemma no_tool_call_ends_after_one_call_witness :
  length (new_calls (fresh hello_mock 0)
                    (loop.Run hello_loop "Hi" (fresh hello_mock 0)).2) = 1
  /\ (loop.Run hello_loop "Hi" (fresh hello_mock 0)).1 = inl "Hello!".
Proof.
  destruct (no_tool_call_ends_after_one_call (p := hello_mock) hello_loop "Hi"
              (fresh hello_mock 0)
              (loop.Run hello_loop "Hi" (fresh hello_mock 0)).1
              (loop.Run hello_loop "Hi" (fresh hello_mock 0)).2
              (first_request "Hi") (answer "Hello!" [])) as [H1 H2].
  - apply surjective_pairing.
  - vm_compute. reflexivity.
  - reflexivity.
  - split; [exact H1 | exact H2].
Defined.

Lemma three_iterations_three_calls_witness :
  length (new_calls (fresh busy_mock 0)
                    (loop.Run busy_loop "loop forever" (fresh busy_mock 0)).2) = 3
  /\ (loop.Run busy_loop "loop forever" (fresh busy_mock 0)).1 = inl "iter 2".
Proof.
  destruct (three_iterations_three_calls (p := busy_mock) busy_loop "loop forever"
              (fresh busy_mock 0)
              (loop.Run busy_loop "loop forever" (fresh busy_mock 0)).1
              (loop.Run busy_loop "loop forever" (fresh busy_mock 0)).2)
    as (H1 & rq & rs & H2 & H3 & H4).
  - reflexivity.
  - apply surjective_pairing.
  - vm_compute. repeat constructor; eexists; (split; [reflexivity|discriminate]).
  - split; [exact H1|]. vm_compute. reflexivity.
Defined.


Lemma provider_error_keeps_session_witness :
  (loop.Run down_loop "Hi" (fresh down_mock 0)).1
  = inr "LLM call failed (iteration 2): API down"
  /\ history (loop.Run down_loop "Hi" (fresh down_mock 0)).2 "main"
     = [loop.userMsg "Hi"; loop.assistantMsg (answer "" [echo_call]);
        loop.toolMsg echo_call ("run hello" +:+ String "010"%char "")]
  /\ loop.save_log (loop.Run down_loop "Hi" (fresh down_mock 0)).2 = [].
Proof.
  pose (failing :=
          match last (new_calls (fresh down_mock 0)
                                (loop.Run down_loop "Hi" (fresh down_mock 0)).2) with
          | Some (rq, _) => rq
          | None => first_request "Hi"
          end).
  destruct (provider_error_keeps_session (p := down_mock) down_loop "Hi"
              (fresh down_mock 0) failing "API down")
    as (H1 & H2 & H3 & H4 & H5).
  - vm_compute. apply list_elem_of_further, list_elem_of_here.
  - split; [vm_compute; reflexivity|]. split; [vm_compute; reflexivity | exact H5].
Defined.



Lemma empty_credential_fails_before_the_network_witness :
  sent (anthropic.Chat {| anthropic.apiKey := ""; anthropic.model := "m" |} quiet
                       (first_request "Hi")).2 = []
  /\ sent (openai.Chat {| openai.apiKey := ""; openai.model := "m";
                          openai.baseURL := openai.openaiDefaultURL |} quiet
                       (first_request "Hi")).2 = [].
Proof.
  destruct (empty_credential_fails_before_the_network (HR := scripted) (HT := canned)
              (HA := anthropic_codec) (HO := openai_codec)
              {| anthropic.apiKey := ""; anthropic.model := "m" |}
              {| openai.apiKey := ""; openai.model := "m";
                 openai.baseURL := openai.openaiDefaultURL |}
              quiet (first_request "Hi") eq_refl eq_refl) as (_ & _ & H3 & H4).
  split; [exact H3 | exact H4].
Defined.

Lemma empty_choices_give_an_empty_response_witness :
  (openai.Chat {| openai.apiKey := "key"; openai.model := "m";
                  openai.baseURL := openai.openaiDefaultURL |} quiet
               (first_request "Hi")).1
  = inl {| resp_Content := ""; resp_ToolCalls := [];
           resp_Usage := {| PromptTokens := 0; CompletionTokens := 0 |} |}.
Proof.
  assert (Hk : "key" <> "") by discriminate.
  destruct (empty_choices_give_an_empty_response (HT := canned) (HO := openai_codec)
              {| openai.apiKey := "key"; openai.model := "m";
                 openai.baseURL := openai.openaiDefaultURL |}
              quiet (first_request "Hi") "request" "{}"
              {| openai.ors_Choices := []; openai.ors_PromptTokens := 0;
                 openai.ors_CompletionTokens := 0; openai.ors_Error := None |} 1
              Hk eq_refl eq_refl eq_refl eq_refl eq_refl) as [H _].
  exact (H eq_refl).
Defined.

Lemma invalid_arguments_degrade_to_null_witness :
  let oops := call "tc1" "echo.run" "{oops" in
  let req := {| req_Model := "";
                req_Messages := [loop.userMsg "Hi"; loop.assistantMsg (answer "" [oops])];
                req_Tools := []; req_MaxTokens := 0 |} in
  let a := {| anthropic.apiKey := "key"; anthropic.model := "m" |} in
  anthropic.ar_Messages (anthropic.buildRequest a req)
  = [{| anthropic.am_Role := "user"; anthropic.am_Content := anthropic.TextContent "Hi" |};
     {| anthropic.am_Role := "assistant";
        anthropic.am_Content :=
          anthropic.BlockContent
            [{| anthropic.cb_Type := "tool_use"; anthropic.cb_Text := "";
                anthropic.cb_ID := "tc1"; anthropic.cb_Name := "echo.run";
                anthropic.cb_Input := JNull; anthropic.cb_ToolUseID := "";
                anthropic.cb_Content := "" |}] |}]
  /\ (anthropic.Chat a quiet req).1 = inl (answer "" []).
Proof.
  intros oops req a.
  destruct (invalid_arguments_degrade_to_null (HR := scripted) (HT := canned)
              (HA := anthropic_codec) a quiet req
              [loop.userMsg "Hi"] [] (loop.assistantMsg (answer "" [oops])) [] [] oops
              eq_refl eq_refl eq_refl) as (H1 & _ & H3 & _).
  split.
  - rewrite (H1 "invalid character" eq_refl). reflexivity.
  - rewrite (H3 "request" "{}"
               {| anthropic.rs_Content := []; anthropic.rs_InputTokens := 0;
                  anthropic.rs_OutputTokens := 0; anthropic.rs_StopReason := "";
                  anthropic.rs_Error := None; anthropic.rs_Type := "" |} 1%nat).
    + reflexivity.
    + discriminate.
    + reflexivity.
    + reflexivity.
    + reflexivity.
    + reflexivity.
    + intros [Ht _]. discriminate.
Defined.

End witnesses.

(** Where the specification says more than the code does. *)
Module counterexamples.
Import testbed.


End counterexamples.

(** The cron parser reproduces what [cron_test.go] expects. *)
Module cron_tests.
Import scheduler fixtures.

Definition parses (expr : string) : bool :=
  match ParseCron expr with Done _ => true | _ => false end.

Definition refused (expr : string) : bool :=
  match ParseCron expr with Failed _ => true | _ => false end.

Definition matches (expr : string) (t : Time) : bool :=
  match ParseCron expr with Done c => Matches c t | _ => false end.

(** [TestParseCronValid]. *)
Example ParseCron_valid :
  forallb parses ["* * * * *"; "0 * * * *"; "*/5 * * * *"; "0 9 * * 1-5"; "30 14 1 * *";
                  "0 0 * * 0"; "0 0 * * 7"; "0,30 * * * *"; "0 9-17 * * *";
                  "0 9-17/2 * * *"] = true.
Proof. vm_compute. reflexivity. Qed.

(** [TestParseCronInvalid]. *)
Example ParseCron_invalid :
  forallb refused [""; "* * *"; "* * * * * *"; "60 * * * *"; "* 25 * * *"; "@every 5m";
                   "abc * * * *"] = true.
Proof. vm_compute. reflexivity. Qed.

(** [TestCronMatches]: weekdays at 9:00. *)
Example Matches_weekdays_at_nine :
  matches "0 9 * * 1-5" mon9 = true
  /\ matches "0 9 * * 1-5"
       {| t_Minute := 30; t_Hour := 9; t_Day := 16; t_Month := 2; t_Weekday := 1 |} = false
  /\ matches "0 9 * * 1-5"
       {| t_Minute := 0; t_Hour := 9; t_Day := 15; t_Month := 2; t_Weekday := 0 |} = false.
Proof. vm_compute. auto. Qed.

(** [TestCronMatchesEveryFiveMinutes]. *)
Example Matches_every_five_minutes :
  forallb (fun minute => Bool.eqb (matches "*/5 * * * *" (new_year 12 minute))
                                  (minute mod 5 =? 0)%nat)
          (seq 0 60) = true.
Proof. vm_compute. reflexivity. Qed.

(** [TestCronSunday7Alias]. *)
Example Matches_sunday_as_seven :
  matches "0 0 * * 7" sun0 = true
  /\ matches "0 0 * * 7"
       {| t_Minute := 0; t_Hour := 0; t_Day := 16; t_Month := 2; t_Weekday := 1 |} = false.
Proof. vm_compute. auto. Qed.

(** [TestCronCommaList]. *)
Example Matches_comma_list :
  forallb (fun minute => matches "0,15,30,45 * * * *" (new_year 12 minute)) [0; 15; 30; 45]
  = true
  /\ matches "0,15,30,45 * * * *" (new_year 12 10) = false.
Proof. vm_compute. auto. Qed.

End cron_tests.

Module more_witnesses.
Import testbed scenarios fixtures.

Lemma run_success_is_recorded_witness :
  last (history (loop.Run hello_loop "Hi" (fresh hello_mock 0)).2 "main")
  = Some {| Role := "assistant"; Content := "Hello!"; ToolCalls := []; ToolCallID := "" |}
  /\ loop.save_log (loop.Run hello_loop "Hi" (fresh hello_mock 0)).2 = ["main"].
Proof.
  destruct (run_success_is_recorded (HR := scripted) (p := hello_mock) hello_loop "Hi"
              (fresh hello_mock 0) "Hello!"
              (loop.Run hello_loop "Hi" (fresh hello_mock 0)).2) as (_ & H1 & H2).
  - vm_compute. reflexivity.
  - split; [exact H1 | exact H2].
Defined.

Lemma no_budget_no_call_witness :
  (loop.Run spent_loop "Hi" (fresh hello_mock 0)).1
  = inl "I've completed processing but have no response to give."
  /\ loop.chat_log (loop.Run spent_loop "Hi" (fresh hello_mock 0)).2 = [].
Proof.
  destruct (no_budget_no_call (HR := scripted) (p := hello_mock) spent_loop "Hi"
              (fresh hello_mock 0)) as (H1 & H2 & _).
  - simpl. lia.
  - split; [exact H1 | exact H2].
Defined.

Lemma truncate_bounds_witness :
  Z.of_nat (String.length (loop.truncate "hello world" 5)) = 8%Z
  /\ loop.truncate "hi" 5 = "hi".
Proof.
  destruct (truncate_bounds "hello world" 5) as [_ H]; [lia|].
  destruct H as [H _]; [simpl; lia|].
  destruct (truncate_bounds "hi" 5) as [H' _]; [lia|].
  split; [exact H | apply H'; simpl; lia].
Defined.

Lemma colon_and_underscore_share_a_file_witness :
  session.sanitize "a:b" = session.sanitize "a_b"
  /\ session.Save two_keys "a:b" idle
     = session.write_snapshot "/tmp/sessions" "a_b.json"
         {| session.Key := "a:b"; session.Messages := []; session.Summary := "colon" |} idle.
Proof.
  destruct (@colon_and_underscore_share_a_file scripted no_files two_keys "a" "b"
              {| session.Key := "a:b"; session.Messages := []; session.Summary := "colon" |}
              {| session.Key := "a_b"; session.Messages := [];
                 session.Summary := "underscore" |} idle) as (H1 & H2 & _).
  - vm_compute. reflexivity.
  - vm_compute. reflexivity.
  - split; [exact H1 | exact H2].
Defined.

Lemma output_is_the_stdout_of_the_tool_witness :
  exists res : ProcResult,
    run_err res = None
    /\ (toolreg.Execute echo_registry echo_call idle).1 = inl (stdout res).
Proof.
  destruct (output_is_the_stdout_of_the_tool (HR := scripted) echo_registry echo_call idle
              (toolreg.Execute echo_registry echo_call idle).2
              ("run hello" +:+ String "010"%char ""))
    as (tn & cn & tool & cd & args & rest & w1 & res & _ & _ & _ & _ & _ & _ & He & Ho).
  - vm_compute. reflexivity.
  - exists res. split; [exact He|]. rewrite <- Ho. vm_compute. reflexivity.
Defined.

Lemma advertised_names_resolve_witness :
  exists tool cmdName cmdDef,
    toolreg.tools echo_registry !! toolreg.tm_Name tool = Some tool
    /\ toolreg.Commands tool !! cmdName = Some cmdDef
    /\ tc_Name echo_call = toolreg.tm_Name tool +:+ "." +:+ cmdName.
Proof.
  destruct (advertised_names_resolve (HR := scripted) echo_registry echo_call idle idle)
    as (tool & cmdName & cmdDef & H1 & H2 & H3 & _).
  - intros k t Hk. unfold echo_registry, toolreg.Register, toolreg.NewRegistry in Hk.
    cbn [toolreg.tools] in Hk.
    apply lookup_insert_Some in Hk as [[<- <-]|[_ Hk]]; [reflexivity|].
    apply lookup_insert_Some in Hk as [[<- <-]|[_ Hk]]; [reflexivity|].
    rewrite lookup_empty in Hk. discriminate.
  - vm_compute. repeat constructor.
  - exists tool, cmdName, cmdDef. split; [exact H1|]. split; [exact H2 | exact H3].
Defined.

Lemma cron_part_marks_a_progression_witness :
  (exists result',
      scheduler.parsePart "*/15" 0 59 (replicate 60 false) = Done result'
      /\ length result' = 60)
  /\ scheduler.parsePart "5/9223372036854775807" 0 59 (replicate 60 false) = Panicked.
Proof.
  split.
  - destruct (cron_part_marks_a_progression "*/15" 0 59 (replicate 60 false) 0 59 15)
      as [H _].
    + lia.
    + vm_compute. discriminate.
    + reflexivity.
    + exists "*". repeat split; try (vm_compute; reflexivity); lia.
    + destruct H as (result' & H1 & H2 & _); [vm_compute; discriminate|].
      exists result'. split; [exact H1 | exact H2].
  - destruct (cron_part_marks_a_progression "5/9223372036854775807" 0 59
                (replicate 60 false) 5 5 9223372036854775807) as [_ H].
    + lia.
    + vm_compute. discriminate.
    + reflexivity.
    + exists "5". repeat split; try (vm_compute; reflexivity); lia.
    + apply H. vm_compute. reflexivity.
Defined.

Lemma cron_matches_what_the_fields_name_witness :
  exists c,
    scheduler.ParseCron "0 9 * * 1-5" = Done c
    /\ (scheduler.Matches c mon9 = true
        <-> names "0" 0 59 (Z.of_nat (scheduler.t_Minute mon9))
            /\ names "9" 0 23 (Z.of_nat (scheduler.t_Hour mon9))
            /\ names "*" 1 31 (Z.of_nat (scheduler.t_Day mon9))
            /\ names "*" 1 12 (Z.of_nat (scheduler.t_Month mon9))
            /\ (names "1-5" 0 7 (Z.of_nat (scheduler.t_Weekday mon9))
                \/ scheduler.t_Weekday mon9 = 0 /\ names "1-5" 0 7 7)).
Proof.
  eexists. split; [vm_compute; reflexivity|].
  apply (cron_matches_what_the_fields_name "0 9 * * 1-5" _ "0" "9" "*" "*" "1-5" mon9).
  - vm_compute. reflexivity.
  - vm_compute. reflexivity.
  - simpl. lia.
  - simpl. lia.
  - simpl. lia.
  - simpl. lia.
  - simpl. lia.
Defined.

Lemma bootstrap_overshoots_by_a_constant_witness :
  exists text,
    bootstrap.loadBootstrapFiles two_files (builder 100 12) = Done text
    /\ (Z.of_nat (String.length text) <= 125)%Z.
Proof.
  destruct (bootstrap_overshoots_by_a_constant two_files (builder 100 12))
    as (text & H1 & _ & H2).
  - simpl. lia.
  - exists text. split; [exact H1 | exact H2].
Defined.

Lemma negative_file_cap_panics_witness :
  bootstrap.loadBootstrapFiles two_files (builder (-1) 10) = Panicked.
Proof.
  apply (negative_file_cap_panics two_files (builder (-1) 10) "SOUL.md").
  - simpl. lia.
  - simpl. lia.
  - apply list_elem_of_further, list_elem_of_here.
  - vm_compute. discriminate.
Defined.

End more_witnesses.
